(** * vncpasswd: a shallow embedding of unix/vncpasswd/vncpasswd.c

    The program obtains one or two VNC passwords (from a terminal or from
    standard input), checks the directory that will hold them and hands them
    to the storage routine; alternatively it pushes a one-time password or an
    access-control entry to a running X server through a window property.

    Character arrays are lists of characters with the C string functions
    written out on them; the surroundings of the process (environment,
    file system, terminal, X server, entropy) are a record the functions
    thread through a state-and-exit monad. *)

From Stdlib Require Import String Ascii List ZArith NArith Lia Bool Arith.
Import ListNotations.

Local Open Scope list_scope.

Notation "a +s+ b" := (String.append a b) (at level 60, right associativity).

(** ** Characters and character arrays *)

Definition buf := list ascii.

Definition NUL : ascii := "000"%char.
Definition newline : ascii := "010"%char.
Definition nl : string := String newline EmptyString.
Definition dquote : string := String "034"%char EmptyString.

Definition chars (s : string) : list ascii := list_ascii_of_string s.
Definition text (l : list ascii) : string := string_of_list_ascii l.

(** [strlen]: the number of characters before the first NUL.  The scan stops
    at the end of the array; what C would read past it is not modelled. *)
Fixpoint strlen (b : buf) : nat :=
  match b with
  | [] => 0
  | c :: r => if Ascii.eqb c NUL then 0 else S (strlen r)
  end.

(** The C string an array holds. *)
Definition cstr (b : buf) : list ascii := firstn (strlen b) b.

(** [memset (b + off, c, n)]; stores past the end of the array are dropped. *)
Fixpoint memset (b : buf) (off : nat) (c : ascii) (n : nat) : buf :=
  match b with
  | [] => []
  | x :: r =>
      match off with
      | S o => x :: memset r o c n
      | O => match n with
             | O => b
             | S n' => c :: memset r 0 c n'
             end
      end
  end.

(** [memcpy (dst + off, src, n)]. *)
Fixpoint memcpy (dst : buf) (off : nat) (src : buf) (n : nat) : buf :=
  match dst with
  | [] => []
  | x :: r =>
      match off with
      | S o => x :: memcpy r o src n
      | O => match n, src with
             | S n', s :: sr => s :: memcpy r 0 sr n'
             | _, _ => dst
             end
      end
  end.

(** [strcpy (dst, src)]: the characters of [src] up to and including its NUL. *)
Fixpoint strcpy (dst src : buf) : buf :=
  match dst with
  | [] => []
  | d :: dr =>
      match src with
      | [] => dst
      | s :: sr => if Ascii.eqb s NUL then NUL :: dr else s :: strcpy dr sr
      end
  end.

(** [strchr (b, c)]: the index of the first [c] in the string held by [b],
    the terminating NUL counting as part of the string. *)
Fixpoint strchr (b : buf) (c : ascii) : option nat :=
  match b with
  | [] => None
  | x :: r =>
      if Ascii.eqb x c then Some 0
      else if Ascii.eqb x NUL then None
      else option_map S (strchr r c)
  end.

(** [b[i] = c]. *)
Fixpoint poke (b : buf) (i : nat) (c : ascii) : buf :=
  match b, i with
  | [], _ => []
  | _ :: r, O => c :: r
  | x :: r, S i' => x :: poke r i' c
  end.

Definition list_ascii_eqb (a b : list ascii) : bool :=
  String.eqb (text a) (text b).

(** [strcmp (a, b) == 0]. *)
Definition strcmp_eq (a b : buf) : bool := list_ascii_eqb (cstr a) (cstr b).

(** [strncmp (a, b, n) == 0] on NUL-free strings. *)
Fixpoint strncmp_eq (a b : string) (n : nat) {struct n} : bool :=
  match n with
  | O => true
  | S n' =>
      match a, b with
      | EmptyString, EmptyString => true
      | String x a', String y b' => Ascii.eqb x y && strncmp_eq a' b' n'
      | _, _ => false
      end
  end.

(** [s[i]] for a C string: the terminator is read at [i = strlen s]. *)
Definition char_at (s : string) (i : nat) : ascii :=
  match String.get i s with
  | Some c => c
  | None => NUL
  end.

(** A string literal as the array the compiler lays out. *)
Definition literal (s : string) : buf := chars s ++ [NUL].

(** What [printf ("%.*s", n, b)] prints: at most [n] characters of the string. *)
Fixpoint str_prec (n : nat) (b : buf) : list ascii :=
  match n, b with
  | S n', c :: r => if Ascii.eqb c NUL then [] else c :: str_prec n' r
  | _, _ => []
  end.

(** ** The surroundings of the process *)

(** Result of [lstat]: an [errno], or the two fields the program reads. *)
Record stat := mkStat { st_mode : Z; st_uid : Z }.

Inductive lstat_result :=
| Lstat_err (errno : Z)
| Lstat_ok (st : stat).

Definition ENOENT : Z := 2.
Definition S_IFMT : Z := 61440.   (* 0170000 *)
Definition S_IFDIR : Z := 16384.  (* 0040000 *)
Definition S_IFLNK : Z := 40960.  (* 0120000 *)
Definition S_IFREG : Z := 32768.  (* 0100000 *)
Definition S_IRWXU : Z := 448.    (* 0700 *)
Definition S_IRWXG : Z := 56.     (* 0070 *)
Definition S_IRWXO : Z := 7.      (* 0007 *)

Definition S_ISDIR (m : Z) : bool := Z.eqb (Z.land m S_IFMT) S_IFDIR.

(** Calls that leave the process, in the order they are made. *)
Inductive event :=
| EvMkdir (path : string) (mode : Z)
| EvGetpass (prompt : string)
| EvXOpenDisplay (name : option string)
| EvXChangeProperty (prop : string) (data : list ascii)
| EvXCloseDisplay
| EvStore (passwd1 : list ascii) (passwd2 : option (list ascii)) (file : string).

(** What does not change during a run. *)
Record config := mkConfig {
  c_env : string -> option string;          (* getenv *)
  c_uid : Z;                                (* getuid (): the real user id *)
  c_euid : Z;                               (* the effective user id, owner of created files *)
  c_umask : Z;
  c_mkdir_errno : string -> option Z;       (* Some e: mkdir fails with errno e *)
  c_strerror : Z -> string;
  c_display_opens : option string -> bool;  (* XOpenDisplay returns a display *)
  c_atom_exists : string -> bool;           (* XInternAtom (.., True) finds the atom *)
  c_store_ok : list ascii -> option (list ascii) -> string -> bool;
                                            (* vncEncryptAndStorePasswd2 reports success *)
  c_UseDevUrandom : bool;                   (* the compile-time switch *)
  c_urandom_errno : option Z;               (* Some e: opening /dev/urandom fails with e *)
  c_junk : nat -> ascii                     (* what uninitialised storage holds *)
}.

Record world := mkWorld {
  w_cfg : config;
  w_fs : string -> lstat_result;   (* what lstat sees *)
  w_stdin : list ascii;            (* unread standard input *)
  w_tty : list (option string);    (* what the next calls of getpass obtain; None is NULL *)
  w_getpass : buf;                 (* the static buffer getpass returns *)
  w_entropy : list N;              (* values the random source will deliver *)
  w_stderr : list string;          (* what was written to stderr, oldest first *)
  w_events : list event            (* oldest first *)
}.

Definition set_fs (f : string -> lstat_result) (w : world) : world :=
  mkWorld (w_cfg w) f (w_stdin w) (w_tty w) (w_getpass w) (w_entropy w)
          (w_stderr w) (w_events w).
Definition set_stdin (s : list ascii) (w : world) : world :=
  mkWorld (w_cfg w) (w_fs w) s (w_tty w) (w_getpass w) (w_entropy w)
          (w_stderr w) (w_events w).
Definition set_tty (t : list (option string)) (w : world) : world :=
  mkWorld (w_cfg w) (w_fs w) (w_stdin w) t (w_getpass w) (w_entropy w)
          (w_stderr w) (w_events w).
Definition set_getpass (b : buf) (w : world) : world :=
  mkWorld (w_cfg w) (w_fs w) (w_stdin w) (w_tty w) b (w_entropy w)
          (w_stderr w) (w_events w).
Definition set_entropy (e : list N) (w : world) : world :=
  mkWorld (w_cfg w) (w_fs w) (w_stdin w) (w_tty w) (w_getpass w) e
          (w_stderr w) (w_events w).
Definition put_stderr (s : string) (w : world) : world :=
  mkWorld (w_cfg w) (w_fs w) (w_stdin w) (w_tty w) (w_getpass w) (w_entropy w)
          (w_stderr w ++ [s]) (w_events w).
Definition put_event (e : event) (w : world) : world :=
  mkWorld (w_cfg w) (w_fs w) (w_stdin w) (w_tty w) (w_getpass w) (w_entropy w)
          (w_stderr w) (w_events w ++ [e]).

(** ** The monad: state, [exit] and faults *)

Inductive outcome (A : Type) : Type :=
| Ret (a : A)          (* the call returned *)
| Exit (code : Z)      (* exit (code) was called *)
| Fault                (* a NULL or wild pointer was dereferenced *)
| OutOfFuel.           (* the round budget of a loop ran out *)

Arguments Ret {A} a.
Arguments Exit {A} code.
Arguments Fault {A}.
Arguments OutOfFuel {A}.

Definition M (A : Type) : Type := world -> outcome A * world.

Definition ret {A} (a : A) : M A := fun w => (Ret a, w).

Definition bind {A B} (m : M A) (k : A -> M B) : M B :=
  fun w =>
    match m w with
    | (Ret a, w') => k a w'
    | (Exit c, w') => (Exit c, w')
    | (Fault, w') => (Fault, w')
    | (OutOfFuel, w') => (OutOfFuel, w')
    end.

Notation "x <- m ;; k" := (bind m (fun x => k))
  (at level 61, m at next level, right associativity).
Notation "m ;;; k" := (bind m (fun _ => k))
  (at level 61, right associativity).

Definition exit {A} (code : Z) : M A := fun w => (Exit code, w).
Definition fault {A} : M A := fun w => (Fault, w).
Definition out_of_fuel {A} : M A := fun w => (OutOfFuel, w).

Definition gets {A} (f : world -> A) : M A := fun w => (Ret (f w), w).
Definition modify (f : world -> world) : M unit := fun w => (Ret tt, f w).

Definition when (c : bool) (m : M unit) : M unit := if c then m else ret tt.

(** ** The C library and Xlib, as far as the program uses them *)

Definition fprintf_stderr (s : string) : M unit := modify (put_stderr s).

Definition getenv (name : string) : M (option string) :=
  gets (fun w => c_env (w_cfg w) name).

(** An uninitialised array of [n] characters. *)
Definition uninit (n : nat) : M buf :=
  gets (fun w => map (c_junk (w_cfg w)) (seq 0 n)).

(** The characters [fgets] with room for [n] of them takes from a stream, and
    what it leaves: it stops after a newline. *)
Fixpoint fgets_take (n : nat) (s : list ascii) : list ascii * list ascii :=
  match n with
  | O => ([], s)
  | S n' =>
      match s with
      | [] => ([], [])
      | c :: r =>
          if Ascii.eqb c newline then ([c], r)
          else let (l, r') := fgets_take n' r in (c :: l, r')
      end
  end.

(** [fgets (b, size, stdin)]: [None] is the NULL it returns at end of input,
    the array being left as it was. *)
Definition fgets (b : buf) (size : nat) : M (option buf) :=
  fun w =>
    match w_stdin w with
    | [] => (Ret None, w)
    | _ :: _ =>
        let (l, r) := fgets_take (size - 1) (w_stdin w) in
        (Ret (Some (memcpy b 0 (l ++ [NUL]) (length l + 1))), set_stdin r w)
    end.

(** [getpass (prompt)]: the answer is laid over the static buffer, which grows
    when the answer needs it.  [true] stands for the pointer to that buffer,
    [false] for NULL; past the end of the script the terminal is gone. *)
Definition getpass (prompt : string) : M bool :=
  fun w =>
    match w_tty w with
    | Some s :: t =>
        let line := chars s ++ [NUL] in
        (Ret true,
         put_event (EvGetpass prompt)
           (set_getpass (line ++ skipn (length line) (w_getpass w))
              (set_tty t w)))
    | None :: t => (Ret false, put_event (EvGetpass prompt) (set_tty t w))
    | [] => (Ret false, put_event (EvGetpass prompt) w)
    end.

Definition lstat (path : string) : M lstat_result :=
  gets (fun w => w_fs w path).

Definition getuid : M Z := gets (fun w => c_uid (w_cfg w)).

(** [mkdir (path, mode)]: 0, the new directory belonging to the effective
    user with the mode the umask leaves; or -1 and the errno. *)
Definition mkdir (path : string) (mode : Z) : M (Z * Z) :=
  fun w =>
    let w1 := put_event (EvMkdir path mode) w in
    match c_mkdir_errno (w_cfg w) path with
    | Some e => (Ret ((-1)%Z, e), w1)
    | None =>
        let st := mkStat (Z.lor S_IFDIR (Z.land mode (Z.lnot (c_umask (w_cfg w)))))
                         (c_euid (w_cfg w)) in
        (Ret (0%Z, 0%Z),
         set_fs (fun p => if String.eqb p path then Lstat_ok st else w_fs w p) w1)
    end.

Definition XDisplayName (name : option string) : M string :=
  match name with
  | Some s => ret s
  | None => d <- getenv "DISPLAY" ;;
            ret (match d with Some s => s | None => EmptyString end)
  end.

(** [XOpenDisplay]: [true] for a display, [false] for NULL. *)
Definition XOpenDisplay (name : option string) : M bool :=
  fun w => (Ret (c_display_opens (w_cfg w) name),
            put_event (EvXOpenDisplay name) w).

(** [XInternAtom (dpy, name, True)]: [false] is the atom None. *)
Definition XInternAtom (name : string) : M bool :=
  gets (fun w => c_atom_exists (w_cfg w) name).

(** [XChangeProperty (dpy, root, prop, XA_STRING, 8, PropModeReplace, data, len)]. *)
Definition XChangeProperty (prop : string) (data : buf) (len : nat) : M unit :=
  modify (put_event (EvXChangeProperty prop (firstn len data))).

Definition XCloseDisplay : M unit := modify (put_event EvXCloseDisplay).

(** [vncEncryptAndStorePasswd2 (passwd1, passwd2, file)] of vncauth: it takes
    the strings and reports whether the file was written. *)
Definition vncEncryptAndStorePasswd2
    (passwd1 : buf) (passwd2 : option buf) (file : string) : M bool :=
  fun w =>
    let p1 := cstr passwd1 in
    let p2 := option_map cstr passwd2 in
    (Ret (c_store_ok (w_cfg w) p1 p2 file), put_event (EvStore p1 p2 file) w).

(** ** The program *)

(** [MAXPWLEN] comes from vncauth.h. *)
Definition MAXPWLEN : nat := 8.
Definition MAXUSERLEN : nat := 63.

(** The file-scope variables; flags that are only tested are booleans,
    [addUser] stays an integer because it is or-ed into a byte. *)
Record globals := mkGlobals {
  alsoView : bool;
  otp : bool;
  otpClear : bool;
  displayname : option string;
  addUser : Z;
  userList : bool;
  user : option string
}.

Definition globals0 : globals :=
  mkGlobals false false false None 0 false None.

(** An [unsigned int] holds a value modulo 2^32. *)
Definition to_uint (v : N) : N := (v mod 4294967296)%N.

(** [read (fd, &x, sizeof (x))] on /dev/urandom: [None] is a short read. *)
Definition read_urandom : M (option N) :=
  fun w =>
    match w_entropy w with
    | [] => (Ret None, w)
    | v :: r => (Ret (Some (to_uint v)), set_entropy r w)
    end.

(** [random ()] after [srandom (time)], stored in an [unsigned int]. *)
Definition random : M N :=
  fun w =>
    match w_entropy w with
    | [] => (Ret 0%N, w)
    | v :: r => (Ret (to_uint v), set_entropy r w)
    end.

Definition digit (d : N) : ascii := ascii_of_N (48 + d).

(** The decimal digits of [v], least significant first. *)
Fixpoint digits_rev (fuel : nat) (v : N) : list ascii :=
  match fuel with
  | O => []
  | S f =>
      digit (v mod 10) ::
      (if N.eqb (v / 10) 0 then [] else digits_rev f (v / 10))
  end.

(** ["%u"] of an [unsigned int]: at most ten digits. *)
Definition fmt_u (v : N) : list ascii := rev (digits_rev 10 v).

(** ["%08u"]: zeros on the left up to a width of at least eight. *)
Definition fmt_08u (v : N) : list ascii :=
  let d := fmt_u v in repeat "0"%char (8 - length d) ++ d.

(** [snprintf (b, size, ...)] with the formatted text [s]: at most [size - 1]
    characters of it and a NUL. *)
Definition snprintf (b : buf) (size : nat) (s : list ascii) : buf :=
  memcpy b 0 (firstn (size - 1) s ++ [NUL]) size.

Definition char_of_Z (z : Z) : ascii := ascii_of_N (Z.to_N (z mod 256)).

(** What [DoOTP] returns, with its two arrays as they are left at that point. *)
Record DoOTP_ret := mkDoOTP {
  otp_value : Z;
  otp_buf : buf;
  otp_bytes : buf
}.

Definition DoOTP (g : globals) : M DoOTP_ret :=
  buf0 <- uninit (MAXPWLEN + 1) ;;
  bytes0 <- uninit (MAXPWLEN * 2) ;;
  let finish (b bytes : buf) (len : nat) : M DoOTP_ret :=
    XChangeProperty "VNC_OTP" bytes len ;;;
    let bytes := memset bytes 0 NUL (MAXPWLEN * 2) in
    XCloseDisplay ;;;
    ret (mkDoOTP 0 b bytes) in
  let format (full view : N) : M DoOTP_ret :=
    let b := snprintf buf0 (MAXPWLEN + 1) (fmt_08u full) in
    let bytes := memcpy bytes0 0 b MAXPWLEN in
    fprintf_stderr ("Full control one-time password: "
                    +s+ text (str_prec MAXPWLEN bytes) +s+ nl) ;;;
    if alsoView g then
      let b := snprintf b (MAXPWLEN + 1) (fmt_08u view) in
      let bytes := memcpy bytes MAXPWLEN b MAXPWLEN in
      fprintf_stderr ("View-only one-time password: "
                      +s+ text (str_prec MAXPWLEN (skipn MAXPWLEN bytes)) +s+ nl) ;;;
      finish b bytes (MAXPWLEN * 2)
    else finish b bytes MAXPWLEN in
  dpy <- XOpenDisplay (displayname g) ;;
  if negb dpy then
    n <- XDisplayName (displayname g) ;;
    fprintf_stderr ("unable to open display " +s+ dquote +s+ n +s+ dquote +s+ nl) ;;;
    ret (mkDoOTP 1 buf0 bytes0)
  else
    prop <- XInternAtom "VNC_OTP" ;;
    if negb prop then
      n <- XDisplayName (displayname g) ;;
      fprintf_stderr ("The X display " +s+ dquote +s+ n +s+ dquote
                      +s+ " does not support VNC one-time passwords" +s+ nl) ;;;
      ret (mkDoOTP 1 buf0 bytes0)
    else if otpClear g then finish buf0 bytes0 0
    else
      use_urandom <- gets (fun w => c_UseDevUrandom (w_cfg w)) ;;
      if use_urandom : bool then
        fd <- gets (fun w => c_urandom_errno (w_cfg w)) ;;
        match fd with
        | Some e =>
            msg <- gets (fun w => c_strerror (w_cfg w) e) ;;
            fprintf_stderr ("/dev/urandom: " +s+ msg +s+ nl) ;;;
            ret (mkDoOTP 1 buf0 bytes0)
        | None =>
          let short_read :=
            fprintf_stderr ("Could not read random number from /dev/urandom" +s+ nl) ;;;
            ret (mkDoOTP 1 buf0 bytes0) in
          r1 <- read_urandom ;;
          match r1 with
          | None => short_read
          | Some full =>
              if alsoView g then
                r2 <- read_urandom ;;
                match r2 with
                | None => short_read
                | Some view => format full view
                end
              else format full 0%N
          end
        end
      else
        full <- random ;;
        if alsoView g then view <- random ;; format full view
        else format full 0%N.

Definition DoUserList (g : globals) : M Z :=
  bytes0 <- uninit (MAXUSERLEN + 1) ;;
  let missing : M Z := fprintf_stderr "missing the username!" ;;; ret 1%Z in
  match user g with
  | None => missing
  | Some u =>
      let len := String.length u in
      if Nat.eqb len 0 then missing
      else if Nat.ltb MAXUSERLEN len then
        fprintf_stderr "username is too large" ;;; ret 1%Z
      else
        dpy <- XOpenDisplay (displayname g) ;;
        if negb dpy then
          n <- XDisplayName (displayname g) ;;
          fprintf_stderr ("unable to open display " +s+ dquote +s+ n +s+ dquote +s+ nl) ;;;
          ret 1%Z
        else
          prop <- XInternAtom "VNC_ACL" ;;
          if negb prop then
            n <- XDisplayName (displayname g) ;;
            fprintf_stderr ("The X server " +s+ dquote +s+ n +s+ dquote
                            +s+ " does not support VNC user access control lists" +s+ nl) ;;;
            ret 1%Z
          else
            let bytes :=
              poke bytes0 0
                   (char_of_Z (Z.lor (addUser g) (if alsoView g then 16 else 0))) in
            let bytes := memcpy bytes 1 (chars u) len in
            XChangeProperty "VNC_ACL" bytes (len + 1) ;;;
            XCloseDisplay ;;;
            ret 0%Z
  end.

Definition usage {A : Type} (argv0 : string) : M A :=
  fprintf_stderr ("usage: " +s+ argv0 +s+ " [-v] [FILE]" +s+ nl) ;;;
  fprintf_stderr ("       " +s+ argv0 +s+ " -f" +s+ nl) ;;;
  fprintf_stderr ("       " +s+ argv0 +s+ " -t [-v]" +s+ nl) ;;;
  fprintf_stderr ("       " +s+ argv0 +s+ " -o [-v] [-display VNC-DISPLAY]" +s+ nl) ;;;
  fprintf_stderr ("       " +s+ argv0 +s+ " -c [-display VNC-DISPLAY]" +s+ nl) ;;;
  fprintf_stderr ("       " +s+ argv0 +s+ " -a USER [-v] [-display VNC-DISPLAY]" +s+ nl) ;;;
  fprintf_stderr ("       " +s+ argv0 +s+ " -r USER [-display VNC-DISPLAY]" +s+ nl) ;;;
  exit 1.

Definition getenv_safe (name : string) (maxlen : nat) : M string :=
  result <- getenv name ;;
  match result with
  | None =>
      fprintf_stderr ("Error: no " +s+ name +s+ " environment variable" +s+ nl) ;;;
      exit 1
  | Some r =>
      if Nat.ltb maxlen (String.length r) then
        fprintf_stderr ("Error: " +s+ name
                        +s+ " environment variable string too long" +s+ nl) ;;;
        exit 1
      else ret r
  end.

Definition mkdir_and_check (dirname : string) (be_strict : bool) : M unit :=
  r <- lstat dirname ;;
  match r with
  | Lstat_err errno =>
      if negb (Z.eqb errno ENOENT) then
        msg <- gets (fun w => c_strerror (w_cfg w) errno) ;;
        fprintf_stderr ("lstat() failed for " +s+ dirname +s+ ": " +s+ msg +s+ nl) ;;;
        exit 1
      else
        fprintf_stderr ("VNC directory " +s+ dirname
                        +s+ " does not exist, creating." +s+ nl) ;;;
        m <- mkdir dirname S_IRWXU ;;
        if Z.eqb (fst m) (-1) then
          msg <- gets (fun w => c_strerror (w_cfg w) (snd m)) ;;
          fprintf_stderr ("Error creating directory " +s+ dirname
                          +s+ ": " +s+ msg +s+ nl) ;;;
          exit 1
        else ret tt
  | Lstat_ok _ => ret tt
  end ;;;
  r <- lstat dirname ;;
  match r with
  | Lstat_err errno =>
      msg <- gets (fun w => c_strerror (w_cfg w) errno) ;;
      fprintf_stderr ("Error in lstat() for " +s+ dirname +s+ ": " +s+ msg +s+ nl) ;;;
      exit 1
  | Lstat_ok stbuf =>
      when (negb (S_ISDIR (st_mode stbuf)))
        (fprintf_stderr ("Error: " +s+ dirname +s+ " is not a directory" +s+ nl) ;;;
         exit 1) ;;;
      uid <- getuid ;;
      when (negb (Z.eqb (st_uid stbuf) uid))
        (fprintf_stderr ("Error: bad ownership on " +s+ dirname +s+ nl) ;;;
         exit 1) ;;;
      when (be_strict
            && negb (Z.eqb (Z.land (Z.lor S_IRWXG S_IRWXO) (st_mode stbuf)) 0))
        (fprintf_stderr ("Error: bad access modes on " +s+ dirname +s+ nl) ;;;
         exit 1)
  end.

Definition truncation_warning : string :=
  "Warning: password truncated to the length of 8." +s+ nl.

(** What [read_password] returns: its value, the caller's array, and its own
    array [passwd] as it is left. *)
Record read_password_ret := mkRead {
  read_value : Z;
  read_result : buf;
  read_passwd : buf
}.

Definition read_password (result : buf) : M read_password_ret :=
  passwd0 <- uninit 256 ;;
  r <- fgets passwd0 256 ;;
  match r with
  | None => ret (mkRead 0 result passwd0)
  | Some passwd =>
      let passwd :=
        match strchr passwd newline with
        | Some ptr => poke passwd ptr NUL
        | None => passwd
        end in
      passwd <- (if Nat.ltb 8 (strlen passwd) then
                   let passwd := memset passwd 8 NUL (strlen passwd - 8) in
                   fprintf_stderr truncation_warning ;;;
                   ret passwd
                 else ret passwd) ;;
      let result := strcpy result passwd in
      let passwd := memset passwd 0 NUL (strlen passwd) in
      ret (mkRead 1 result passwd)
  end.

(** What [ask_password] returns: its value, the caller's array, and its own
    array [passwd_copy] as it is left; the array [passwd] points to is the
    static buffer of getpass, in the world. *)
Record ask_password_ret := mkAsk {
  ask_value : Z;
  ask_result : buf;
  ask_passwd_copy : buf
}.

Definition static_buffer : M buf := gets w_getpass.

(** The [while (1)] of [ask_password], [fuel] rounds of it. *)
Fixpoint ask_password_loop (fuel : nat) (result passwd_copy : buf)
  : M ask_password_ret :=
  match fuel with
  | O => out_of_fuel
  | S fuel' =>
      passwd <- getpass "Password: " ;;
      if negb passwd then
        fprintf_stderr ("Can't get password: not a tty?" +s+ nl) ;;;
        ret (mkAsk 0 result passwd_copy)
      else
        s <- static_buffer ;;
        if Nat.ltb (strlen s) 6 then
          fprintf_stderr ("Password too short" +s+ nl) ;;;
          ret (mkAsk 0 result passwd_copy)
        else
          when (Nat.ltb 8 (strlen s))
            (modify (set_getpass (memset s 8 NUL (strlen s - 8))) ;;;
             fprintf_stderr truncation_warning) ;;;
          s <- static_buffer ;;
          let passwd_copy := strcpy passwd_copy s in
          passwd <- getpass "Verify:   " ;;
          if negb passwd then fault
          else
            s <- static_buffer ;;
            when (Nat.ltb 8 (strlen s))
              (modify (set_getpass (memset s 8 NUL (strlen s - 8)))) ;;;
            s <- static_buffer ;;
            if strcmp_eq s passwd_copy then
              let result := strcpy result s in
              modify (set_getpass (memset s 0 NUL (strlen s))) ;;;
              let passwd_copy :=
                memset passwd_copy 0 NUL (strlen passwd_copy) in
              ret (mkAsk 1 result passwd_copy)
            else
              fprintf_stderr ("Passwords do not match. Please try again."
                              +s+ nl +s+ nl) ;;;
              ask_password_loop fuel' result passwd_copy
  end.

(** Every round takes at least one answer from the terminal and the loop is
    left when there is none, so one round more than there are answers is
    enough. *)
Definition ask_password (result : buf) : M ask_password_ret :=
  passwd_copy <- uninit 9 ;;
  rounds <- gets (fun w => S (length (w_tty w))) ;;
  ask_password_loop rounds result passwd_copy.

(** The variables of [main] that the option loop sets. *)
Record locals := mkLocals {
  read_from_stdin : bool;
  make_directory : bool;
  check_strictly : bool;
  passwdDir : string;
  passwdFile : string
}.

(** The [for] loop of [main] over [argv[i]], [i >= 1]: it returns the
    variables and the arguments from the one it stopped at. *)
Fixpoint main_options (argv0 : string) (args : list string)
    (g : globals) (l : locals) : M (globals * locals * list string) :=
  match args with
  | [] => ret (g, l, [])
  | a :: rest =>
      if negb (Ascii.eqb (char_at a 0) "-") then ret (g, l, args)
      else
        let c := char_at a 1 in
        if Ascii.eqb c "d" then
          if negb (String.eqb "-display" a) then usage argv0
          else
            match rest with
            | [] => usage argv0
            | d :: rest' =>
                main_options argv0 rest'
                  (mkGlobals (alsoView g) (otp g) (otpClear g) (Some d)
                             (addUser g) (userList g) (user g)) l
            end
        else if Ascii.eqb c "c" then
          main_options argv0 rest
            (mkGlobals (alsoView g) true true (displayname g)
                       (addUser g) (userList g) (user g))
            (mkLocals (read_from_stdin l) false (check_strictly l)
                      (passwdDir l) (passwdFile l))
        else if Ascii.eqb c "o" then
          main_options argv0 rest
            (mkGlobals (alsoView g) true (otpClear g) (displayname g)
                       (addUser g) (userList g) (user g))
            (mkLocals (read_from_stdin l) false (check_strictly l)
                      (passwdDir l) (passwdFile l))
        else if Ascii.eqb c "a" then
          match rest with
          | [] => usage argv0
          | u :: rest' =>
              main_options argv0 rest'
                (mkGlobals (alsoView g) (otp g) (otpClear g) (displayname g)
                           1 true (Some u))
                (mkLocals (read_from_stdin l) false (check_strictly l)
                          (passwdDir l) (passwdFile l))
          end
        else if Ascii.eqb c "r" then
          match rest with
          | [] => usage argv0
          | u :: rest' =>
              main_options argv0 rest'
                (mkGlobals (alsoView g) (otp g) (otpClear g) (displayname g)
                           0 true (Some u))
                (mkLocals (read_from_stdin l) false (check_strictly l)
                          (passwdDir l) (passwdFile l))
          end
        else if Ascii.eqb c "f" then
          main_options argv0 rest g
            (mkLocals true false false (passwdDir l) "-")
        else if Ascii.eqb c "t" then
          u <- getenv_safe "USER" 32 ;;
          let dir := "/tmp/" +s+ u +s+ "-vnc" in
          main_options argv0 rest g
            (mkLocals false true true dir (dir +s+ "/passwd"))
        else if Ascii.eqb c "v" then
          main_options argv0 rest
            (mkGlobals true (otp g) (otpClear g) (displayname g)
                       (addUser g) (userList g) (user g)) l
        else usage argv0
  end.

(** What [main] returns, with its two password arrays as they are left. *)
Record main_ret := mkMain {
  main_value : Z;
  main_passwd1 : buf;
  main_passwd2 : buf
}.

Definition main (argv : list string) : M main_ret :=
  match argv with
  | [] => fault
  | argv0 :: args =>
      home <- getenv_safe "HOME" 240 ;;
      let dir := home +s+ "/.vnc" in
      opts <- main_options argv0 args globals0
                (mkLocals false true false dir (dir +s+ "/passwd")) ;;
      let '(g, l, rest) := opts in
      when (otp g)
        (when (read_from_stdin l)
           (fprintf_stderr ("Error: -f is incompatible with -o" +s+ nl) ;;;
            exit 1) ;;;
         when (strncmp_eq (passwdDir l) "/tmp" 4)
           (fprintf_stderr ("Error: -t is incompatible with -o" +s+ nl) ;;;
            exit 1) ;;;
         when (userList g)
           (fprintf_stderr ("Error: -a and -r are incompatible with -o" +s+ nl) ;;;
            exit 1) ;;;
         r <- DoOTP g ;;
         exit (otp_value r)) ;;;
      when (userList g)
        (when (read_from_stdin l)
           (fprintf_stderr ("Error: -f is incompatible with -a and -r" +s+ nl) ;;;
            exit 1) ;;;
         when (strncmp_eq (passwdDir l) "/tmp" 4)
           (fprintf_stderr ("Error: -t is incompatible with -a and -r" +s+ nl) ;;;
            exit 1) ;;;
         when (otp g)
           (fprintf_stderr ("Error: -o is incompatible with -a and -r" +s+ nl) ;;;
            exit 1) ;;;
         r <- DoUserList g ;;
         exit r) ;;;
      l <- match rest with
           | [] => ret l
           | file :: _ =>
               when (Nat.ltb (263 - 1) (String.length file))
                 (fprintf_stderr ("Error: file name too long" +s+ nl) ;;;
                  exit 1) ;;;
               when (read_from_stdin l)
                 (fprintf_stderr ("Error: cannot specify filename with -f" +s+ nl) ;;;
                  exit 1) ;;;
               ret (mkLocals false false false (passwdDir l) file)
           end ;;
      when (make_directory l)
        (fprintf_stderr ("Using password file " +s+ passwdFile l +s+ nl) ;;;
         mkdir_and_check (passwdDir l) (check_strictly l)) ;;;
      passwd1 <- uninit 9 ;;
      passwd2 <- uninit 9 ;;
      got <- (if read_from_stdin l then
                r1 <- read_password passwd1 ;;
                when (Z.eqb (read_value r1) 0)
                  (fprintf_stderr ("Could not read password" +s+ nl) ;;;
                   exit 1) ;;;
                r2 <- read_password passwd2 ;;
                ret (read_result r1, read_result r2,
                     negb (Z.eqb (read_value r2) 0))
              else
                a1 <- ask_password passwd1 ;;
                when (Z.eqb (ask_value a1) 0) (exit 1) ;;;
                g <- (if alsoView g then
                        fprintf_stderr ("Enter the view-only password" +s+ nl) ;;;
                        ret g
                      else
                        fprintf_stderr
                          "Would you like to enter a view-only password (y/n)? " ;;;
                        yesno0 <- uninit 2 ;;
                        r <- fgets yesno0 2 ;;
                        match r with
                        | None => ret g
                        | Some yesno =>
                            match strchr (literal "Yy") (nth 0 yesno NUL) with
                            | Some _ =>
                                ret (mkGlobals true (otp g) (otpClear g)
                                       (displayname g) (addUser g)
                                       (userList g) (user g))
                            | None => ret g
                            end
                        end) ;;
                if alsoView g then
                  a2 <- ask_password passwd2 ;;
                  ret (ask_result a1, ask_result a2,
                       negb (Z.eqb (ask_value a2) 0))
                else ret (ask_result a1, passwd2, false)) ;;
      let '(passwd1, passwd2, passwd2_ptr) := got in
      stored <- vncEncryptAndStorePasswd2 passwd1
                  (if passwd2_ptr : bool then Some passwd2 else None)
                  (passwdFile l) ;;
      let passwd1 := memset passwd1 0 NUL (strlen passwd1) in
      let passwd2 := memset passwd2 0 NUL (strlen passwd2) in
      if negb stored then
        fprintf_stderr ("Cannot write password file " +s+ passwdFile l +s+ nl) ;;;
        exit 1
      else ret (mkMain 0 passwd1 passwd2)
  end.

(** ** Vocabulary of the statements *)

(** The meaningful bytes of a terminal answer: those before a NUL. *)
Definition entered (s : string) : list ascii := cstr (literal s).

(** The meaningful bytes of the next line of a stream read with room for
    [n] characters: those before a NUL or a newline. *)
Fixpoint line_of (n : nat) (s : list ascii) : list ascii :=
  match n, s with
  | S n', c :: r =>
      if Ascii.eqb c NUL || Ascii.eqb c newline then []
      else c :: line_of n' r
  | _, _ => []
  end.

(** An array holds a terminated string. *)
Definition terminated (b : buf) : Prop := strlen b < length b.

(** Dropping the newline, as [read_password] does. *)
Definition chomp (b : buf) : buf :=
  match strchr b newline with
  | Some ptr => poke b ptr NUL
  | None => b
  end.

(** Cutting a string at eight characters, as both functions do. *)
Definition truncate8 (b : buf) : buf :=
  if Nat.ltb 8 (strlen b) then memset b 8 NUL (strlen b - 8) else b.

Definition mismatch_message : string :=
  "Passwords do not match. Please try again." +s+ nl +s+ nl.

(** What the checks of [mkdir_and_check] say about an inspected path: the
    message of the first one that fails. *)
Definition first_violation (dirname : string) (uid : Z) (be_strict : bool)
    (st : stat) : option string :=
  if negb (S_ISDIR (st_mode st)) then
    Some ("Error: " +s+ dirname +s+ " is not a directory" +s+ nl)
  else if negb (Z.eqb (st_uid st) uid) then
    Some ("Error: bad ownership on " +s+ dirname +s+ nl)
  else if be_strict && negb (Z.eqb (Z.land (st_mode st) 63) 0) then
    Some ("Error: bad access modes on " +s+ dirname +s+ nl)
  else None.

(** The run of the checks in a world. *)
Definition verdict (dirname : string) (be_strict : bool) (st : stat) (w : world)
  : outcome unit * world :=
  match first_violation dirname (c_uid (w_cfg w)) be_strict st with
  | Some msg => (Exit 1, put_stderr msg w)
  | None => (Ret tt, w)
  end.

(** The directory [mkdir] makes. *)
Definition created (w : world) (mode : Z) : stat :=
  mkStat (Z.lor S_IFDIR (Z.land mode (Z.lnot (c_umask (w_cfg w)))))
         (c_euid (w_cfg w)).

(** The options the loop of [main] knows, in their usual spelling. *)
Inductive option_word :=
| O_display (d : string)
| O_c
| O_o
| O_a (u : string)
| O_r (u : string)
| O_f
| O_t
| O_v.

Definition words (o : option_word) : list string :=
  match o with
  | O_display d => ["-display"; d]
  | O_c => ["-c"]
  | O_o => ["-o"]
  | O_a u => ["-a"; u]
  | O_r u => ["-r"; u]
  | O_f => ["-f"]
  | O_t => ["-t"]
  | O_v => ["-v"]
  end%string.

Definition command_line (os : list option_word) : list string :=
  flat_map words os.

(** The loop stops at once on these arguments: none, or a first one that
    does not begin with a dash. *)
Definition stops (rest : list string) : bool :=
  match rest with
  | [] => true
  | a :: _ => negb (Ascii.eqb (char_at a 0) "-")
  end.

Definition is_otp (o : option_word) : bool :=
  match o with O_c | O_o => true | _ => false end.
Definition is_acl (o : option_word) : bool :=
  match o with O_a _ | O_r _ => true | _ => false end.
Definition is_f (o : option_word) : bool :=
  match o with O_f => true | _ => false end.
Definition is_t (o : option_word) : bool :=
  match o with O_t => true | _ => false end.

(** What one option does to the variables, [u] being the value of USER. *)
Definition apply_option (u : string) (o : option_word) (s : globals * locals)
  : globals * locals :=
  let (g, l) := s in
  let no_dir := mkLocals (read_from_stdin l) false (check_strictly l)
                         (passwdDir l) (passwdFile l) in
  match o with
  | O_display d =>
      (mkGlobals (alsoView g) (otp g) (otpClear g) (Some d)
                 (addUser g) (userList g) (user g), l)
  | O_c =>
      (mkGlobals (alsoView g) true true (displayname g)
                 (addUser g) (userList g) (user g), no_dir)
  | O_o =>
      (mkGlobals (alsoView g) true (otpClear g) (displayname g)
                 (addUser g) (userList g) (user g), no_dir)
  | O_a n =>
      (mkGlobals (alsoView g) (otp g) (otpClear g) (displayname g)
                 1 true (Some n), no_dir)
  | O_r n =>
      (mkGlobals (alsoView g) (otp g) (otpClear g) (displayname g)
                 0 true (Some n), no_dir)
  | O_f => (g, mkLocals true false false (passwdDir l) "-")
  | O_t =>
      let dir := "/tmp/" +s+ u +s+ "-vnc" in
      (g, mkLocals false true true dir (dir +s+ "/passwd"))
  | O_v =>
      (mkGlobals true (otp g) (otpClear g) (displayname g)
                 (addUser g) (userList g) (user g), l)
  end.

Fixpoint run_options (u : string) (os : list option_word)
    (s : globals * locals) : globals * locals :=
  match os with
  | [] => s
  | o :: r => run_options u r (apply_option u o s)
  end.

(** The value of USER when [getenv_safe] accepts it. *)
Definition USER_ok (w : world) : option string :=
  match c_env (w_cfg w) "USER" with
  | Some u => if Nat.ltb 32 (String.length u) then None else Some u
  | None => None
  end.

(** Standard input is read, or the directory is under /tmp. *)
Definition f_or_t (l : locals) : bool :=
  read_from_stdin l || strncmp_eq (passwdDir l) "/tmp" 4.

Definition has_otp (os : list option_word) : bool := existsb is_otp os.
Definition has_acl (os : list option_word) : bool := existsb is_acl os.
Definition has_f (os : list option_word) : bool := existsb is_f os.
Definition has_t (os : list option_word) : bool := existsb is_t os.

(** The combinations of modes the program refuses. *)
Definition conflict (os : list option_word) : bool :=
  (has_otp os && (has_f os || has_t os || has_acl os))
  || (has_acl os && (has_f os || has_t os)).

(** Nothing but stderr differs between two worlds. *)
Definition only_stderr (w w' : world) : Prop :=
  w_cfg w' = w_cfg w /\ w_fs w' = w_fs w /\ w_stdin w' = w_stdin w
  /\ w_tty w' = w_tty w /\ w_getpass w' = w_getpass w
  /\ w_entropy w' = w_entropy w /\ w_events w' = w_events w.

(** An ASCII decimal digit. *)
Definition is_digit (c : ascii) : bool :=
  (N.leb 48 (N_of_ascii c)) && (N.leb (N_of_ascii c) 57).

(** The number a string of digits denotes, most significant digit first. *)
Definition dec_value (l : list ascii) : N :=
  fold_left (fun acc c => (10 * acc + (N_of_ascii c - 48))%N) l 0%N.

(** The same, least significant digit first. *)
Fixpoint le_value (l : list ascii) : N :=
  match l with
  | [] => 0
  | c :: r => (N_of_ascii c - 48) + 10 * le_value r
  end%N.

(** The eight characters the program sends for a drawn value. *)
Definition otp_digits (v : N) : list ascii := firstn 8 (fmt_08u v).

(** The flag byte of an access-control entry: bit 0 for add, bit 4 for
    view-only. *)
Definition acl_flag (add view : bool) : ascii :=
  Ascii add false false false view false false false.

(** The variables [main] starts the option loop with. *)
Definition locals0 (home : string) : locals :=
  mkLocals false true false (home +s+ "/.vnc") ((home +s+ "/.vnc") +s+ "/passwd").

(** Standard input is read and nothing else is set up. *)
Definition batch (l : locals) : Prop :=
  read_from_stdin l = true /\ make_directory l = false
  /\ passwdFile l = "-"%string.

(** ** Sample surroundings, for the closed statements *)

Definition sample_env (home : string) (name : string) : option string :=
  if String.eqb name "HOME" then Some home
  else if String.eqb name "USER" then Some "alice"%string
  else None.

(** A machine where everything outside the program works: the X server
    knows both properties and the password file can be written. *)
Definition sample_config (home : string) (uid euid : Z) : config :=
  mkConfig (sample_env home) uid euid 18 (fun _ => None)
           (fun _ => "error"%string) (fun _ => true) (fun _ => true)
           (fun _ _ _ => true) false None (fun _ => "#"%char).

(** No directory exists yet. *)
Definition sample_world (cfg : config) (stdin : string)
    (tty : list (option string)) (entropy : list N) : world :=
  mkWorld cfg (fun _ => Lstat_err ENOENT) (chars stdin) tty [] entropy [] [].

Definition alice : config := sample_config "/home/alice" 1000 1000.

(** A file system where [path] is there with the given attributes. *)
Definition with_node (path : string) (st : stat) (w : world) : world :=
  set_fs (fun p => if String.eqb p path then Lstat_ok st else w_fs w p) w.

(** A home directory under /tmp whose name has 241 bytes. *)
Definition long_home : string :=
  "/tmp/" +s+ text (repeat "a"%char 236).

(** The world once [mkdir_and_check] has made the directory. *)
Definition after_mkdir (dirname : string) (w : world) : world :=
  set_fs (fun p => if String.eqb p dirname
                   then Lstat_ok (created w S_IRWXU) else w_fs w p)
    (put_event (EvMkdir dirname S_IRWXU)
       (put_stderr ("VNC directory " +s+ dirname
                    +s+ " does not exist, creating." +s+ nl) w)).

(** Standard input holding one line and its newline, nothing else. *)
Definition one_line_world (line : list ascii) : world :=
  mkWorld alice (fun _ => Lstat_err ENOENT) (line ++ [newline]) [] [] [] [] [].

(** ** Further vocabulary *)

(** *** The option loop *)

(** The two path arrays of [main], [passwdDir[256]] and [passwdFile[263]],
    hold their strings with the terminator. *)
Definition paths_fit (l : locals) : Prop :=
  String.length (passwdDir l) < 256 /\ String.length (passwdFile l) < 263.

(** What [usage] prints. *)
Definition usage_lines (argv0 : string) : list string :=
  ["usage: " +s+ argv0 +s+ " [-v] [FILE]" +s+ nl;
   "       " +s+ argv0 +s+ " -f" +s+ nl;
   "       " +s+ argv0 +s+ " -t [-v]" +s+ nl;
   "       " +s+ argv0 +s+ " -o [-v] [-display VNC-DISPLAY]" +s+ nl;
   "       " +s+ argv0 +s+ " -c [-display VNC-DISPLAY]" +s+ nl;
   "       " +s+ argv0 +s+ " -a USER [-v] [-display VNC-DISPLAY]" +s+ nl;
   "       " +s+ argv0 +s+ " -r USER [-display VNC-DISPLAY]" +s+ nl]%string.

(** Several lines written to stderr. *)
Definition put_lines (msgs : list string) (w : world) : world :=
  mkWorld (w_cfg w) (w_fs w) (w_stdin w) (w_tty w) (w_getpass w) (w_entropy w)
          (w_stderr w ++ msgs) (w_events w).

(** The arguments begin with a dash argument the loop has no case for: an
    unknown letter, a word in [-d] other than [-display], or [-display],
    [-a] or [-r] as the last argument. *)
Definition misused (args : list string) : bool :=
  match args with
  | [] => false
  | a :: rest =>
      let c := char_at a 1 in
      let last := match rest with [] => true | _ :: _ => false end in
      Ascii.eqb (char_at a 0) "-"
      && (if Ascii.eqb c "d" then negb (String.eqb "-display" a) || last
          else if Ascii.eqb c "a" || Ascii.eqb c "r" then last
          else negb (existsb (Ascii.eqb c) ["c"; "o"; "f"; "t"; "v"]%char))
  end.

Definition is_v (o : option_word) : bool :=
  match o with O_v => true | _ => false end.
Definition is_c (o : option_word) : bool :=
  match o with O_c => true | _ => false end.
Definition has_v (os : list option_word) : bool := existsb is_v os.
Definition has_c (os : list option_word) : bool := existsb is_c os.

(** The display the options name: the last [-display] decides. *)
Definition display_of (os : list option_word) : option string :=
  fold_left (fun d o => match o with O_display n => Some n | _ => d end) os None.

(** Whether standard input is to be read after the options: the last of
    [-f] and [-t] decides. *)
Definition reads_stdin (os : list option_word) : bool :=
  fold_left (fun b o => match o with O_f => true | O_t => false | _ => b end)
            os false.

(** The settings [DoOTP] runs with after the options [os]. *)
Definition otp_settings (os : list option_word) : globals :=
  mkGlobals (has_v os) true (has_c os) (display_of os) 0 false None.


(** *** The X server and the random source *)

(** The X server cannot take the property [prop] on the display of [g]. *)
Definition server_refuses (prop : string) (g : globals) (w : world) : Prop :=
  c_display_opens (w_cfg w) (displayname g) = false
  \/ c_atom_exists (w_cfg w) prop = false.

(** The random source cannot deliver what [DoOTP] needs. *)
Definition otp_source_fails (g : globals) (w : world) : Prop :=
  c_UseDevUrandom (w_cfg w) = true
  /\ (c_urandom_errno (w_cfg w) <> None
      \/ length (w_entropy w) < (if alsoView g then 2 else 1)).

(** *** The rounds of [ask_password] *)

(** The static buffer after the first answer [p] of a round, and after the
    second answer [v]: each answer is laid over what the buffer held and cut
    to eight characters. *)
Definition first_answer (p : string) (w : world) : buf :=
  truncate8 (chars p ++ NUL :: skipn (length (literal p)) (w_getpass w)).

Definition second_answer (p v : string) (w : world) : buf :=
  truncate8 (chars v ++ NUL :: skipn (length (literal v)) (first_answer p w)).

(** The world after the two prompts of a round. *)
Definition after_round (p v : string) (rest : list (option string)) (w : world)
  : world :=
  mkWorld (w_cfg w) (w_fs w) (w_stdin w) rest (second_answer p v w)
          (w_entropy w)
          (if Nat.ltb 8 (length (entered p))
           then w_stderr w ++ [truncation_warning] else w_stderr w)
          ((w_events w ++ [EvGetpass "Password: "]) ++ [EvGetpass "Verify:   "]).

(** The warning a first answer of more than eight bytes draws. *)
Definition warned (p : string) : list string :=
  if Nat.ltb 8 (length (entered p)) then [truncation_warning] else [].

(** A round the loop refuses and starts over from: a first answer that is
    long enough and a confirmation that differs in the first eight bytes. *)
Definition refused (r : string * string) : Prop :=
  6 <= length (entered (fst r))
  /\ firstn 8 (entered (fst r)) <> firstn 8 (entered (snd r)).

(** The terminal answers of some rounds, and what refusing them writes. *)
Definition answers (rounds : list (string * string)) : list (option string) :=
  flat_map (fun r => [Some (fst r); Some (snd r)]) rounds.

Definition refusals (rounds : list (string * string)) : list string :=
  flat_map (fun r => warned (fst r) ++ [mismatch_message]) rounds.

(** The prompts of [n] rounds. *)
Definition prompts (n : nat) : list event :=
  concat (repeat [EvGetpass "Password: "; EvGetpass "Verify:   "] n).

(** A prompt of [ask_password]. *)
Definition is_prompt (e : event) : Prop :=
  e = EvGetpass "Password: " \/ e = EvGetpass "Verify:   ".

(** What [ask_password] may change: the terminal script, the static buffer,
    stderr, and the events by prompts only. *)
Definition terminal_only (w w' : world) : Prop :=
  w_cfg w' = w_cfg w /\ w_fs w' = w_fs w /\ w_stdin w' = w_stdin w
  /\ w_entropy w' = w_entropy w
  /\ exists evs, w_events w' = w_events w ++ evs /\ Forall is_prompt evs.

(** *** The endings of a run *)

(** The ways a run ends other than by returning. *)
Inductive ending :=
| Exited (c : Z)
| Faulted
| Starved.

Definition ending_of {A : Type} (o : outcome A) : option ending :=
  match o with
  | Ret _ => None
  | Exit c => Some (Exited c)
  | Fault => Some Faulted
  | OutOfFuel => Some Starved
  end.

(** Every ending of a computation other than a return satisfies [Q], a
    condition on the ending and the world left. *)
Definition ends_in {A : Type} (Q : ending -> world -> Prop) (m : M A) : Prop :=
  forall w o w' e, m w = (o, w') -> ending_of o = Some e -> Q e w'.

(** The exit codes of the program: 1, or 0 once a property has been written
    and the display closed. *)
Definition exit_status_ok (c : Z) (w : world) : Prop :=
  c = 1%Z
  \/ (c = 0%Z
      /\ exists evs prop data,
           w_events w = evs ++ [EvXChangeProperty prop data; EvXCloseDisplay]).

(** The endings of [main]: an exit with such a code, or a fault right after
    the Verify prompt. *)
Definition main_ending (e : ending) (w : world) : Prop :=
  match e with
  | Exited c => exit_status_ok c w
  | Faulted => exists evs, w_events w = evs ++ [EvGetpass "Verify:   "]
  | Starved => False
  end.


(** * Properties *)

(** ** The C string functions *)

Lemma cstr_nil : cstr [] = [].
Proof. reflexivity. Qed.

Lemma cstr_cons (x : ascii) (r : buf) :
  cstr (x :: r) = if Ascii.eqb x NUL then [] else x :: cstr r.
Proof. unfold cstr; simpl. destruct (Ascii.eqb x NUL); reflexivity. Qed.

Lemma strlen_le_length (b : buf) : strlen b <= length b.
Proof.
  induction b as [|x r IH]; simpl; [lia|].
  destruct (Ascii.eqb x NUL); lia.
Qed.

Lemma cstr_length (b : buf) : length (cstr b) = strlen b.
Proof.
  unfold cstr. rewrite firstn_length_le; [reflexivity | apply strlen_le_length].
Qed.

Lemma memset_length (b : buf) : forall off c n, length (memset b off c n) = length b.
Proof.
  induction b as [|x r IH]; intros off c n; simpl; [reflexivity|].
  destruct off; simpl; [destruct n; simpl|]; auto.
Qed.

Lemma memcpy_length (dst : buf) : forall off src n,
  length (memcpy dst off src n) = length dst.
Proof.
  induction dst as [|x r IH]; intros off src n; simpl; [reflexivity|].
  destruct off; simpl; [destruct n, src; simpl|]; auto.
Qed.

Lemma strcpy_length (dst : buf) : forall src, length (strcpy dst src) = length dst.
Proof.
  induction dst as [|d dr IH]; intros src; simpl; [reflexivity|].
  destruct src as [|s sr]; simpl; [reflexivity|].
  destruct (Ascii.eqb s NUL); simpl; auto.
Qed.

(** Writing NULs from position [k] inside the string cuts it at [k]. *)
Lemma cstr_memset_cut (b : buf) : forall k n,
  k <= strlen b -> 0 < n -> cstr (memset b k NUL n) = firstn k (cstr b).
Proof.
  induction b as [|x r IH]; intros k n Hk Hn.
  - simpl. rewrite cstr_nil. destruct k; reflexivity.
  - destruct k as [|k].
    + destruct n as [|n]; [lia|]. simpl. rewrite cstr_cons. reflexivity.
    + simpl in Hk. simpl memset. rewrite !cstr_cons.
      destruct (Ascii.eqb x NUL) eqn:E; [lia|].
      simpl. rewrite IH by lia. reflexivity.
Qed.

Lemma strlen_memset_cut (b : buf) (k n : nat) :
  k <= strlen b -> 0 < n -> strlen (memset b k NUL n) = k.
Proof.
  intros Hk Hn. rewrite <- cstr_length, cstr_memset_cut by assumption.
  rewrite firstn_length_le; [reflexivity | now rewrite cstr_length].
Qed.

(** Zeroing the whole string leaves the empty string. *)
Lemma memset_all_zero (b : buf) : forall n,
  memset b 0 NUL n = repeat NUL (Nat.min n (length b)) ++ skipn n b.
Proof.
  induction b as [|x r IH]; intros n; simpl.
  - rewrite Nat.min_0_r. destruct n; reflexivity.
  - destruct n as [|n]; simpl; [reflexivity|]. now rewrite IH.
Qed.

Lemma cstr_strcpy (dst : buf) : forall src,
  terminated src -> strlen src < length dst ->
  cstr (strcpy dst src) = cstr src.
Proof.
  unfold terminated.
  induction dst as [|d dr IH]; intros src Ht Hd; simpl in Hd; [lia|].
  destruct src as [|s sr]; simpl in Ht; [lia|].
  simpl strcpy. simpl in Hd. rewrite (cstr_cons s sr).
  destruct (Ascii.eqb s NUL) eqn:E.
  - rewrite cstr_cons. reflexivity.
  - rewrite cstr_cons, E. rewrite IH; [reflexivity | simpl in Ht; lia | lia].
Qed.

Lemma list_ascii_eqb_spec (a b : list ascii) :
  list_ascii_eqb a b = true <-> a = b.
Proof.
  unfold list_ascii_eqb, text. rewrite String.eqb_eq. split; [|congruence].
  intros H.
  rewrite <- (list_ascii_of_string_of_list_ascii a),
          <- (list_ascii_of_string_of_list_ascii b).
  now rewrite H.
Qed.

Lemma strcmp_eq_spec (a b : buf) : strcmp_eq a b = true <-> cstr a = cstr b.
Proof. apply list_ascii_eqb_spec. Qed.

(** The string of an array depends on its characters up to the first NUL. *)
Lemma cstr_app_nul (l r : list ascii) : cstr (l ++ NUL :: r) = cstr (l ++ [NUL]).
Proof.
  induction l as [|x l IH]; simpl.
  - rewrite !cstr_cons. reflexivity.
  - rewrite !cstr_cons. now rewrite IH.
Qed.

Lemma terminated_app_nul (l r : list ascii) : terminated (l ++ NUL :: r).
Proof.
  unfold terminated. induction l as [|x l IH]; simpl; [lia|].
  destruct (Ascii.eqb x NUL); lia.
Qed.

Lemma strlen_app_nul (l r : list ascii) :
  strlen (l ++ NUL :: r) = strlen (l ++ [NUL]).
Proof. now rewrite <- !cstr_length, cstr_app_nul. Qed.

Lemma memcpy_prefix (dst : buf) : forall src,
  length src <= length dst ->
  memcpy dst 0 src (length src) = src ++ skipn (length src) dst.
Proof.
  induction dst as [|d dr IH]; intros src H.
  - destruct src; simpl in *; [reflexivity | lia].
  - destruct src as [|s sr]; simpl in *; [reflexivity|].
    rewrite IH by lia. reflexivity.
Qed.

Lemma truncate8_cstr (b : buf) : cstr (truncate8 b) = firstn 8 (cstr b).
Proof.
  unfold truncate8. destruct (Nat.ltb 8 (strlen b)) eqn:E.
  - apply Nat.ltb_lt in E. apply cstr_memset_cut; lia.
  - apply Nat.ltb_ge in E. rewrite firstn_all2; [reflexivity|].
    now rewrite cstr_length.
Qed.

Lemma truncate8_strlen (b : buf) : strlen (truncate8 b) <= 8.
Proof.
  rewrite <- cstr_length, truncate8_cstr, length_firstn. lia.
Qed.

Lemma truncate8_length (b : buf) : length (truncate8 b) = length b.
Proof.
  unfold truncate8. destruct (Nat.ltb 8 (strlen b)); [apply memset_length | reflexivity].
Qed.

Lemma truncate8_terminated (b : buf) : terminated b -> terminated (truncate8 b).
Proof.
  unfold terminated, truncate8. intros H.
  destruct (Nat.ltb 8 (strlen b)) eqn:E; [|assumption].
  apply Nat.ltb_lt in E.
  rewrite strlen_memset_cut, memset_length by lia. lia.
Qed.

(** ** Reading a line *)

Lemma fgets_take_length (n : nat) : forall s, length (fst (fgets_take n s)) <= n.
Proof.
  induction n as [|n IH]; intros s; simpl; [lia|].
  destruct s as [|c r]; simpl; [lia|].
  destruct (Ascii.eqb c newline); simpl; [lia|].
  specialize (IH r). destruct (fgets_take n r) as [l r']. simpl in *. lia.
Qed.

Lemma chomp_line (n : nat) : forall s rest,
  cstr (chomp (fst (fgets_take n s) ++ NUL :: rest)) = line_of n s
  /\ terminated (chomp (fst (fgets_take n s) ++ NUL :: rest)).
Proof.
  assert (Hnul : forall rest, chomp (NUL :: rest) = NUL :: rest) by reflexivity.
  assert (Ht0 : forall rest, terminated (NUL :: rest))
    by (intros; unfold terminated; simpl; lia).
  induction n as [|n IH]; intros s rest.
  - simpl. rewrite Hnul. destruct s; auto.
  - destruct s as [|c r]; [simpl; rewrite Hnul; auto|].
    simpl fgets_take. simpl line_of.
    destruct (Ascii.eqb c newline) eqn:En.
    + apply Ascii.eqb_eq in En. subst c.
      rewrite orb_true_r. simpl. unfold chomp. simpl.
      split; [reflexivity | unfold terminated; simpl; lia].
    + rewrite orb_false_r.
      specialize (IH r rest).
      destruct (fgets_take n r) as [l r'] eqn:Er. simpl fst in *.
      destruct IH as [IHc IHt].
      rewrite <- app_comm_cons.
      unfold chomp in *. simpl strchr. rewrite En.
      destruct (Ascii.eqb c NUL) eqn:Ez.
      * split; [rewrite cstr_cons, Ez; reflexivity|].
        unfold terminated. simpl. rewrite Ez. lia.
      * destruct (strchr (l ++ NUL :: rest) newline) as [i|]; simpl.
        -- rewrite cstr_cons, Ez, IHc. split; [reflexivity|].
           unfold terminated in *. simpl. rewrite Ez. lia.
        -- rewrite cstr_cons, Ez, IHc. split; [reflexivity|].
           unfold terminated in *. simpl. rewrite Ez. lia.
Qed.

Lemma uninit_length (n : nat) (w : world) :
  length (map (c_junk (w_cfg w)) (seq 0 n)) = n.
Proof. now rewrite length_map, length_seq. Qed.

(** ** Running the monad *)

Ltac run :=
  repeat (unfold bind, ret, gets, modify, when, static_buffer, fprintf_stderr,
            fault, exit, out_of_fuel;
          cbn [w_cfg w_fs w_stdin w_tty w_getpass w_entropy w_stderr w_events
               set_fs set_stdin set_tty set_getpass set_entropy put_stderr
               put_event negb fst snd]).

Lemma getpass_some (prompt : string) (w : world) (s : string) (t : list (option string)) :
  w_tty w = Some s :: t ->
  getpass prompt w =
    (Ret true,
     put_event (EvGetpass prompt)
       (set_getpass (chars s ++ NUL :: skipn (length (literal s)) (w_getpass w))
          (set_tty t w))).
Proof.
  intros H. unfold getpass. rewrite H. unfold literal.
  rewrite <- app_assoc. reflexivity.
Qed.

Lemma entered_buffer (s : string) (r : list ascii) :
  cstr (chars s ++ NUL :: r) = entered s.
Proof. unfold entered, literal. apply cstr_app_nul. Qed.

Lemma cstr_wiped (q : buf) : terminated q -> cstr (memset q 0 NUL (strlen q)) = [].
Proof.
  unfold terminated. destruct q as [|x q]; [reflexivity|].
  simpl strlen. destruct (Ascii.eqb x NUL) eqn:E; intros _.
  - simpl. rewrite cstr_cons, E. reflexivity.
  - simpl. rewrite cstr_cons. reflexivity.
Qed.

Lemma terminated_strcpy (dst src : buf) :
  terminated src -> strlen src < length dst -> terminated (strcpy dst src).
Proof.
  intros Ht Hl. unfold terminated.
  rewrite <- cstr_length, cstr_strcpy, cstr_length, strcpy_length; assumption.
Qed.

Lemma truncate8_cases (b : buf) :
  (Nat.ltb 8 (strlen b) = true /\ truncate8 b = memset b 8 NUL (strlen b - 8))
  \/ (Nat.ltb 8 (strlen b) = false /\ truncate8 b = b).
Proof. unfold truncate8. destruct (Nat.ltb 8 (strlen b)); auto. Qed.


(** ** [read_password] *)

Lemma read_password_reads (result : buf) (w : world) :
  w_stdin w <> [] -> 9 <= length result ->
  let L := line_of 255 (w_stdin w) in
  exists r,
    read_password result w =
      (Ret r, let w' := set_stdin (snd (fgets_take 255 (w_stdin w))) w in
              if Nat.ltb 8 (length L) then put_stderr truncation_warning w' else w')
    /\ read_value r = 1%Z
    /\ cstr (read_result r) = firstn 8 L
    /\ cstr (read_passwd r) = [].
Proof.
  intros Hs Hr L.
  unfold read_password, bind, uninit, gets, fgets.
  destruct (w_stdin w) as [|c s] eqn:Es; [contradiction|].
  change (256 - 1) with 255.
  pose proof (fgets_take_length 255 (c :: s)) as Hlen.
  destruct (fgets_take 255 (c :: s)) as [l r] eqn:Ef.
  simpl fst in Hlen.
  set (junk := map (c_junk (w_cfg w)) (seq 0 256)).
  assert (Hj : length junk = 256) by apply uninit_length.
  replace (length l + 1) with (length (l ++ [NUL])) by (rewrite length_app; reflexivity).
  rewrite memcpy_prefix by (rewrite length_app; simpl; lia).
  rewrite <- app_assoc.
  set (tail := skipn _ junk).
  change ([NUL] ++ tail) with (NUL :: tail).
  fold (chomp (l ++ NUL :: tail)).
  destruct (chomp_line 255 (c :: s) tail) as [Hc Ht].
  rewrite Ef in Hc, Ht. simpl fst in Hc, Ht. simpl snd.
  set (p := chomp (l ++ NUL :: tail)) in *.
  fold L in Hc.
  assert (Hlt : Nat.ltb 8 (strlen p) = Nat.ltb 8 (length L))
    by (now rewrite <- Hc, cstr_length).
  assert (Hres : forall q, q = truncate8 p ->
            cstr (strcpy result q) = firstn 8 L /\ cstr (memset q 0 NUL (strlen q)) = []).
  { intros q ->. split.
    - rewrite cstr_strcpy, truncate8_cstr, Hc; [reflexivity | |].
      + now apply truncate8_terminated.
      + pose proof (truncate8_strlen p). lia.
    - pose proof (truncate8_terminated p Ht) as Htt. unfold terminated in Htt.
      destruct (truncate8 p) as [|x q]; [reflexivity|].
      simpl strlen in *. destruct (Ascii.eqb x NUL) eqn:E.
      + simpl. rewrite cstr_cons, E. reflexivity.
      + simpl. rewrite cstr_cons. reflexivity. }
  unfold truncate8 in Hres. rewrite <- Hlt.
  destruct (Nat.ltb 8 (strlen p)); simpl; eexists; (split; [reflexivity|]);
    (split; [reflexivity|]); apply Hres; reflexivity.
Qed.

Lemma read_password_eof (result : buf) (w : world) :
  w_stdin w = [] ->
  exists junk,
    read_password result w = (Ret (mkRead 0 result junk), w).
Proof.
  intros H. unfold read_password, bind, uninit, gets, fgets. rewrite H.
  eexists. reflexivity.
Qed.

(** ** [ask_password] *)

Lemma ask_loop_success (fuel : nat) (result pc : buf) (w : world) (p v : string)
    (rest : list (option string)) :
  w_tty w = Some p :: Some v :: rest ->
  6 <= length (entered p) ->
  firstn 8 (entered p) = firstn 8 (entered v) ->
  9 <= length result -> 9 <= length pc ->
  exists r w',
    ask_password_loop (S fuel) result pc w = (Ret r, w')
    /\ ask_value r = 1%Z
    /\ cstr (ask_result r) = firstn 8 (entered p)
    /\ w_stderr w' = w_stderr w ++
         (if Nat.ltb 8 (length (entered p)) then [truncation_warning] else [])
    /\ w_tty w' = rest
    /\ cstr (w_getpass w') = []
    /\ cstr (ask_passwd_copy r) = [].
Proof.
  intros Htty Hp Heq Hr Hpc.
  cbn [ask_password_loop].
  unfold bind at 1. rewrite (getpass_some _ _ _ _ Htty).
  run.
  set (b1 := chars p ++ NUL :: _).
  assert (Hb1 : cstr b1 = entered p) by apply entered_buffer.
  assert (Ht1 : terminated b1) by apply terminated_app_nul.
  assert (Hl1 : strlen b1 = length (entered p)) by (now rewrite <- Hb1, cstr_length).
  replace (Nat.ltb (strlen b1) 6) with false by (symmetry; apply Nat.ltb_ge; lia).
  pose proof (truncate8_cstr b1) as Hc1.
  pose proof (truncate8_terminated b1 Ht1) as Htt1.
  pose proof (truncate8_strlen b1) as Hs1.
  rewrite Hb1 in Hc1.
  destruct (truncate8_cases b1) as [[E1 T1]|[E1 T1]]; rewrite E1;
    rewrite T1 in Hc1, Htt1, Hs1; clear T1; run;
    (erewrite getpass_some by (run; reflexivity)); run;
    match goal with |- context [chars v ++ NUL :: ?t] =>
      set (b2 := chars v ++ NUL :: t) end;
    pose proof (truncate8_cstr b2) as Hc2;
    pose proof (truncate8_terminated b2 (terminated_app_nul _ _)) as Htt2;
    pose proof (truncate8_strlen b2) as Hs2;
    unfold b2 in Hc2 at 2; rewrite entered_buffer in Hc2;
    (destruct (truncate8_cases b2) as [[E2 T2]|[E2 T2]]; rewrite E2;
     rewrite T2 in Hc2, Htt2, Hs2; clear T2; run).
  all: match goal with |- context [strcmp_eq ?a ?b] =>
         assert (Hcmp : strcmp_eq a b = true)
           by (apply strcmp_eq_spec; rewrite cstr_strcpy by (assumption || lia);
               congruence)
       end; rewrite Hcmp.
  all: eexists; eexists; split; [reflexivity|].
  all: cbn [ask_value ask_result ask_passwd_copy w_stderr w_tty w_getpass
            set_getpass put_event put_stderr set_tty].
  all: rewrite <- Hl1, E1.
  all: split; [reflexivity|].
  all: split; [rewrite cstr_strcpy by (assumption || lia); congruence|].
  all: split; [try rewrite app_nil_r; reflexivity|].
  all: split; [reflexivity|].
  all: split; [apply cstr_wiped; assumption
              | apply cstr_wiped, terminated_strcpy; assumption || lia].
Qed.

(** A round whose two answers differ in their first eight bytes starts over. *)
Lemma ask_loop_mismatch (fuel : nat) (result pc : buf) (w : world) (p v : string)
    (rest : list (option string)) :
  w_tty w = Some p :: Some v :: rest ->
  6 <= length (entered p) ->
  firstn 8 (entered p) <> firstn 8 (entered v) ->
  9 <= length pc ->
  exists pc' w',
    ask_password_loop (S fuel) result pc w = ask_password_loop fuel result pc' w'
    /\ length pc' = length pc
    /\ cstr pc' = firstn 8 (entered p)
    /\ w_cfg w' = w_cfg w
    /\ w_stderr w' = w_stderr w ++
         (if Nat.ltb 8 (length (entered p)) then [truncation_warning] else [])
         ++ [mismatch_message]
    /\ w_tty w' = rest
    /\ cstr (w_getpass w') = firstn 8 (entered v).
Proof.
  intros Htty Hp Hne Hpc.
  cbn [ask_password_loop].
  unfold bind at 1. rewrite (getpass_some _ _ _ _ Htty).
  run.
  set (b1 := chars p ++ NUL :: _).
  assert (Hb1 : cstr b1 = entered p) by apply entered_buffer.
  assert (Ht1 : terminated b1) by apply terminated_app_nul.
  assert (Hl1 : strlen b1 = length (entered p)) by (now rewrite <- Hb1, cstr_length).
  replace (Nat.ltb (strlen b1) 6) with false by (symmetry; apply Nat.ltb_ge; lia).
  pose proof (truncate8_cstr b1) as Hc1.
  pose proof (truncate8_terminated b1 Ht1) as Htt1.
  pose proof (truncate8_strlen b1) as Hs1.
  rewrite Hb1 in Hc1.
  destruct (truncate8_cases b1) as [[E1 T1]|[E1 T1]]; rewrite E1;
    rewrite T1 in Hc1, Htt1, Hs1; clear T1; run;
    (erewrite getpass_some by (run; reflexivity)); run;
    match goal with |- context [chars v ++ NUL :: ?t] =>
      set (b2 := chars v ++ NUL :: t) end;
    pose proof (truncate8_cstr b2) as Hc2;
    pose proof (truncate8_terminated b2 (terminated_app_nul _ _)) as Htt2;
    pose proof (truncate8_strlen b2) as Hs2;
    unfold b2 in Hc2 at 2; rewrite entered_buffer in Hc2;
    (destruct (truncate8_cases b2) as [[E2 T2]|[E2 T2]]; rewrite E2;
     rewrite T2 in Hc2, Htt2, Hs2; clear T2; run).
  all: match goal with |- context [strcmp_eq ?a ?b] =>
         assert (Hcmp : strcmp_eq a b = false)
           by (destruct (strcmp_eq a b) eqn:Hq; [|reflexivity];
               apply strcmp_eq_spec in Hq;
               rewrite cstr_strcpy in Hq by (assumption || lia); congruence)
       end; rewrite Hcmp.
  all: eexists; eexists; split; [reflexivity|].
  all: cbn [w_cfg w_stderr w_tty w_getpass set_getpass put_event put_stderr set_tty].
  all: rewrite <- Hl1, E1.
  all: split; [apply strcpy_length|].
  all: split; [rewrite cstr_strcpy by (assumption || lia); congruence|].
  all: split; [reflexivity|].
  all: split; [cbn [app]; try rewrite <- app_assoc; reflexivity|].
  all: split; [reflexivity | assumption].
Qed.

(** A first answer of fewer than six bytes ends the acquisition, the answer
    staying in the static buffer. *)
Lemma ask_loop_short (fuel : nat) (result pc : buf) (w : world) (p : string)
    (rest : list (option string)) :
  w_tty w = Some p :: rest ->
  length (entered p) < 6 ->
  exists w',
    ask_password_loop (S fuel) result pc w = (Ret (mkAsk 0 result pc), w')
    /\ cstr (w_getpass w') = entered p
    /\ w_tty w' = rest
    /\ w_stderr w' = w_stderr w ++ ["Password too short" +s+ nl].
Proof.
  intros Htty Hp.
  cbn [ask_password_loop].
  unfold bind at 1. rewrite (getpass_some _ _ _ _ Htty).
  run.
  set (b1 := chars p ++ NUL :: _).
  assert (Hb1 : cstr b1 = entered p) by apply entered_buffer.
  assert (Hl1 : strlen b1 = length (entered p)) by (now rewrite <- Hb1, cstr_length).
  replace (Nat.ltb (strlen b1) 6) with true by (symmetry; apply Nat.ltb_lt; lia).
  eexists. split; [reflexivity|]. cbn. auto.
Qed.

Lemma getpass_null (prompt : string) (w : world) :
  hd None (w_tty w) = None ->
  getpass prompt w =
    (Ret false, put_event (EvGetpass prompt) (set_tty (tl (w_tty w)) w)).
Proof.
  unfold getpass. destruct (w_tty w) as [|[s|] t] eqn:E; simpl; intros H.
  - unfold set_tty. rewrite <- E. destruct w; reflexivity.
  - discriminate.
  - reflexivity.
Qed.

Lemma ask_loop_null (fuel : nat) (result pc : buf) (w : world) :
  hd None (w_tty w) = None ->
  exists w',
    ask_password_loop (S fuel) result pc w = (Ret (mkAsk 0 result pc), w')
    /\ w_getpass w' = w_getpass w.
Proof.
  intros H. cbn [ask_password_loop].
  unfold bind at 1. rewrite (getpass_null _ _ H). run.
  eexists. split; reflexivity.
Qed.

(** One round with two answers either returns or starts over on the
    answers that remain. *)
Lemma ask_loop_round (fuel : nat) (result pc : buf) (w : world) (p v : string)
    (rest : list (option string)) :
  w_tty w = Some p :: Some v :: rest ->
  6 <= length (entered p) ->
  (exists r w', ask_password_loop (S fuel) result pc w = (Ret r, w'))
  \/ (exists pc' w',
        ask_password_loop (S fuel) result pc w
        = ask_password_loop fuel result pc' w'
        /\ w_tty w' = rest).
Proof.
  intros Htty Hp.
  assert (H : exists x, ask_password_loop (S fuel) result pc w = x
              /\ ((exists r w', x = (Ret r, w'))
                  \/ (exists pc' w',
                        x = ask_password_loop fuel result pc' w'
                        /\ w_tty w' = rest))).
  { cbn [ask_password_loop].
    unfold bind at 1. rewrite (getpass_some _ _ _ _ Htty).
    run.
    set (b1 := chars p ++ NUL :: _).
    assert (Hl1 : strlen b1 = length (entered p))
      by (now rewrite <- (entered_buffer p (skipn (length (literal p)) (w_getpass w))),
                cstr_length).
    replace (Nat.ltb (strlen b1) 6) with false by (symmetry; apply Nat.ltb_ge; lia).
    destruct (Nat.ltb 8 (strlen b1)); run;
      (erewrite getpass_some by (run; reflexivity)); run;
      match goal with |- context [chars v ++ NUL :: ?t] =>
        set (b2 := chars v ++ NUL :: t) end;
      (destruct (Nat.ltb 8 (strlen b2)); run);
      match goal with |- context [strcmp_eq ?a ?b] => destruct (strcmp_eq a b) end;
      cbv beta; (eexists; split; [reflexivity|]);
      ((left; eexists; eexists; reflexivity)
       || (right; eexists; eexists; split; reflexivity)). }
  destruct H as (x & -> & H). exact H.
Qed.

(** No terminal at the confirmation prompt: the NULL is dereferenced. *)
Lemma ask_loop_verify_null (fuel : nat) (result pc : buf) (w : world) (p : string)
    (t : list (option string)) :
  w_tty w = Some p :: t ->
  hd None t = None ->
  6 <= length (entered p) ->
  exists w', ask_password_loop (S fuel) result pc w = (Fault, w').
Proof.
  intros Htty Hn Hp.
  cbn [ask_password_loop].
  unfold bind at 1. rewrite (getpass_some _ _ _ _ Htty).
  run.
  set (b1 := chars p ++ NUL :: _).
  assert (Hl1 : strlen b1 = length (entered p))
    by (now rewrite <- (entered_buffer p (skipn (length (literal p)) (w_getpass w))),
              cstr_length).
  replace (Nat.ltb (strlen b1) 6) with false by (symmetry; apply Nat.ltb_ge; lia).
  destruct (Nat.ltb 8 (strlen b1)); run;
    (erewrite getpass_null by (run; exact Hn)); run;
    eexists; reflexivity.
Qed.

(** The round budget of [ask_password] is never exhausted. *)
Lemma ask_loop_fuel (fuel : nat) : forall result pc w,
  length (w_tty w) < fuel ->
  fst (ask_password_loop fuel result pc w) <> OutOfFuel.
Proof.
  induction fuel as [|fuel IH]; intros result pc w Hf; [lia|].
  destruct (w_tty w) as [|[p|] t] eqn:Htty.
  - destruct (ask_loop_null fuel result pc w) as (w' & -> & _);
      [rewrite Htty; reflexivity | discriminate].
  - destruct (Nat.lt_ge_cases (length (entered p)) 6) as [Hs|Hl].
    + destruct (ask_loop_short fuel result pc w p t Htty Hs) as (w' & -> & _).
      discriminate.
    + destruct t as [|[v|] rest].
      * destruct (ask_loop_verify_null fuel result pc w p [] Htty eq_refl Hl)
          as (w' & ->). discriminate.
      * destruct (ask_loop_round fuel result pc w p v rest Htty Hl)
          as [(r & w' & ->)|(pc' & w' & -> & Hrest)]; [discriminate|].
        apply IH. rewrite Hrest. simpl in Hf. lia.
      * destruct (ask_loop_verify_null fuel result pc w p (None :: rest) Htty eq_refl Hl)
          as (w' & ->). discriminate.
  - destruct (ask_loop_null fuel result pc w) as (w' & -> & _);
      [rewrite Htty; reflexivity | discriminate].
Qed.

Theorem ask_password_total (result : buf) (w : world) :
  fst (ask_password result w) <> OutOfFuel.
Proof.
  unfold ask_password, bind, uninit, gets. apply ask_loop_fuel. lia.
Qed.

(** ** [mkdir_and_check] *)

Lemma check_existing (dirname : string) (be_strict : bool) (w : world) (st : stat) :
  w_fs w dirname = Lstat_ok st ->
  mkdir_and_check dirname be_strict w = verdict dirname be_strict st w.
Proof.
  intros H. unfold mkdir_and_check, verdict, first_violation.
  unfold bind at 1. unfold lstat at 1, gets at 1. rewrite H.
  run. unfold lstat, getuid. run. rewrite H.
  rewrite (Z.land_comm (st_mode st)).
  change (Z.lor S_IRWXG S_IRWXO) with 63%Z.
  destruct (S_ISDIR (st_mode st)); run; [|reflexivity].
  destruct (Z.eqb (st_uid st) (c_uid (w_cfg w))); run; [|reflexivity].
  destruct be_strict; run; [|reflexivity].
  destruct (Z.eqb (Z.land 63 (st_mode st)) 0); reflexivity.
Qed.

Lemma check_unreadable (dirname : string) (be_strict : bool) (w : world) (e : Z) :
  w_fs w dirname = Lstat_err e -> e <> ENOENT ->
  mkdir_and_check dirname be_strict w =
    (Exit 1, put_stderr ("lstat() failed for " +s+ dirname +s+ ": "
                         +s+ c_strerror (w_cfg w) e +s+ nl) w).
Proof.
  intros H He. unfold mkdir_and_check.
  unfold bind at 1. unfold lstat at 1, gets at 1. rewrite H.
  apply Z.eqb_neq in He. rewrite He. run. reflexivity.
Qed.

Lemma check_mkdir_fails (dirname : string) (be_strict : bool) (w : world) (e : Z) :
  w_fs w dirname = Lstat_err ENOENT ->
  c_mkdir_errno (w_cfg w) dirname = Some e ->
  mkdir_and_check dirname be_strict w =
    (Exit 1,
     put_stderr ("Error creating directory " +s+ dirname +s+ ": "
                 +s+ c_strerror (w_cfg w) e +s+ nl)
       (put_event (EvMkdir dirname S_IRWXU)
          (put_stderr ("VNC directory " +s+ dirname
                       +s+ " does not exist, creating." +s+ nl) w))).
Proof.
  intros H He. unfold mkdir_and_check.
  unfold bind at 1. unfold lstat at 1, gets at 1. rewrite H.
  rewrite Z.eqb_refl. run. unfold mkdir. run.
  rewrite He. run. reflexivity.
Qed.

Lemma check_created (dirname : string) (be_strict : bool) (w : world) :
  w_fs w dirname = Lstat_err ENOENT ->
  c_mkdir_errno (w_cfg w) dirname = None ->
  mkdir_and_check dirname be_strict w =
    verdict dirname be_strict (created w S_IRWXU)
      (set_fs (fun p => if String.eqb p dirname
                        then Lstat_ok (created w S_IRWXU) else w_fs w p)
         (put_event (EvMkdir dirname S_IRWXU)
            (put_stderr ("VNC directory " +s+ dirname
                         +s+ " does not exist, creating." +s+ nl) w))).
Proof.
  intros H He. unfold mkdir_and_check.
  unfold bind at 1. unfold lstat at 1, gets at 1. rewrite H.
  rewrite Z.eqb_refl. run. unfold mkdir. run. rewrite He. run.
  change ((0 =? -1)%Z) with false. run.
  unfold lstat, gets. run. rewrite String.eqb_refl. run.
  unfold verdict, first_violation, created. run.
  unfold getuid. run. cbn [st_mode st_uid].
  rewrite (Z.land_comm _ 63).
  change (Z.lor S_IRWXG S_IRWXO) with 63%Z.
  set (m := Z.lor _ _).
  destruct (S_ISDIR m); run; [|reflexivity].
  destruct (Z.eqb (c_euid (w_cfg w)) (c_uid (w_cfg w))); run; [|reflexivity].
  destruct be_strict; run; [|reflexivity].
  destruct (Z.eqb (Z.land 63 m) 0); reflexivity.
Qed.

Lemma land_owner_bits (x mask : Z) :
  Z.land S_IRWXU mask = 0%Z -> Z.land (Z.land S_IRWXU x) mask = 0%Z.
Proof.
  intros H. rewrite (Z.land_comm S_IRWXU x), <- Z.land_assoc, H.
  apply Z.land_0_r.
Qed.

(** A directory made with owner-only permissions is a directory without
    group or other bits whatever the umask; it belongs to the effective
    user. *)
Lemma created_violation (dirname : string) (be_strict : bool) (w : world) :
  first_violation dirname (c_uid (w_cfg w)) be_strict (created w S_IRWXU)
  = if Z.eqb (c_euid (w_cfg w)) (c_uid (w_cfg w)) then None
    else Some ("Error: bad ownership on " +s+ dirname +s+ nl).
Proof.
  unfold first_violation, created, S_ISDIR. cbn [st_mode st_uid].
  rewrite !Z.land_lor_distr_l.
  rewrite !land_owner_bits by reflexivity.
  change (Z.land S_IFDIR S_IFMT) with S_IFDIR.
  change (Z.land S_IFDIR 63) with 0%Z.
  rewrite !Z.lor_0_r, Z.eqb_refl. cbn [negb].
  destruct (Z.eqb (c_euid (w_cfg w)) (c_uid (w_cfg w))); cbn [negb];
    [rewrite andb_false_r|]; reflexivity.
Qed.

(** ** The option loop of [main] *)

Lemma getenv_safe_USER_ok (w : world) (u : string) :
  USER_ok w = Some u -> getenv_safe "USER" 32 w = (Ret u, w).
Proof.
  unfold USER_ok, getenv_safe, getenv. run.
  destruct (c_env (w_cfg w) "USER") as [v|]; [|discriminate].
  destruct (Nat.ltb 32 (String.length v)); [discriminate|].
  intros [= ->]. reflexivity.
Qed.

Lemma getenv_safe_USER_bad (w : world) :
  USER_ok w = None ->
  exists msg, getenv_safe "USER" 32 w = (Exit 1, put_stderr msg w).
Proof.
  unfold USER_ok, getenv_safe, getenv. run.
  destruct (c_env (w_cfg w) "USER") as [v|].
  - destruct (Nat.ltb 32 (String.length v)); [|discriminate].
    intros _. eexists. reflexivity.
  - intros _. eexists. reflexivity.
Qed.

Lemma main_options_stops (argv0 : string) (rest : list string)
    (g : globals) (l : locals) (w : world) :
  stops rest = true ->
  main_options argv0 rest g l w = (Ret (g, l, rest), w).
Proof.
  destruct rest as [|a r]; simpl; [reflexivity|].
  intros ->. reflexivity.
Qed.

(** The loop on a well-formed command line computes [run_options]. *)
Lemma main_options_words (argv0 u : string) (rest : list string) (w : world) :
  stops rest = true ->
  forall os g l,
    (existsb is_t os = true -> USER_ok w = Some u) ->
    main_options argv0 (command_line os ++ rest) g l w
    = (let (g', l') := run_options u os (g, l) in (Ret (g', l', rest), w)).
Proof.
  intros Hrest.
  induction os as [|o os IH]; intros g l Hu.
  - simpl. rewrite main_options_stops by assumption. reflexivity.
  - assert (Hu' : existsb is_t os = true -> USER_ok w = Some u)
      by (intros H; apply Hu; simpl; rewrite H; apply orb_true_r).
    destruct o; simpl command_line; simpl app;
      cbn [run_options apply_option];
      try (simpl main_options; rewrite IH by assumption; reflexivity).
    simpl main_options. unfold bind.
    rewrite (getenv_safe_USER_ok w u) by (apply Hu; reflexivity).
    rewrite IH by assumption. reflexivity.
Qed.

(** With no usable USER, the first [-t] ends the run. *)
Lemma main_options_no_USER (argv0 : string) (rest : list string) (w : world) :
  USER_ok w = None ->
  forall os g l,
    existsb is_t os = true ->
    exists msg,
      main_options argv0 (command_line os ++ rest) g l w
      = (Exit 1, put_stderr msg w).
Proof.
  intros Hu.
  induction os as [|o os IH]; intros g l Ht; [discriminate|].
  destruct o; simpl in Ht; simpl command_line; simpl app;
    try (simpl main_options; apply IH; assumption).
  simpl main_options. unfold bind.
  destruct (getenv_safe_USER_bad w Hu) as [msg ->].
  eexists. reflexivity.
Qed.

(** *** What the options leave in the variables *)

Lemma run_options_otp (u : string) (os : list option_word) : forall g l,
  otp (fst (run_options u os (g, l))) = otp g || existsb is_otp os.
Proof.
  induction os as [|o os IH]; intros g l; simpl; [now rewrite orb_false_r|].
  destruct o; simpl; rewrite IH; simpl; auto using orb_true_r.
Qed.

Lemma run_options_userList (u : string) (os : list option_word) : forall g l,
  userList (fst (run_options u os (g, l))) = userList g || existsb is_acl os.
Proof.
  induction os as [|o os IH]; intros g l; simpl; [now rewrite orb_false_r|].
  destruct o; simpl; rewrite IH; simpl; auto using orb_true_r.
Qed.

Lemma run_options_f_or_t (u : string) (os : list option_word) : forall g l,
  f_or_t l || existsb is_f os || existsb is_t os = true ->
  f_or_t (snd (run_options u os (g, l))) = true.
Proof.
  induction os as [|o os IH]; intros g l H; simpl in *.
  - now rewrite !orb_false_r in H.
  - destruct o; simpl; apply IH; simpl;
      try (unfold f_or_t in *; simpl; rewrite ?orb_true_r; reflexivity);
      try (rewrite <- H; unfold f_or_t; simpl; reflexivity).
Qed.

Lemma run_options_no_f_t (u : string) (os : list option_word) : forall g l,
  existsb is_f os = false -> existsb is_t os = false ->
  read_from_stdin (snd (run_options u os (g, l))) = read_from_stdin l
  /\ passwdDir (snd (run_options u os (g, l))) = passwdDir l.
Proof.
  induction os as [|o os IH]; intros g l Hf Ht; simpl in *; [auto|].
  destruct o; simpl in *; try discriminate;
    match goal with |- context [run_options u os (?g', ?l')] =>
      destruct (IH g' l' Hf Ht) as [H1 H2]; rewrite H1, H2
    end; auto.
Qed.

Lemma getenv_safe_ok (name : string) (maxlen : nat) (w : world) (v : string) :
  c_env (w_cfg w) name = Some v -> String.length v <= maxlen ->
  getenv_safe name maxlen w = (Ret v, w).
Proof.
  intros H Hl. unfold getenv_safe, getenv. run. rewrite H.
  replace (Nat.ltb maxlen (String.length v)) with false
    by (symmetry; apply Nat.ltb_ge; assumption).
  reflexivity.
Qed.

Lemma getenv_safe_cases (name : string) (maxlen : nat) (w : world) :
  (exists v, c_env (w_cfg w) name = Some v /\ String.length v <= maxlen
             /\ getenv_safe name maxlen w = (Ret v, w))
  \/ (exists msg, getenv_safe name maxlen w = (Exit 1, put_stderr msg w)).
Proof.
  unfold getenv_safe, getenv. run.
  destruct (c_env (w_cfg w) name) as [v|].
  - destruct (Nat.ltb maxlen (String.length v)) eqn:E.
    + right. eexists. reflexivity.
    + left. exists v. apply Nat.ltb_ge in E. auto.
  - right. eexists. reflexivity.
Qed.

Lemma only_stderr_put (msg : string) (w : world) : only_stderr w (put_stderr msg w).
Proof. unfold only_stderr. cbn. tauto. Qed.

Theorem main_conflict (w : world) (argv0 : string) (os : list option_word)
    (rest : list string) :
  stops rest = true -> conflict os = true ->
  exists w', main (argv0 :: command_line os ++ rest) w = (Exit 1, w')
             /\ only_stderr w w'.
Proof.
  intros Hrest Hc. unfold main.
  unfold bind at 1.
  destruct (getenv_safe_cases "HOME" 240 w) as [(h & _ & _ & ->)|(msg & ->)];
    [|eexists; split; [reflexivity | apply only_stderr_put]].
  unfold bind at 1.
  destruct (USER_ok w) as [u|] eqn:Hu.
  - rewrite (main_options_words argv0 u rest w Hrest) by (intros _; assumption).
    set (l0 := mkLocals _ _ _ _ _).
    pose proof (run_options_otp u os globals0 l0) as Hotp.
    pose proof (run_options_userList u os globals0 l0) as Hacl.
    pose proof (run_options_f_or_t u os globals0 l0) as Hft.
    destruct (run_options u os (globals0, l0)) as [g l].
    cbn [fst snd globals0 otp userList orb] in *.
    unfold conflict, has_otp, has_acl, has_f, has_t in Hc.
    rewrite Hotp, Hacl.
    assert (Hft' : existsb is_f os || existsb is_t os = true -> f_or_t l = true)
      by (intros H; apply Hft; rewrite <- orb_assoc, H; apply orb_true_r).
    clear Hft Hotp Hacl. unfold f_or_t in Hft'.
    destruct (existsb is_otp os), (existsb is_acl os),
             (existsb is_f os), (existsb is_t os);
      cbn [andb orb] in Hc; try discriminate;
      try specialize (Hft' eq_refl);
      destruct (read_from_stdin l), (strncmp_eq (passwdDir l) "/tmp" 4);
      try discriminate;
      run; (eexists; split; [reflexivity | apply only_stderr_put]).
  - destruct (existsb is_t os) eqn:Ht.
    + destruct (main_options_no_USER argv0 rest w Hu os globals0
                  (mkLocals false true false (h +s+ "/.vnc")
                            ((h +s+ "/.vnc") +s+ "/passwd")) Ht) as [msg ->].
      eexists; split; [reflexivity | apply only_stderr_put].
    + rewrite (main_options_words argv0 EmptyString rest w Hrest)
        by (rewrite Ht; discriminate).
      set (l0 := mkLocals _ _ _ _ _).
      pose proof (run_options_otp EmptyString os globals0 l0) as Hotp.
      pose proof (run_options_userList EmptyString os globals0 l0) as Hacl.
      pose proof (run_options_f_or_t EmptyString os globals0 l0) as Hft.
      destruct (run_options EmptyString os (globals0, l0)) as [g l].
      cbn [fst snd globals0 otp userList orb] in *.
      unfold conflict, has_otp, has_acl, has_f, has_t in Hc.
      rewrite Hotp, Hacl. rewrite Ht in *.
      assert (Hft' : existsb is_f os = true -> f_or_t l = true)
        by (intros H; apply Hft; rewrite H; rewrite orb_true_r; reflexivity).
      clear Hft Hotp Hacl. unfold f_or_t in Hft'.
      destruct (existsb is_otp os), (existsb is_acl os), (existsb is_f os);
        cbn [andb orb] in Hc; try discriminate;
        try specialize (Hft' eq_refl);
        destruct (read_from_stdin l), (strncmp_eq (passwdDir l) "/tmp" 4);
        try discriminate;
        run; (eexists; split; [reflexivity | apply only_stderr_put]).
Qed.

(** ** The decimal rendering *)

Lemma N_of_digit (d : N) : (d < 10)%N -> N_of_ascii (digit d) = (48 + d)%N.
Proof.
  intros H. unfold digit. apply N_ascii_embedding. lia.
Qed.

Lemma digit_is_digit (d : N) : (d < 10)%N -> is_digit (digit d) = true.
Proof.
  intros H. unfold is_digit. rewrite N_of_digit by assumption.
  apply andb_true_intro; split; apply N.leb_le; lia.
Qed.

Lemma is_digit_not_NUL (c : ascii) : is_digit c = true -> Ascii.eqb c NUL = false.
Proof.
  intros H. destruct (Ascii.eqb c NUL) eqn:E; [|reflexivity].
  apply Ascii.eqb_eq in E. subst c. discriminate.
Qed.

Lemma digits_rev_digits (fuel : nat) : forall v,
  Forall (fun c => is_digit c = true) (digits_rev fuel v).
Proof.
  induction fuel as [|f IH]; intros v; simpl; [constructor|].
  constructor.
  - apply digit_is_digit. apply N.mod_lt. discriminate.
  - destruct (N.eqb (v / 10) 0); [constructor | apply IH].
Qed.

Lemma fmt_08u_digits (v : N) : Forall (fun c => is_digit c = true) (fmt_08u v).
Proof.
  unfold fmt_08u, fmt_u. apply Forall_app. split.
  - apply Forall_forall. intros c Hc. apply repeat_spec in Hc. now subst.
  - apply Forall_rev, digits_rev_digits.
Qed.

Lemma fmt_08u_length (v : N) : 8 <= length (fmt_08u v).
Proof.
  unfold fmt_08u. rewrite length_app, repeat_length. lia.
Qed.

Lemma otp_digits_length (v : N) : length (otp_digits v) = 8.
Proof.
  unfold otp_digits. apply firstn_length_le, fmt_08u_length.
Qed.

Lemma otp_digits_digits (v : N) : Forall (fun c => is_digit c = true) (otp_digits v).
Proof.
  unfold otp_digits.
  pose proof (fmt_08u_digits v) as H.
  rewrite <- (firstn_skipn 8 (fmt_08u v)) in H.
  apply Forall_app in H. tauto.
Qed.

(** *** The digits denote the value *)

Lemma le_value_digits_rev (fuel : nat) : forall v,
  (v < 10 ^ N.of_nat fuel)%N -> le_value (digits_rev fuel v) = v.
Proof.
  induction fuel as [|f IH]; intros v Hv.
  - change (10 ^ N.of_nat 0)%N with 1%N in Hv.
    assert (v = 0%N) by lia. subst. reflexivity.
  - cbn [digits_rev le_value].
    rewrite N_of_digit by (apply N.mod_lt; discriminate).
    rewrite (N.add_comm 48), N.add_sub.
    pose proof (N.div_mod v 10 ltac:(discriminate)) as Hdm.
    destruct (N.eqb (v / 10) 0) eqn:E.
    + apply N.eqb_eq in E. rewrite E in Hdm. cbn [le_value].
      rewrite N.mul_0_r, N.add_0_r. rewrite N.mul_0_r, N.add_0_l in Hdm.
      now symmetry.
    + rewrite IH; [rewrite N.add_comm; now symmetry|].
      rewrite Nat2N.inj_succ, N.pow_succ_r' in Hv.
      apply N.Div0.div_lt_upper_bound. exact Hv.
Qed.

Lemma dec_value_app (a b : list ascii) :
  dec_value (a ++ b) =
  fold_left (fun acc c => (10 * acc + (N_of_ascii c - 48))%N) b (dec_value a).
Proof. unfold dec_value. apply fold_left_app. Qed.

Lemma dec_value_rev (l : list ascii) : dec_value (rev l) = le_value l.
Proof.
  induction l as [|c r IH]; [reflexivity|].
  simpl rev. rewrite dec_value_app, IH. simpl. lia.
Qed.

Lemma dec_value_zeros (k : nat) (l : list ascii) :
  dec_value (repeat "0"%char k ++ l) = dec_value l.
Proof.
  rewrite dec_value_app.
  replace (dec_value (repeat "0"%char k)) with 0%N; [reflexivity|].
  induction k as [|k IH]; [reflexivity|].
  change (repeat "0"%char (S k)) with (["0"%char] ++ repeat "0"%char k).
  rewrite dec_value_app. exact IH.
Qed.

(** Ten digits are enough for every [unsigned int]. *)
Lemma fmt_u_value (v : N) : (v < 4294967296)%N -> dec_value (fmt_u v) = v.
Proof.
  intros H. unfold fmt_u. rewrite dec_value_rev.
  apply le_value_digits_rev. simpl. lia.
Qed.

Lemma fmt_08u_value (v : N) : (v < 4294967296)%N -> dec_value (fmt_08u v) = v.
Proof.
  intros H. unfold fmt_08u. rewrite dec_value_zeros. now apply fmt_u_value.
Qed.

Lemma digits_rev_short (fuel : nat) : forall (k : nat) v,
  0 < k -> (v < 10 ^ N.of_nat k)%N -> length (digits_rev fuel v) <= k.
Proof.
  induction fuel as [|f IH]; intros k v Hk Hv; simpl; [lia|].
  destruct (N.eqb (v / 10) 0) eqn:E; simpl; [lia|].
  apply N.eqb_neq in E.
  destruct k as [|k]; [lia|].
  destruct k as [|k].
  - simpl in Hv. exfalso. apply E. apply N.div_small. lia.
  - specialize (IH (S k) (v / 10)%N ltac:(lia)).
    rewrite Nat2N.inj_succ, N.pow_succ_r' in Hv.
    assert (v / 10 < 10 ^ N.of_nat (S k))%N
      by (apply N.Div0.div_lt_upper_bound; lia).
    specialize (IH H). lia.
Qed.

(** Below 10^8 the eight characters are the whole zero-padded rendering. *)
Lemma otp_digits_small (v : N) :
  (v < 100000000)%N -> otp_digits v = fmt_08u v /\ dec_value (otp_digits v) = v.
Proof.
  intros H.
  assert (Hl : length (fmt_08u v) = 8).
  { unfold fmt_08u, fmt_u. rewrite length_app, repeat_length, length_rev.
    pose proof (digits_rev_short 10 8 v ltac:(lia) ltac:(simpl; lia)). lia. }
  assert (Hd : otp_digits v = fmt_08u v)
    by (unfold otp_digits; apply firstn_all2; lia).
  split; [assumption|]. rewrite Hd. apply fmt_08u_value. lia.
Qed.

(** ** [DoOTP] *)

Lemma memcpy_take (dst : buf) : forall src n,
  n <= length src -> n <= length dst ->
  memcpy dst 0 src n = firstn n src ++ skipn n dst.
Proof.
  induction dst as [|d dr IH]; intros src n Hs Hd.
  - simpl in Hd. assert (n = 0) by lia. subst. reflexivity.
  - destruct n as [|n]; [reflexivity|].
    destruct src as [|s sr]; simpl in Hs; [lia|].
    simpl in Hd. simpl. rewrite IH by lia. reflexivity.
Qed.

Lemma memcpy_offset (x y : buf) (src : buf) (n : nat) :
  memcpy (x ++ y) (length x) src n = x ++ memcpy y 0 src n.
Proof.
  induction x as [|c x IH]; simpl; [|now rewrite IH].
  destruct y; reflexivity.
Qed.

Lemma str_prec_digits (d : list ascii) (r : buf) :
  Forall (fun c => is_digit c = true) d ->
  str_prec (length d) (d ++ r) = d.
Proof.
  induction 1 as [|c d Hc Hd IH]; simpl.
  - destruct r; reflexivity.
  - rewrite (is_digit_not_NUL c Hc), IH. reflexivity.
Qed.

Lemma snprintf_otp (b : buf) (v : N) :
  length b = 9 -> snprintf b (MAXPWLEN + 1) (fmt_08u v) = otp_digits v ++ [NUL].
Proof.
  intros Hb. unfold snprintf.
  change (firstn (MAXPWLEN + 1 - 1) (fmt_08u v)) with (otp_digits v).
  rewrite memcpy_take.
  - rewrite firstn_all2, skipn_all2; [apply app_nil_r | |];
      rewrite ?length_app, ?otp_digits_length; simpl; lia.
  - rewrite length_app, otp_digits_length. simpl. lia.
  - rewrite Hb. simpl. lia.
Qed.

Lemma memset_wipe (b : buf) : memset b 0 NUL (length b) = repeat NUL (length b).
Proof.
  rewrite memset_all_zero, Nat.min_id, skipn_all. apply app_nil_r.
Qed.

Lemma DoOTP_issue (g : globals) (w : world) (a b : N) (e : list N) :
  otpClear g = false ->
  c_display_opens (w_cfg w) (displayname g) = true ->
  c_atom_exists (w_cfg w) "VNC_OTP" = true ->
  (c_UseDevUrandom (w_cfg w) = true -> c_urandom_errno (w_cfg w) = None) ->
  w_entropy w = a :: b :: e ->
  let full := to_uint a in
  let view := to_uint b in
  exists w',
    DoOTP g w =
      (Ret (mkDoOTP 0
              (otp_digits (if alsoView g then view else full) ++ [NUL])
              (repeat NUL 16)), w')
    /\ w_events w' = w_events w ++
         [EvXOpenDisplay (displayname g);
          EvXChangeProperty "VNC_OTP"
            (otp_digits full ++ if alsoView g then otp_digits view else []);
          EvXCloseDisplay]
    /\ w_stderr w' = w_stderr w ++
         ("Full control one-time password: " +s+ text (otp_digits full) +s+ nl)
         :: (if alsoView g
             then ["View-only one-time password: "
                   +s+ text (otp_digits view) +s+ nl]
             else [])
    /\ w_entropy w' = if alsoView g then e else b :: e.
Proof.
  intros Hclear Hdpy Hatom Hur He full view.
  unfold DoOTP.
  unfold bind at 1, uninit at 1, gets at 1.
  unfold bind at 1, uninit at 1, gets at 1.
  set (buf0 := map _ (seq 0 (MAXPWLEN + 1))).
  set (bytes0 := map _ (seq 0 (MAXPWLEN * 2))).
  assert (Hbuf0 : length buf0 = 9) by apply uninit_length.
  assert (Hbytes0 : length bytes0 = 16) by apply uninit_length.
  cbv zeta.
  unfold bind at 1, XOpenDisplay at 1. rewrite Hdpy. cbn [negb].
  unfold bind at 1, XInternAtom at 1, gets at 1. run. rewrite Hatom, Hclear. cbn [negb].
  assert (Hfmt : forall v, snprintf buf0 (MAXPWLEN + 1) (fmt_08u v) = otp_digits v ++ [NUL])
    by (intros; now apply snprintf_otp).
  assert (Hfmt2 : forall v v', snprintf (otp_digits v ++ [NUL]) (MAXPWLEN + 1) (fmt_08u v')
                               = otp_digits v' ++ [NUL]).
  { intros. apply snprintf_otp. rewrite length_app, otp_digits_length. reflexivity. }
  assert (Hb1 : forall v, memcpy bytes0 0 (otp_digits v ++ [NUL]) MAXPWLEN
                          = otp_digits v ++ skipn 8 bytes0).
  { intros v. rewrite memcpy_take.
    - rewrite firstn_app, otp_digits_length. simpl firstn at 2.
      rewrite firstn_all2 by (rewrite otp_digits_length; unfold MAXPWLEN; lia).
      now rewrite app_nil_r.
    - rewrite length_app, otp_digits_length. unfold MAXPWLEN. simpl. lia.
    - rewrite Hbytes0. unfold MAXPWLEN. lia. }
  assert (Hb2 : forall v v', memcpy (otp_digits v ++ skipn 8 bytes0) MAXPWLEN
                               (otp_digits v' ++ [NUL]) MAXPWLEN
                             = otp_digits v ++ otp_digits v').
  { intros v v'. replace MAXPWLEN with (length (otp_digits v)) at 1
      by apply otp_digits_length.
    rewrite memcpy_offset, memcpy_take.
    - rewrite firstn_app, otp_digits_length. simpl firstn at 2.
      rewrite firstn_all2 by (rewrite otp_digits_length; unfold MAXPWLEN; lia).
      rewrite skipn_all2 by (rewrite length_skipn, Hbytes0; unfold MAXPWLEN; lia).
      now rewrite !app_nil_r.
    - rewrite length_app, otp_digits_length. unfold MAXPWLEN. simpl. lia.
    - rewrite length_skipn, Hbytes0. unfold MAXPWLEN. lia. }
  assert (Hp1 : forall v r, str_prec MAXPWLEN (otp_digits v ++ r) = otp_digits v).
  { intros v r. replace MAXPWLEN with (length (otp_digits v))
      by apply otp_digits_length.
    apply str_prec_digits, otp_digits_digits. }
  assert (Hf1 : forall v r, firstn MAXPWLEN (otp_digits v ++ r) = otp_digits v).
  { intros v r. rewrite firstn_app, otp_digits_length.
    change (MAXPWLEN - 8) with 0. simpl firstn at 2.
    rewrite firstn_all2 by (rewrite otp_digits_length; unfold MAXPWLEN; lia).
    apply app_nil_r. }
  assert (Hf2 : forall v v', firstn (MAXPWLEN * 2) (otp_digits v ++ otp_digits v')
                             = otp_digits v ++ otp_digits v').
  { intros. apply firstn_all2. rewrite length_app, !otp_digits_length.
    unfold MAXPWLEN. lia. }
  assert (Hw1 : forall v, memset (otp_digits v ++ skipn 8 bytes0) 0 NUL (MAXPWLEN * 2)
                          = repeat NUL 16).
  { intros v. replace (MAXPWLEN * 2) with (length (otp_digits v ++ skipn 8 bytes0)).
    - rewrite memset_wipe. f_equal.
      rewrite length_app, otp_digits_length, length_skipn, Hbytes0. reflexivity.
    - rewrite length_app, otp_digits_length, length_skipn, Hbytes0. reflexivity. }
  assert (Hw2 : forall v v', memset (otp_digits v ++ otp_digits v') 0 NUL (MAXPWLEN * 2)
                             = repeat NUL 16).
  { intros v v'. replace (MAXPWLEN * 2) with (length (otp_digits v ++ otp_digits v')).
    - rewrite memset_wipe. f_equal.
      rewrite length_app, !otp_digits_length. reflexivity.
    - rewrite length_app, !otp_digits_length. reflexivity. }
  assert (Hs : forall v r, skipn MAXPWLEN (otp_digits v ++ r) = r).
  { intros v r. replace MAXPWLEN with (length (otp_digits v))
      by apply otp_digits_length.
    rewrite skipn_app, skipn_all, Nat.sub_diag. reflexivity. }
  assert (Hp0 : forall v, str_prec MAXPWLEN (otp_digits v) = otp_digits v).
  { intros v. rewrite <- (app_nil_r (otp_digits v)) at 1. apply Hp1. }
  cbn [w_cfg put_event].
  destruct (c_UseDevUrandom (w_cfg w)) eqn:EU; run;
    [rewrite (Hur eq_refl)|];
    unfold read_urandom, random, XChangeProperty, XCloseDisplay; run;
    rewrite He; fold full; run;
    (destruct (alsoView g); run; fold view;
     rewrite ?Hfmt, ?Hb1, ?Hfmt2, ?Hb2, ?Hp1, ?Hf1, ?Hf2, ?Hw1, ?Hw2,
             ?Hs, ?Hp0);
    (eexists; split; [reflexivity|]);
    cbn [w_events w_stderr w_entropy put_event put_stderr set_entropy];
    rewrite <- ?app_assoc, ?app_nil_r; cbn [app]; auto.
Qed.

Lemma DoOTP_clear (g : globals) (w : world) :
  otpClear g = true ->
  c_display_opens (w_cfg w) (displayname g) = true ->
  c_atom_exists (w_cfg w) "VNC_OTP" = true ->
  exists b,
    DoOTP g w =
      (Ret (mkDoOTP 0 b (repeat NUL 16)),
       put_event EvXCloseDisplay
         (put_event (EvXChangeProperty "VNC_OTP" [])
            (put_event (EvXOpenDisplay (displayname g)) w))).
Proof.
  intros Hclear Hdpy Hatom.
  unfold DoOTP.
  unfold bind at 1, uninit at 1, gets at 1.
  unfold bind at 1, uninit at 1, gets at 1.
  set (buf0 := map _ (seq 0 (MAXPWLEN + 1))).
  set (bytes0 := map _ (seq 0 (MAXPWLEN * 2))).
  assert (Hbytes0 : length bytes0 = 16) by apply uninit_length.
  cbv zeta.
  unfold bind at 1, XOpenDisplay at 1. rewrite Hdpy. cbn [negb].
  unfold bind at 1, XInternAtom at 1, gets at 1. run. rewrite Hatom, Hclear. cbn [negb].
  unfold XChangeProperty, XCloseDisplay. run.
  assert (Hw : memset bytes0 0 NUL (MAXPWLEN * 2) = repeat NUL 16)
    by (change (MAXPWLEN * 2) with 16; rewrite <- Hbytes0; apply memset_wipe).
  rewrite Hw. exists buf0. reflexivity.
Qed.

(** ** [DoUserList] *)

Lemma length_chars (s : string) : length (chars s) = String.length s.
Proof. induction s as [|c s IH]; simpl; [reflexivity|]. now rewrite IH. Qed.

Lemma acl_flag_byte (z : Z) (view : bool) :
  (z = 0 \/ z = 1)%Z ->
  char_of_Z (Z.lor z (if view then 16 else 0)) = acl_flag (Z.eqb z 1) view.
Proof. intros [->| ->]; destruct view; reflexivity. Qed.

Lemma DoUserList_writes (g : globals) (w : world) (u : string) :
  user g = Some u ->
  1 <= String.length u <= 63 ->
  (addUser g = 0 \/ addUser g = 1)%Z ->
  c_display_opens (w_cfg w) (displayname g) = true ->
  c_atom_exists (w_cfg w) "VNC_ACL" = true ->
  DoUserList g w =
    (Ret 0%Z,
     put_event EvXCloseDisplay
       (put_event
          (EvXChangeProperty "VNC_ACL"
             (acl_flag (Z.eqb (addUser g) 1) (alsoView g) :: chars u))
          (put_event (EvXOpenDisplay (displayname g)) w))).
Proof.
  intros Hu Hlen Hadd Hdpy Hatom.
  unfold DoUserList.
  unfold bind at 1, uninit at 1, gets at 1.
  set (bytes0 := map _ (seq 0 (MAXUSERLEN + 1))).
  assert (Hb : length bytes0 = 64) by apply uninit_length.
  cbv zeta. rewrite Hu.
  replace (Nat.eqb (String.length u) 0) with false
    by (symmetry; apply Nat.eqb_neq; lia).
  replace (Nat.ltb MAXUSERLEN (String.length u)) with false
    by (symmetry; apply Nat.ltb_ge; unfold MAXUSERLEN; lia).
  unfold bind at 1, XOpenDisplay at 1. rewrite Hdpy. cbn [negb].
  unfold bind at 1, XInternAtom at 1, gets at 1. run. rewrite Hatom. cbn [negb].
  unfold XChangeProperty, XCloseDisplay. run.
  rewrite acl_flag_byte by assumption.
  destruct bytes0 as [|j bytes1]; [discriminate|].
  simpl in Hb. cbn [poke memcpy].
  rewrite <- length_chars.
  rewrite memcpy_prefix by (rewrite length_chars; lia).
  rewrite Nat.add_1_r. cbn [firstn].
  rewrite firstn_app, Nat.sub_diag, firstn_all. simpl firstn.
  rewrite app_nil_r. reflexivity.
Qed.

Lemma DoUserList_rejects (g : globals) (w : world) :
  match user g with
  | None => True
  | Some u => String.length u = 0 \/ 63 < String.length u
  end ->
  exists msg, DoUserList g w = (Ret 1%Z, put_stderr msg w).
Proof.
  intros H. unfold DoUserList.
  unfold bind at 1, uninit at 1, gets at 1. cbv zeta.
  destruct (user g) as [u|]; [|run; eexists; reflexivity].
  destruct (Nat.eqb (String.length u) 0) eqn:E0; [run; eexists; reflexivity|].
  apply Nat.eqb_neq in E0.
  replace (Nat.ltb MAXUSERLEN (String.length u)) with true
    by (symmetry; apply Nat.ltb_lt; unfold MAXUSERLEN; lia).
  run. eexists. reflexivity.
Qed.

(** ** [main] *)

Lemma stops_nil : stops [] = true.
Proof. reflexivity. Qed.

Lemma no_t_USER (os : list option_word) (w : world) :
  has_t os = false -> existsb is_t os = true -> USER_ok w = Some EmptyString.
Proof. unfold has_t. intros ->. discriminate. Qed.

(** OTP mode with a home directory under /tmp. *)
Theorem main_otp_home_under_tmp (w : world) (argv0 t : string)
    (os : list option_word) (rest : list string) :
  stops rest = true ->
  c_env (w_cfg w) "HOME" = Some ("/tmp" +s+ t) ->
  String.length ("/tmp" +s+ t) <= 240 ->
  has_otp os = true -> has_f os = false -> has_t os = false ->
  main (argv0 :: command_line os ++ rest) w
  = (Exit 1, put_stderr ("Error: -t is incompatible with -o" +s+ nl) w).
Proof.
  intros Hrest Hh Hl Ho Hf Ht. unfold main.
  unfold bind at 1. rewrite (getenv_safe_ok _ _ _ _ Hh Hl).
  unfold bind at 1.
  rewrite (main_options_words argv0 EmptyString rest w Hrest)
    by (apply no_t_USER; assumption).
  set (l0 := mkLocals _ _ _ _ _).
  pose proof (run_options_otp EmptyString os globals0 l0) as Hotp.
  destruct (run_options_no_f_t EmptyString os globals0 l0 Hf Ht) as [Hr Hd].
  destruct (run_options EmptyString os (globals0, l0)) as [g l].
  cbn [fst snd globals0 otp orb] in *.
  unfold has_otp in Ho. rewrite Ho in Hotp.
  subst l0. cbn [read_from_stdin passwdDir] in Hr, Hd.
  rewrite Hotp, Hr, Hd.
  change (strncmp_eq (("/tmp" +s+ t) +s+ "/.vnc") "/tmp" 4) with true.
  run. reflexivity.
Qed.

Lemma run_options_batch (u : string) (os : list option_word) : forall g l,
  existsb is_t os = false ->
  existsb is_f os = true \/ batch l ->
  batch (snd (run_options u os (g, l))).
Proof.
  unfold batch.
  induction os as [|o os IH]; intros g l Ht H; simpl in *.
  - destruct H; [discriminate | assumption].
  - destruct o; simpl in *; try discriminate; apply IH; try assumption;
      try (right; repeat split; reflexivity);
      (destruct H as [H|(H1 & H2 & H3)]; [left; assumption|right; auto]).
Qed.

Ltac enter_batch argv0 os w Hf Ht Ho Ha Hh Hl :=
  unfold main;
  unfold bind at 1; rewrite (getenv_safe_ok _ _ _ _ Hh Hl);
  unfold bind at 1;
  rewrite <- (app_nil_r (command_line os));
  rewrite (main_options_words argv0 EmptyString [] w stops_nil)
    by (apply no_t_USER; assumption);
  let l0 := fresh "l0" in
  set (l0 := mkLocals _ _ _ _ _);
  let Hotp := fresh "Hotp" in
  let Hacl := fresh "Hacl" in
  let Hb := fresh "Hb" in
  pose proof (run_options_otp EmptyString os globals0 l0) as Hotp;
  pose proof (run_options_userList EmptyString os globals0 l0) as Hacl;
  pose proof (run_options_batch EmptyString os globals0 l0 Ht (or_introl Hf)) as Hb;
  let g := fresh "g" in
  let l := fresh "l" in
  destruct (run_options EmptyString os (globals0, l0)) as [g l];
  cbn [fst snd globals0 otp userList orb] in *;
  unfold has_otp, has_acl in *; rewrite Ho in Hotp; rewrite Ha in Hacl;
  destruct Hb as (Hb1 & Hb2 & Hb3);
  rewrite Hotp, Hacl; run; rewrite ?Hb1, ?Hb2, ?Hb3; run.



(** Without [-f] and the server modes the directory is still wanted. *)
Lemma run_options_directory (u : string) (os : list option_word) : forall g l,
  existsb is_f os = false -> existsb is_otp os = false ->
  existsb is_acl os = false ->
  make_directory l = true -> read_from_stdin l = false ->
  make_directory (snd (run_options u os (g, l))) = true
  /\ read_from_stdin (snd (run_options u os (g, l))) = false.
Proof.
  induction os as [|o os IH]; intros g l Hf Ho Ha Hm Hr; simpl in *; [auto|].
  destruct o; simpl in *; try discriminate; apply IH; auto.
Qed.

(** In the modes that use the directory, a guard that terminates the
    program does so before any password is asked for, read or stored. *)
Theorem main_guarded (w w1 : world) (argv0 h u : string)
    (os : list option_word) (c : Z) :
  has_f os = false -> has_otp os = false -> has_acl os = false ->
  (has_t os = true -> USER_ok w = Some u) ->
  c_env (w_cfg w) "HOME" = Some h -> String.length h <= 240 ->
  let l := snd (run_options u os (globals0, locals0 h)) in
  mkdir_and_check (passwdDir l) (check_strictly l)
    (put_stderr ("Using password file " +s+ passwdFile l +s+ nl) w)
  = (Exit c, w1) ->
  main (argv0 :: command_line os) w = (Exit c, w1).
Proof.
  intros Hf Ho Ha Hu Hh Hl l Hg.
  unfold main.
  unfold bind at 1. rewrite (getenv_safe_ok _ _ _ _ Hh Hl).
  unfold bind at 1.
  rewrite <- (app_nil_r (command_line os)).
  rewrite (main_options_words argv0 u [] w stops_nil) by exact Hu.
  fold (locals0 h).
  pose proof (run_options_otp u os globals0 (locals0 h)) as Hotp.
  pose proof (run_options_userList u os globals0 (locals0 h)) as Hacl.
  destruct (run_options_directory u os globals0 (locals0 h) Hf Ho Ha eq_refl eq_refl)
    as [Hm Hr].
  fold l in Hm, Hr. subst l.
  destruct (run_options u os (globals0, locals0 h)) as [g l].
  cbn [fst snd globals0 otp userList orb] in *.
  unfold has_otp, has_acl in *. rewrite Ho in Hotp. rewrite Ha in Hacl.
  rewrite Hotp, Hacl. run. rewrite Hm. run.
  rewrite Hg. reflexivity.
Qed.

(** The access-control modes on their usual command lines. *)
Theorem main_acl (w : world) (argv0 h u : string) (add view : bool) :
  c_env (w_cfg w) "HOME" = Some h -> String.length h <= 240 ->
  strncmp_eq (h +s+ "/.vnc") "/tmp" 4 = false ->
  let argv := argv0 :: command_line ((if add then O_a u else O_r u)
                                     :: if view then [O_v] else []) in
  (1 <= String.length u <= 63 ->
   c_display_opens (w_cfg w) None = true ->
   c_atom_exists (w_cfg w) "VNC_ACL" = true ->
   main argv w =
     (Exit 0,
      put_event EvXCloseDisplay
        (put_event (EvXChangeProperty "VNC_ACL" (acl_flag add view :: chars u))
           (put_event (EvXOpenDisplay None) w))))
  /\ (String.length u = 0 \/ 63 < String.length u ->
      exists msg, main argv w = (Exit 1, put_stderr msg w)).
Proof.
  intros Hh Hl Htmp argv.
  assert (Hmain : main argv w =
            (r <- DoUserList (mkGlobals view false false None
                                (if add then 1 else 0) true (Some u)) ;;
             exit r) w).
  { unfold argv, main.
    unfold bind at 1. rewrite (getenv_safe_ok _ _ _ _ Hh Hl).
    unfold bind at 1.
    rewrite <- (app_nil_r (command_line _)).
    rewrite (main_options_words argv0 EmptyString [] w stops_nil)
      by (destruct add, view; discriminate).
    destruct add, view; cbn [run_options apply_option globals0
      alsoView otp otpClear displayname addUser userList user
      read_from_stdin make_directory check_strictly passwdDir passwdFile];
      unfold when at 1; cbn [otp userList]; unfold bind at 1, ret at 1;
      unfold when at 1; cbn [otp userList read_from_stdin passwdDir];
      rewrite Htmp;
      unfold bind, when, ret, exit;
      match goal with |- context [DoUserList ?g w] =>
        destruct (DoUserList g w) as [[r| | |] w']
      end; reflexivity. }
  rewrite Hmain. split.
  - intros Hu Hd Ha.
    unfold bind. rewrite (DoUserList_writes _ w u); cbn [user addUser displayname alsoView];
      try assumption; try reflexivity; [|destruct add; auto].
    destruct add; reflexivity.
  - intros Hu. unfold bind.
    destruct (DoUserList_rejects (mkGlobals view false false None
                (if add then 1 else 0) true (Some u)) w Hu) as [msg ->].
    exists msg. reflexivity.
Qed.

(** * The statements of the specification *)

(** ** C1: secrets after a failed acquisition *)

(** [read_password] returns 0 exactly when there was nothing to read. *)
Lemma read_password_value (result : buf) (w w' : world) (r : read_password_ret) :
  read_password result w = (Ret r, w') ->
  read_value r = match w_stdin w with [] => 0 | _ :: _ => 1 end%Z.
Proof.
  intros H.
  unfold read_password, bind, uninit, gets, fgets in H.
  set (junk := map _ (seq 0 256)) in H.
  destruct (w_stdin w) as [|c s].
  - unfold ret in H. injection H as <- _. reflexivity.
  - destruct (fgets_take (256 - 1) (c :: s)) as [l t].
    set (p := memcpy _ _ _ _) in H.
    set (q := match strchr p newline with Some ptr => _ | None => _ end) in H.
    destruct (Nat.ltb 8 (strlen q));
      unfold fprintf_stderr, modify, ret in H; injection H as <- _; reflexivity.
Qed.

(** [read_password] fails only at end of input, before it has taken
    anything: the caller's array and the world are as they were. *)
Lemma read_password_failure_captures_nothing (result : buf) (w w' : world)
    (r : read_password_ret) :
  read_password result w = (Ret r, w') -> read_value r = 0%Z ->
  w_stdin w = [] /\ w' = w /\ read_result r = result.
Proof.
  intros H Hv.
  pose proof (read_password_value result w w' r H) as Hval.
  destruct (w_stdin w) as [|c s] eqn:Es.
  - destruct (read_password_eof result w Es) as [j Hj].
    rewrite Hj in H. injection H as <- <-. auto.
  - rewrite Hv in Hval. discriminate.
Qed.

(** C1 (the code departs from it): [ask_password] returns failure with
    secrets still in memory.  A first answer of three bytes is refused and
    stays in the static buffer of getpass; after a round of two answers that
    differ, a second round in which getpass returns NULL leaves the first
    answer in [passwd_copy] and the second in the static buffer. *)
Theorem ask_password_failure_keeps_secrets :
  (exists r w',
     ask_password (repeat "#"%char 9)
       (sample_world alice EmptyString [Some "abc"%string] []) = (Ret r, w')
     /\ ask_value r = 0%Z
     /\ cstr (w_getpass w') = chars "abc")
  /\ (exists r w',
        ask_password (repeat "#"%char 9)
          (sample_world alice EmptyString
             [Some "secret1"; Some "secret2"; None]%string [])
        = (Ret r, w')
        /\ ask_value r = 0%Z
        /\ cstr (ask_passwd_copy r) = chars "secret1"
        /\ cstr (w_getpass w') = chars "secret2").
Proof.
  split; eexists; eexists; (split; [vm_compute; reflexivity|]);
    repeat split; reflexivity.
Qed.

(** ** C2: truncation to eight bytes *)

(** C2 as stated fails at the confirmation prompt: the answers "abcdefgh"
    and "abcdefghi" are accepted as equal, "abcdefgh" is kept, and nothing
    is written to stderr although the second answer has nine bytes. *)
Lemma confirmation_truncated_silently :
  exists r w',
    ask_password (repeat "#"%char 9)
      (sample_world alice EmptyString [Some "abcdefgh"; Some "abcdefghi"]%string [])
    = (Ret r, w')
    /\ 8 < length (entered "abcdefghi")
    /\ ask_value r = 1%Z
    /\ cstr (ask_result r) = chars "abcdefgh"
    /\ ~ In truncation_warning (w_stderr w').
Proof.
  eexists; eexists; split; [vm_compute; reflexivity|].
  repeat split; try reflexivity.
  - vm_compute. lia.
  - cbn. tauto.
Qed.

(** C2, amended: a line of standard input with more than eight meaningful
    bytes is stored as its first eight bytes and the warning is written.  At
    the terminal the two answers are compared by their first eight bytes:
    when these agree the first eight bytes are stored, and the warning is
    written exactly when the first answer has more than eight bytes (the
    confirmation is cut without a warning of its own); when they differ the
    round is refused and the loop goes on. *)
Theorem truncation_to_eight (w : world) (result : buf) :
  9 <= length result ->
  (w_stdin w <> [] -> 8 < length (line_of 255 (w_stdin w)) ->
   exists r w',
     read_password result w = (Ret r, w')
     /\ read_value r = 1%Z
     /\ cstr (read_result r) = firstn 8 (line_of 255 (w_stdin w))
     /\ w_stderr w' = w_stderr w ++ [truncation_warning])
  /\ (forall p v rest,
        w_tty w = Some p :: Some v :: rest ->
        6 <= length (entered p) ->
        let warned :=
          if Nat.ltb 8 (length (entered p)) then [truncation_warning] else [] in
        (firstn 8 (entered p) = firstn 8 (entered v) ->
         exists r w',
           ask_password result w = (Ret r, w')
           /\ ask_value r = 1%Z
           /\ cstr (ask_result r) = firstn 8 (entered p)
           /\ w_stderr w' = w_stderr w ++ warned)
        /\ (firstn 8 (entered p) <> firstn 8 (entered v) ->
            exists pc w',
              ask_password result w
              = ask_password_loop (S (S (length rest))) result pc w'
              /\ cstr pc = firstn 8 (entered p)
              /\ w_tty w' = rest
              /\ w_stderr w' = w_stderr w ++ warned ++ [mismatch_message])).
Proof.
  intros Hr. split.
  - intros Hs Hlong.
    destruct (read_password_reads result w Hs Hr) as (r & H & Hv & Hres & _).
    cbv zeta in H.
    replace (Nat.ltb 8 (length (line_of 255 (w_stdin w)))) with true in H
      by (symmetry; apply Nat.ltb_lt; assumption).
    eexists; eexists; split; [exact H|]. auto.
  - intros p v rest Htty Hp warned.
    assert (Hask : forall x, ask_password result x
              = ask_password_loop (S (length (w_tty x))) result
                  (map (c_junk (w_cfg x)) (seq 0 9)) x) by reflexivity.
    rewrite Hask, Htty. cbn [length]. split.
    + intros Heq.
      destruct (ask_loop_success (S (S (length rest))) result
                  (map (c_junk (w_cfg w)) (seq 0 9)) w p v rest Htty Hp Heq Hr)
        as (r & w' & H & Hv & Hres & Herr & _);
        [rewrite uninit_length; lia|].
      eexists; eexists; split; [exact H|]. auto.
    + intros Hne.
      destruct (ask_loop_mismatch (S (S (length rest))) result
                  (map (c_junk (w_cfg w)) (seq 0 9)) w p v rest Htty Hp Hne)
        as (pc & w' & H & _ & Hpc & _ & Herr & Ht & _);
        [rewrite uninit_length; lia|].
      eexists; eexists; split; [exact H|]. auto.
Qed.

Lemma truncation_to_eight_witness :
  (exists r w',
     read_password (repeat "#"%char 9)
       (sample_world alice "0123456789" [] []) = (Ret r, w')
     /\ read_value r = 1%Z
     /\ cstr (read_result r) = chars "01234567"
     /\ w_stderr w' = [truncation_warning])
  /\ (exists r w',
        ask_password (repeat "#"%char 9)
          (sample_world alice EmptyString [Some "0123456789"; Some "01234567"]%string [])
        = (Ret r, w')
        /\ ask_value r = 1%Z
        /\ cstr (ask_result r) = chars "01234567"
        /\ w_stderr w' = [truncation_warning]).
Proof.
  pose (w1 := sample_world alice "0123456789" [] []).
  pose (w2 := sample_world alice EmptyString
                [Some "0123456789"; Some "01234567"]%string []).
  split.
  - destruct (truncation_to_eight w1 (repeat "#"%char 9)) as [H _];
      [vm_compute; lia|].
    apply H; [discriminate | vm_compute; lia].
  - destruct (truncation_to_eight w2 (repeat "#"%char 9)) as [_ H];
      [vm_compute; lia|].
    destruct (H "0123456789"%string "01234567"%string [] eq_refl) as [Ha _];
      [vm_compute; lia|].
    apply Ha. reflexivity.
Defined.

(** ** C3: the directory guard *)

(** C3 as stated fails on the owner: the program compares with [getuid],
    the real user.  For a process of real user 1000 running with effective
    user 0, a directory that belongs to the effective user is refused, and
    one that belongs to user 1000, not the effective user, is accepted. *)
Lemma guard_compares_with_real_user :
  let cfg := sample_config "/home/alice" 1000 0 in
  let mine := mkStat (Z.lor S_IFDIR S_IRWXU) 0 in
  let theirs := mkStat (Z.lor S_IFDIR S_IRWXU) 1000 in
  let w := sample_world cfg EmptyString [] [] in
  (st_uid mine = c_euid cfg
   /\ fst (mkdir_and_check "/d" false (with_node "/d" mine w)) = Exit 1)
  /\ (st_uid theirs <> c_euid cfg
      /\ fst (mkdir_and_check "/d" false (with_node "/d" theirs w)) = Ret tt).
Proof.
  cbv zeta. split; split; try reflexivity. discriminate.
Qed.

(** C3, amended: the path is inspected with [lstat]; a failure other than
    ENOENT ends the program with nothing created; on ENOENT the directory is
    made with mode S_IRWXU, the program ending if that fails, and is
    inspected again; then, in this order, a path that is no directory, an
    owner other than the real user ([getuid]), and, when strict, any group or
    other permission bit each end the program with exit code 1; otherwise the
    guard returns with the world as the inspection left it.  In the modes of
    [main] that use the directory, a guard that ends the program ends [main]
    at that point, before any password is asked for, read or stored. *)
Theorem directory_guard (w : world) (dirname : string) (be_strict : bool) :
  (forall st, w_fs w dirname = Lstat_ok st ->
     mkdir_and_check dirname be_strict w = verdict dirname be_strict st w)
  /\ (forall e, w_fs w dirname = Lstat_err e -> e <> ENOENT ->
        exists msg,
          mkdir_and_check dirname be_strict w = (Exit 1, put_stderr msg w))
  /\ (w_fs w dirname = Lstat_err ENOENT ->
      (forall e, c_mkdir_errno (w_cfg w) dirname = Some e ->
         exists w',
           mkdir_and_check dirname be_strict w = (Exit 1, w')
           /\ w_events w' = w_events w ++ [EvMkdir dirname S_IRWXU])
      /\ (c_mkdir_errno (w_cfg w) dirname = None ->
          mkdir_and_check dirname be_strict w
          = verdict dirname be_strict (created w S_IRWXU)
              (after_mkdir dirname w)
          /\ w_fs (after_mkdir dirname w) dirname
             = Lstat_ok (created w S_IRWXU)
          /\ w_events (after_mkdir dirname w)
             = w_events w ++ [EvMkdir dirname S_IRWXU]))
  /\ (forall st w0,
        let uid := c_uid (w_cfg w0) in
        let open := Z.land (st_mode st) (Z.lor S_IRWXG S_IRWXO) in
        (S_ISDIR (st_mode st) = false ->
         verdict dirname be_strict st w0
         = (Exit 1, put_stderr ("Error: " +s+ dirname
                                +s+ " is not a directory" +s+ nl) w0))
        /\ (S_ISDIR (st_mode st) = true -> st_uid st <> uid ->
            verdict dirname be_strict st w0
            = (Exit 1, put_stderr ("Error: bad ownership on "
                                   +s+ dirname +s+ nl) w0))
        /\ (S_ISDIR (st_mode st) = true -> st_uid st = uid ->
            be_strict = true -> open <> 0%Z ->
            verdict dirname be_strict st w0
            = (Exit 1, put_stderr ("Error: bad access modes on "
                                   +s+ dirname +s+ nl) w0))
        /\ (S_ISDIR (st_mode st) = true -> st_uid st = uid ->
            be_strict = false \/ open = 0%Z ->
            verdict dirname be_strict st w0 = (Ret tt, w0)))
  /\ (forall (argv0 h u : string) (os : list option_word) (c : Z) (w1 : world),
        has_f os = false -> has_otp os = false -> has_acl os = false ->
        (has_t os = true -> USER_ok w = Some u) ->
        c_env (w_cfg w) "HOME" = Some h -> String.length h <= 240 ->
        let l := snd (run_options u os (globals0, locals0 h)) in
        mkdir_and_check (passwdDir l) (check_strictly l)
          (put_stderr ("Using password file " +s+ passwdFile l +s+ nl) w)
        = (Exit c, w1) ->
        main (argv0 :: command_line os) w = (Exit c, w1)).
Proof.
  split; [|split; [|split; [|split]]].
  - intros st H. exact (check_existing dirname be_strict w st H).
  - intros e H He. eexists. exact (check_unreadable dirname be_strict w e H He).
  - intros H. split.
    + intros e He. eexists.
      split; [exact (check_mkdir_fails dirname be_strict w e H He)|].
      reflexivity.
    + intros He.
      split; [exact (check_created dirname be_strict w H He)|].
      split; [cbn; now rewrite String.eqb_refl | reflexivity].
  - intros st w0 uid open. unfold verdict, first_violation. subst uid open.
    change (Z.lor S_IRWXG S_IRWXO) with 63%Z.
    repeat split.
    + intros ->. reflexivity.
    + intros -> Hne. apply Z.eqb_neq in Hne. rewrite Hne. reflexivity.
    + intros -> He -> Hopen. apply Z.eqb_eq in He. apply Z.eqb_neq in Hopen.
      rewrite He, Hopen. reflexivity.
    + intros -> He Hopen. apply Z.eqb_eq in He. rewrite He. cbn [negb].
      destruct Hopen as [-> | ->]; [reflexivity|].
      change (Z.eqb 0 0) with true. cbn [negb]. rewrite andb_false_r.
      reflexivity.
  - intros argv0 h u os c w1 Hf Ho Ha Hu Hh Hl l Hg.
    now apply (main_guarded w w1 argv0 h u os c).
Qed.

Lemma directory_guard_witness :
  let w := sample_world alice EmptyString [] [] in
  let shared := mkStat (Z.lor S_IFDIR 493) 1000 in
  fst (mkdir_and_check "/d" true (with_node "/d" shared w)) = Exit 1
  /\ fst (mkdir_and_check "/d" false (with_node "/d" shared w)) = Ret tt
  /\ (exists w', mkdir_and_check "/d" true w = (Ret tt, w')
                 /\ w_events w' = [EvMkdir "/d" S_IRWXU])
  /\ fst (main ["vncpasswd"]%string
            (with_node "/home/alice/.vnc" (mkStat S_IFREG 1000) w)) = Exit 1.
Proof.
  intros w shared.
  destruct (directory_guard (with_node "/d" shared w) "/d" true)
    as (Hs & _ & _ & _ & _).
  destruct (directory_guard (with_node "/d" shared w) "/d" false)
    as (Hn & _ & _ & _ & _).
  destruct (directory_guard w "/d" true) as (_ & _ & Hc & _ & _).
  destruct (directory_guard
              (with_node "/home/alice/.vnc" (mkStat S_IFREG 1000) w)
              "/d" true) as (_ & _ & _ & _ & Hm).
  split; [rewrite (Hs shared eq_refl); reflexivity|].
  split; [rewrite (Hn shared eq_refl); reflexivity|].
  split.
  - destruct (Hc eq_refl) as [_ Hmk].
    destruct (Hmk eq_refl) as (Hrun & _ & Hev).
    exists (after_mkdir "/d" w). split; [rewrite Hrun; reflexivity | exact Hev].
  - refine (f_equal fst
              (Hm "vncpasswd"%string "/home/alice"%string EmptyString [] 1%Z _
                  eq_refl eq_refl eq_refl _ eq_refl _ _)).
    + discriminate.
    + cbn. lia.
    + vm_compute. reflexivity.
Defined.

(** ** C4: combined modes *)

(** C4 as stated fails for [-f] with [-t]: neither order is refused, the
    later option decides.  With [-t -f] the password is read from standard
    input and stored, the program returning 0; with [-f -t] the directory
    under /tmp is made, the password is asked for at the terminal and
    stored. *)
Lemma f_and_t_combine :
  (exists m w',
     main ["vncpasswd"; "-t"; "-f"]%string
       (sample_world alice "secret1" [] []) = (Ret m, w')
     /\ main_value m = 0%Z
     /\ w_stdin w' = []
     /\ w_events w' = [EvStore (chars "secret1") None "-"])
  /\ (exists m w',
        main ["vncpasswd"; "-f"; "-t"]%string
          (sample_world alice "n" [Some "secret1"; Some "secret1"]%string [])
        = (Ret m, w')
        /\ main_value m = 0%Z
        /\ w_events w' =
             [EvMkdir "/tmp/alice-vnc" S_IRWXU;
              EvGetpass "Password: "; EvGetpass "Verify:   ";
              EvStore (chars "secret1") None "/tmp/alice-vnc/passwd"]).
Proof.
  split; eexists; eexists; (split; [vm_compute; reflexivity|]);
    repeat split; reflexivity.
Qed.

(** C4, amended: every command line whose options put an OTP mode ([-o] or
    [-c]) together with [-f], [-t], [-a] or [-r], or an access-control mode
    ([-a] or [-r]) together with [-f] or [-t], ends with exit code 1, and
    nothing but stderr has changed: no password was read, no directory made,
    no property written.  ([-f] together with [-t] is not refused.) *)
Theorem mode_conflicts_are_fatal (w : world) (argv0 : string)
    (os : list option_word) (rest : list string) :
  stops rest = true -> conflict os = true ->
  exists w',
    main (argv0 :: command_line os ++ rest) w = (Exit 1, w')
    /\ w_events w' = w_events w
    /\ w_stdin w' = w_stdin w
    /\ w_tty w' = w_tty w
    /\ w_fs w' = w_fs w.
Proof.
  intros Hrest Hc.
  destruct (main_conflict w argv0 os rest Hrest Hc) as (w' & H & Hw).
  exists w'. unfold only_stderr in Hw. tauto.
Qed.

Lemma mode_conflicts_are_fatal_witness :
  exists w',
    main ["vncpasswd"; "-a"; "bob"; "-f"; "spare"]%string
      (sample_world alice "secret1" [] []) = (Exit 1, w')
    /\ w_events w' = []
    /\ w_stdin w' = chars "secret1"
    /\ w_tty w' = []
    /\ w_fs w' = (fun _ => Lstat_err ENOENT).
Proof.
  apply (mode_conflicts_are_fatal (sample_world alice "secret1" [] [])
           "vncpasswd" [O_a "bob"; O_f] ["spare"%string]); reflexivity.
Defined.

(** ** C5: the OTP digits after the transmission *)

(** C5 (the code departs from it): after a successful issue the payload
    array is all zeros, but the array the digits were formatted in still
    holds them: the full-control password when only one was issued, the
    view-only password when two were. *)
Theorem otp_digits_stay_in_buf :
  (exists r w',
     DoOTP (mkGlobals false true false None 0 false None)
       (sample_world alice EmptyString [] [12345678%N]) = (Ret r, w')
     /\ otp_value r = 0%Z
     /\ otp_bytes r = repeat NUL 16
     /\ In (EvXChangeProperty "VNC_OTP" (chars "12345678")) (w_events w')
     /\ cstr (otp_buf r) = chars "12345678")
  /\ (exists r w',
        DoOTP (mkGlobals true true false None 0 false None)
          (sample_world alice EmptyString [] [12345678%N; 87654321%N]) = (Ret r, w')
        /\ otp_value r = 0%Z
        /\ otp_bytes r = repeat NUL 16
        /\ In (EvXChangeProperty "VNC_OTP" (chars "1234567887654321"))
              (w_events w')
        /\ cstr (otp_buf r) = chars "87654321").
Proof.
  split; eexists; eexists; (split; [vm_compute; reflexivity|]);
    repeat split; try reflexivity; cbn; tauto.
Qed.

(** In general: whenever [DoOTP] issues, the last digits formatted are left
    in [buf] and [bytes] is zeroed. *)
Lemma DoOTP_leaves_digits (g : globals) (w : world) (a b : N) (e : list N) :
  otpClear g = false ->
  c_display_opens (w_cfg w) (displayname g) = true ->
  c_atom_exists (w_cfg w) "VNC_OTP" = true ->
  (c_UseDevUrandom (w_cfg w) = true -> c_urandom_errno (w_cfg w) = None) ->
  w_entropy w = a :: b :: e ->
  exists r w',
    DoOTP g w = (Ret r, w')
    /\ otp_bytes r = repeat NUL 16
    /\ cstr (otp_buf r)
       = otp_digits (if alsoView g then to_uint b else to_uint a).
Proof.
  intros Hc Hd Ha Hu He.
  destruct (DoOTP_issue g w a b e Hc Hd Ha Hu He) as (w' & H & _).
  eexists; eexists; split; [exact H|]. split; [reflexivity|].
  cbn [otp_buf].
  set (d := otp_digits _).
  assert (Hdig : Forall (fun c => is_digit c = true) d) by apply otp_digits_digits.
  clearbody d. induction Hdig as [|c d Hc' _ IH]; [reflexivity|].
  simpl app. rewrite cstr_cons, (is_digit_not_NUL c Hc'), IH. reflexivity.
Qed.

(** ** C6: the OTP payload *)

(** C6 as stated fails on the rendering: a drawn value of 4294967295 is sent
    and printed as "42949672", eight digits that do not denote the value. *)
Lemma otp_is_cut_not_rendered :
  exists r w',
    DoOTP (mkGlobals false true false None 0 false None)
      (sample_world alice EmptyString [] [4294967295%N]) = (Ret r, w')
    /\ w_events w' =
         [EvXOpenDisplay None;
          EvXChangeProperty "VNC_OTP" (chars "42949672");
          EvXCloseDisplay]
    /\ w_stderr w' = ["Full control one-time password: 42949672" +s+ nl]
    /\ dec_value (chars "42949672") <> to_uint 4294967295.
Proof.
  eexists; eexists; split; [vm_compute; reflexivity|].
  repeat split; try reflexivity. vm_compute. discriminate.
Qed.

(** C6, amended: with the display open and the property known, the clear
    mode writes an empty VNC_OTP property; otherwise the property holds the
    eight characters of the full-control value, followed when [-v] was given
    by the eight of the view-only value, and the same characters are what is
    printed.  The eight characters of a value are the first eight of its
    ["%08u"] rendering: always eight ASCII digits, and the rendering itself,
    denoting the value, exactly when the value is below 10^8. *)
Theorem otp_payload (g : globals) (w : world) :
  c_display_opens (w_cfg w) (displayname g) = true ->
  c_atom_exists (w_cfg w) "VNC_OTP" = true ->
  (otpClear g = true ->
   exists r,
     DoOTP g w =
       (Ret r,
        put_event EvXCloseDisplay
          (put_event (EvXChangeProperty "VNC_OTP" [])
             (put_event (EvXOpenDisplay (displayname g)) w)))
     /\ otp_value r = 0%Z)
  /\ (otpClear g = false ->
      forall a b e,
        (c_UseDevUrandom (w_cfg w) = true -> c_urandom_errno (w_cfg w) = None) ->
        w_entropy w = a :: b :: e ->
        let full := otp_digits (to_uint a) in
        let view := otp_digits (to_uint b) in
        exists r w',
          DoOTP g w = (Ret r, w')
          /\ otp_value r = 0%Z
          /\ w_events w' = w_events w ++
               [EvXOpenDisplay (displayname g);
                EvXChangeProperty "VNC_OTP"
                  (full ++ if alsoView g then view else []);
                EvXCloseDisplay]
          /\ w_stderr w' = w_stderr w ++
               ("Full control one-time password: " +s+ text full +s+ nl)
               :: (if alsoView g
                   then ["View-only one-time password: " +s+ text view +s+ nl]
                   else []))
  /\ (forall v,
        otp_digits v = firstn 8 (fmt_08u v)
        /\ length (otp_digits v) = 8
        /\ Forall (fun c => is_digit c = true) (otp_digits v)
        /\ ((v < 100000000)%N ->
            otp_digits v = fmt_08u v /\ dec_value (otp_digits v) = v)).
Proof.
  intros Hd Ha. split; [|split].
  - intros Hc. destruct (DoOTP_clear g w Hc Hd Ha) as [b H].
    eexists. split; [exact H | reflexivity].
  - intros Hc a b e Hu He full view.
    destruct (DoOTP_issue g w a b e Hc Hd Ha Hu He) as (w' & H & Hev & Herr & _).
    eexists; eexists. split; [exact H|]. split; [reflexivity|]. auto.
  - intros v. split; [reflexivity|].
    split; [apply otp_digits_length|].
    split; [apply otp_digits_digits | apply otp_digits_small].
Qed.

Lemma otp_payload_witness :
  let g := mkGlobals true true false None 0 false None in
  let w := sample_world alice EmptyString [] [42%N; 99999999%N; 7%N] in
  exists r w',
    DoOTP g w = (Ret r, w')
    /\ otp_value r = 0%Z
    /\ w_events w' =
         [EvXOpenDisplay None;
          EvXChangeProperty "VNC_OTP" (chars "0000004299999999");
          EvXCloseDisplay]
    /\ w_stderr w' =
         ["Full control one-time password: 00000042" +s+ nl;
          "View-only one-time password: 99999999" +s+ nl].
Proof.
  intros g w.
  destruct (otp_payload g w eq_refl eq_refl) as (_ & H & _).
  exact (H eq_refl 42%N 99999999%N [7%N] (fun _ => eq_refl) eq_refl).
Defined.

(** ** C7: the access-control payload *)

(** C7: [DoUserList] with a user name of 1 to 63 bytes writes under VNC_ACL
    the flag byte, bit 0 for add and bit 4 for view-only and no other bit,
    followed by the bytes of the name; without a name, or with one of 0 or
    more than 63 bytes, it returns 1 before the display is opened.  On the
    command lines [-a USER] and [-r USER], with or without [-v], [main]
    exits with these results. *)
Theorem acl_payload (g : globals) (w : world) :
  (addUser g = 0 \/ addUser g = 1)%Z ->
  (forall u,
     user g = Some u -> 1 <= String.length u <= 63 ->
     c_display_opens (w_cfg w) (displayname g) = true ->
     c_atom_exists (w_cfg w) "VNC_ACL" = true ->
     DoUserList g w =
       (Ret 0%Z,
        put_event EvXCloseDisplay
          (put_event
             (EvXChangeProperty "VNC_ACL"
                (acl_flag (Z.eqb (addUser g) 1) (alsoView g) :: chars u))
             (put_event (EvXOpenDisplay (displayname g)) w))))
  /\ (match user g with
      | None => True
      | Some u => String.length u = 0 \/ 63 < String.length u
      end ->
      exists msg, DoUserList g w = (Ret 1%Z, put_stderr msg w))
  /\ (forall (argv0 h u : string) (add view : bool),
        c_env (w_cfg w) "HOME" = Some h -> String.length h <= 240 ->
        strncmp_eq (h +s+ "/.vnc") "/tmp" 4 = false ->
        let argv := argv0 :: command_line ((if add then O_a u else O_r u)
                                           :: if view then [O_v] else []) in
        (1 <= String.length u <= 63 ->
         c_display_opens (w_cfg w) None = true ->
         c_atom_exists (w_cfg w) "VNC_ACL" = true ->
         main argv w =
           (Exit 0,
            put_event EvXCloseDisplay
              (put_event
                 (EvXChangeProperty "VNC_ACL" (acl_flag add view :: chars u))
                 (put_event (EvXOpenDisplay None) w))))
        /\ (String.length u = 0 \/ 63 < String.length u ->
            exists msg, main argv w = (Exit 1, put_stderr msg w))).
Proof.
  intros Hadd. split; [|split].
  - intros u Hu Hl Hd Ha. exact (DoUserList_writes g w u Hu Hl Hadd Hd Ha).
  - apply DoUserList_rejects.
  - intros argv0 h u add view Hh Hl Ht.
    exact (main_acl w argv0 h u add view Hh Hl Ht).
Qed.

Lemma acl_payload_witness :
  let w := sample_world alice EmptyString [] [] in
  DoUserList (mkGlobals true false false None 1 true (Some "alice"%string)) w
  = (Ret 0%Z,
     put_event EvXCloseDisplay
       (put_event (EvXChangeProperty "VNC_ACL" ("017"%char :: chars "alice"))
          (put_event (EvXOpenDisplay None) w)))
  /\ main ["vncpasswd"; "-r"; "bob"]%string w
     = (Exit 0,
        put_event EvXCloseDisplay
          (put_event (EvXChangeProperty "VNC_ACL" ("000"%char :: chars "bob"))
             (put_event (EvXOpenDisplay None) w)))
  /\ (exists msg,
        main ["vncpasswd"%string; "-a"%string; EmptyString] w = (Exit 1, put_stderr msg w)).
Proof.
  intros w.
  pose (g := mkGlobals true false false None 1 true (Some "alice"%string)).
  destruct (acl_payload g w (or_intror eq_refl)) as (Hw & _ & Hm).
  split; [|split].
  - apply (Hw "alice"%string eq_refl); [cbn; lia | reflexivity | reflexivity].
  - destruct (Hm "vncpasswd"%string "/home/alice"%string "bob"%string false false
                eq_refl) as [H _]; [cbn; lia | reflexivity|].
    apply H; [cbn; lia | reflexivity | reflexivity].
  - destruct (Hm "vncpasswd"%string "/home/alice"%string EmptyString true false
                eq_refl) as [_ H]; [cbn; lia | reflexivity|].
    apply H. left. reflexivity.
Defined.

(** ** C8: end of input in batch mode *)

(** C8 (the code departs from it): a read takes at most 255 bytes, so a
    stream that consists of one line and ends after it still yields a second
    password when that line has 255 bytes or more.  With 255 letters and a
    newline the second read takes the newline alone, and an empty view-only
    password is stored; with a line of 300 digits the digits from the 256th
    on are read as a second line, and eight of them are stored as the
    view-only password. *)
Theorem long_line_becomes_view_only_password :
  let letters := repeat "a"%char 255 in
  let digits := concat (repeat (chars "0123456789") 30) in
  (forallb (fun c => negb (Ascii.eqb c newline)) letters = true
   /\ exists m w',
        main ["vncpasswd"; "-f"]%string (one_line_world letters) = (Ret m, w')
        /\ main_value m = 0%Z
        /\ w_stdin w' = []
        /\ w_events w' = [EvStore (repeat "a"%char 8) (Some []) "-"])
  /\ (forallb (fun c => negb (Ascii.eqb c newline)) digits = true
      /\ length digits = 300
      /\ exists m w',
           main ["vncpasswd"; "-f"]%string (one_line_world digits) = (Ret m, w')
           /\ main_value m = 0%Z
           /\ w_stdin w' = []
           /\ w_events w' = [EvStore (chars "01234567") (Some (chars "56789012")) "-"]).
Proof.
  cbv zeta. split; [split|split; [|split]]; try (vm_compute; reflexivity);
    eexists; eexists; (split; [vm_compute; reflexivity|]);
    repeat split; vm_compute; reflexivity.
Qed.

(** ** C9: the answer to the view-only question *)


(** C9 (the code departs from it): a NUL byte as the first byte of the
    answer counts as yes.  With that answer the view-only password is asked
    for and stored, as it is with "y"; with "n" it is not. *)
Theorem nul_answer_counts_as_yes :
  let tty := [Some "secret1"; Some "secret1";
              Some "viewpw1"; Some "viewpw1"]%string in
  let asked_twice :=
    [EvMkdir "/home/alice/.vnc" S_IRWXU;
     EvGetpass "Password: "; EvGetpass "Verify:   ";
     EvGetpass "Password: "; EvGetpass "Verify:   ";
     EvStore (chars "secret1") (Some (chars "viewpw1"))
             "/home/alice/.vnc/passwd"] in
  let asked_once :=
    [EvMkdir "/home/alice/.vnc" S_IRWXU;
     EvGetpass "Password: "; EvGetpass "Verify:   ";
     EvStore (chars "secret1") None "/home/alice/.vnc/passwd"] in
  w_events (snd (main ["vncpasswd"%string]
                   (sample_world alice (String NUL EmptyString) tty [])))
  = asked_twice
  /\ w_events (snd (main ["vncpasswd"%string] (sample_world alice "y" tty [])))
     = asked_twice
  /\ w_events (snd (main ["vncpasswd"%string] (sample_world alice "n" tty [])))
     = asked_once.
Proof.
  cbv zeta. repeat split; vm_compute; reflexivity.
Qed.

(** ** C10: OTP mode with a home directory under /tmp *)

(** C10 as stated fails in two ways: a HOME of 241 bytes under /tmp is
    refused by [getenv_safe] with its own message, and with [-f] given as
    well the check for [-f] comes first. *)
Lemma otp_under_tmp_other_errors :
  String.length long_home = 241
  /\ strncmp_eq long_home "/tmp" 4 = true
  /\ (let w := sample_world (sample_config long_home 1000 1000)
                 EmptyString [] [] in
      main ["vncpasswd"; "-o"]%string w
      = (Exit 1, put_stderr ("Error: HOME environment variable string too long"
                             +s+ nl) w))
  /\ (let w := sample_world (sample_config "/tmp/alice" 1000 1000)
                 EmptyString [] [] in
      main ["vncpasswd"; "-f"; "-o"]%string w
      = (Exit 1, put_stderr ("Error: -f is incompatible with -o" +s+ nl) w)).
Proof.
  repeat split; vm_compute; reflexivity.
Qed.

(** C10, amended: when HOME begins with "/tmp" and has at most 240 bytes,
    every command line with [-o] or [-c] and without [-f] and [-t] ends with
    exit code 1 and the message that [-t] is incompatible with [-o]; nothing
    else has changed, so no OTP was issued. *)
Theorem otp_refused_under_tmp (w : world) (argv0 t : string)
    (os : list option_word) (rest : list string) :
  stops rest = true ->
  c_env (w_cfg w) "HOME" = Some ("/tmp" +s+ t) ->
  String.length ("/tmp" +s+ t) <= 240 ->
  has_otp os = true -> has_f os = false -> has_t os = false ->
  main (argv0 :: command_line os ++ rest) w
  = (Exit 1, put_stderr ("Error: -t is incompatible with -o" +s+ nl) w).
Proof.
  intros Hrest Hh Hl Ho Hf Ht.
  exact (main_otp_home_under_tmp w argv0 t os rest Hrest Hh Hl Ho Hf Ht).
Qed.

Lemma otp_refused_under_tmp_witness :
  let w := sample_world (sample_config "/tmp/alice" 1000 1000)
             EmptyString [] [1%N; 2%N] in
  main ["vncpasswd"; "-v"; "-o"; "-display"; ":1"]%string w
  = (Exit 1, put_stderr ("Error: -t is incompatible with -o" +s+ nl) w).
Proof.
  intros w.
  assert (Hlen : String.length "/tmp/alice" <= 240) by (cbn; lia).
  exact (otp_refused_under_tmp w "vncpasswd" "/alice"
           [O_v; O_o; O_display ":1"] []
           eq_refl eq_refl Hlen eq_refl eq_refl eq_refl).
Defined.

(** * Further properties of the program *)

(** ** The directory guard *)

(** X1: when the path does not exist and [mkdir] succeeds, the verdict of
    [mkdir_and_check] depends on one thing only, whether the effective user
    (who owns the new directory) is the real user ([getuid]): if so the guard
    returns, whatever the umask and the strictness; if not it ends the
    program with the ownership message, the directory having been made. *)
Theorem created_directory_verdict (dirname : string) (be_strict : bool) (w : world) :
  w_fs w dirname = Lstat_err ENOENT ->
  c_mkdir_errno (w_cfg w) dirname = None ->
  mkdir_and_check dirname be_strict w
  = if Z.eqb (c_euid (w_cfg w)) (c_uid (w_cfg w))
    then (Ret tt, after_mkdir dirname w)
    else (Exit 1, put_stderr ("Error: bad ownership on " +s+ dirname +s+ nl)
                    (after_mkdir dirname w)).
Proof.
  intros H He.
  rewrite (check_created dirname be_strict w H He).
  unfold verdict.
  change (c_uid (w_cfg (set_fs _ _))) with (c_uid (w_cfg w)).
  rewrite created_violation.
  destruct (Z.eqb (c_euid (w_cfg w)) (c_uid (w_cfg w))); reflexivity.
Qed.

Lemma created_directory_verdict_witness :
  let w := sample_world (sample_config "/home/alice" 1000 0) EmptyString [] [] in
  mkdir_and_check "/d" false w
  = (Exit 1, put_stderr ("Error: bad ownership on " +s+ "/d" +s+ nl)
               (after_mkdir "/d" w)).
Proof.
  intros w.
  exact (created_directory_verdict "/d" false w eq_refl eq_refl).
Defined.

Lemma first_violation_relax (dirname : string) (uid : Z) (s s' : bool) (st : stat) :
  implb s' s = true ->
  first_violation dirname uid s st = None ->
  first_violation dirname uid s' st = None.
Proof.
  unfold first_violation.
  destruct (negb (S_ISDIR (st_mode st))); [discriminate|].
  destruct (negb (Z.eqb (st_uid st) uid)); [discriminate|].
  destruct s, s'; cbn; try discriminate; auto.
Qed.

Lemma verdict_passes (dirname : string) (s : bool) (st : stat) (w w' : world) :
  verdict dirname s st w = (Ret tt, w') ->
  w' = w /\ first_violation dirname (c_uid (w_cfg w)) s st = None.
Proof.
  unfold verdict.
  destruct (first_violation dirname (c_uid (w_cfg w)) s st); [discriminate|].
  intros [= <-]. split; reflexivity.
Qed.

(** X2: a directory the guard has let through, made by it or found, is let
    through again in the world the guard left, with nothing changed and
    nothing made a second time; so it is when the second check is not
    strict and the first was. *)
Theorem guard_passes_again (dirname : string) (s s' : bool) (w w' : world) :
  mkdir_and_check dirname s w = (Ret tt, w') ->
  implb s' s = true ->
  mkdir_and_check dirname s' w' = (Ret tt, w').
Proof.
  intros H Hs.
  destruct (w_fs w dirname) as [e|st] eqn:Hfs.
  - destruct (Z.eq_dec e ENOENT) as [->|Hne].
    + destruct (c_mkdir_errno (w_cfg w) dirname) as [e|] eqn:Hmk.
      * rewrite (check_mkdir_fails dirname s w e Hfs Hmk) in H. discriminate.
      * rewrite (check_created dirname s w Hfs Hmk) in H.
        apply verdict_passes in H. destruct H as [-> Hv].
        rewrite (check_existing dirname s' _ (created w S_IRWXU)).
        2:{ cbn [w_fs set_fs]. rewrite String.eqb_refl. reflexivity. }
        unfold verdict.
        rewrite (first_violation_relax _ _ s s' _ Hs Hv). reflexivity.
    + rewrite (check_unreadable dirname s w e Hfs Hne) in H. discriminate.
  - rewrite (check_existing dirname s w st Hfs) in H.
    apply verdict_passes in H. destruct H as [-> Hv].
    rewrite (check_existing dirname s' w st Hfs).
    unfold verdict. rewrite (first_violation_relax _ _ s s' _ Hs Hv). reflexivity.
Qed.

Lemma guard_passes_again_witness :
  let w := sample_world alice EmptyString [] [] in
  mkdir_and_check "/d" false (after_mkdir "/d" w) = (Ret tt, after_mkdir "/d" w).
Proof.
  intros w.
  exact (guard_passes_again "/d" true false w (after_mkdir "/d" w) eq_refl eq_refl).
Defined.

(** ** The failures of [DoOTP] and [DoUserList] *)

(** X3: when the display does not open, when the server does not know
    VNC_OTP, or (outside the clear mode, with /dev/urandom in use) when the
    random source cannot be opened or delivers fewer values than asked for,
    [DoOTP] returns 1 with one line on stderr; the display was asked for and
    nothing else happened: no property was written and on the later failures
    the display is not closed. *)
Theorem DoOTP_failure (g : globals) (w : world) :
  server_refuses "VNC_OTP" g w
  \/ (otpClear g = false /\ otp_source_fails g w) ->
  exists r w',
    DoOTP g w = (Ret r, w')
    /\ otp_value r = 1%Z
    /\ w_events w' = w_events w ++ [EvXOpenDisplay (displayname g)]
    /\ length (w_stderr w') = S (length (w_stderr w))
    /\ w_fs w' = w_fs w.
Proof.
  unfold server_refuses, otp_source_fails. intros H.
  unfold DoOTP.
  unfold bind at 1, uninit at 1, gets at 1.
  unfold bind at 1, uninit at 1, gets at 1.
  set (buf0 := map _ (seq 0 (MAXPWLEN + 1))).
  set (bytes0 := map _ (seq 0 (MAXPWLEN * 2))).
  cbv zeta.
  unfold bind at 1, XOpenDisplay at 1.
  destruct (c_display_opens (w_cfg w) (displayname g)) eqn:Hdpy; cbn [negb].
  2:{ unfold XDisplayName. destruct (displayname g); unfold getenv; run;
      do 2 eexists; (split; [reflexivity|]); cbn;
      rewrite length_app, Nat.add_1_r; auto. }
  unfold bind at 1, XInternAtom at 1, gets at 1. run.
  destruct (c_atom_exists (w_cfg w) "VNC_OTP") eqn:Hatom; cbn [negb].
  2:{ unfold XDisplayName. destruct (displayname g); unfold getenv; run;
      do 2 eexists; (split; [reflexivity|]); cbn;
      rewrite length_app, Nat.add_1_r; auto. }
  destruct H as [[H|H]|(Hc & Hu & H)]; try discriminate.
  rewrite Hc. run. rewrite Hu. run.
  destruct (c_urandom_errno (w_cfg w)) as [e|] eqn:He.
  { do 2 eexists; (split; [reflexivity|]); cbn;
      rewrite length_app, Nat.add_1_r; auto. }
  destruct H as [H|H]; [congruence|].
  unfold read_urandom. run.
  destruct (w_entropy w) as [|a [|b e]] eqn:Hent.
  - run. do 2 eexists; (split; [reflexivity|]); cbn;
      rewrite length_app, Nat.add_1_r; auto.
  - destruct (alsoView g); [|cbn in H; lia].
    run. do 2 eexists; (split; [reflexivity|]); cbn;
      rewrite length_app, Nat.add_1_r; auto.
  - destruct (alsoView g); cbn in H; lia.
Qed.

Lemma DoOTP_failure_witness :
  let g := mkGlobals true true false None 0 false None in
  let cfg := mkConfig (sample_env "/home/alice") 1000 1000 18 (fun _ => None)
               (fun _ => "error"%string) (fun _ => true) (fun _ => true)
               (fun _ _ _ => true) true None (fun _ => "#"%char) in
  exists r w',
    DoOTP g (sample_world cfg EmptyString [] [7%N]) = (Ret r, w')
    /\ otp_value r = 1%Z
    /\ w_events w' = [EvXOpenDisplay None]
    /\ length (w_stderr w') = 1
    /\ w_fs w' = (fun _ => Lstat_err ENOENT).
Proof.
  intros g cfg.
  refine (DoOTP_failure g (sample_world cfg EmptyString [] [7%N]) _).
  right. split; [reflexivity|]. split; [reflexivity|].
  right. cbn. lia.
Defined.

(** X4: with a user name of 1 to 63 bytes, when the display does not open
    or the server does not know VNC_ACL, [DoUserList] returns 1 with one
    line on stderr; the display was asked for and no property was written. *)
Theorem DoUserList_server_refuses (g : globals) (w : world) (u : string) :
  user g = Some u -> 1 <= String.length u <= 63 ->
  server_refuses "VNC_ACL" g w ->
  exists msg,
    DoUserList g w
    = (Ret 1%Z, put_stderr msg (put_event (EvXOpenDisplay (displayname g)) w)).
Proof.
  unfold server_refuses. intros Hu Hlen H.
  unfold DoUserList.
  unfold bind at 1, uninit at 1, gets at 1. cbv zeta. rewrite Hu.
  replace (Nat.eqb (String.length u) 0) with false
    by (symmetry; apply Nat.eqb_neq; lia).
  replace (Nat.ltb MAXUSERLEN (String.length u)) with false
    by (symmetry; apply Nat.ltb_ge; unfold MAXUSERLEN; lia).
  unfold bind at 1, XOpenDisplay at 1.
  destruct (c_display_opens (w_cfg w) (displayname g)) eqn:Hdpy; cbn [negb].
  2:{ unfold XDisplayName. destruct (displayname g); unfold getenv; run;
      eexists; reflexivity. }
  unfold bind at 1, XInternAtom at 1, gets at 1. run.
  destruct H as [H|H]; [discriminate|]. rewrite H. cbn [negb].
  unfold XDisplayName. destruct (displayname g); unfold getenv; run;
    eexists; reflexivity.
Qed.

Lemma DoUserList_server_refuses_witness :
  let g := mkGlobals false false false (Some ":9"%string) 1 true (Some "bob"%string) in
  let cfg := mkConfig (sample_env "/home/alice") 1000 1000 18 (fun _ => None)
               (fun _ => "error"%string) (fun _ => true) (fun _ => false)
               (fun _ _ _ => true) false None (fun _ => "#"%char) in
  let w := sample_world cfg EmptyString [] [] in
  exists msg,
    DoUserList g w
    = (Ret 1%Z, put_stderr msg (put_event (EvXOpenDisplay (Some ":9"%string)) w)).
Proof.
  intros g cfg w.
  refine (DoUserList_server_refuses g w "bob" eq_refl _ _).
  - cbn. lia.
  - right. reflexivity.
Defined.

(** ** [main] in OTP mode *)

Lemma run_options_globals (u : string) (os : list option_word) : forall g l,
  has_acl os = false ->
  fst (run_options u os (g, l))
  = mkGlobals (alsoView g || has_v os) (otp g || has_otp os)
              (otpClear g || has_c os)
              (fold_left (fun d o => match o with O_display n => Some n | _ => d end)
                         os (displayname g))
              (addUser g) (userList g) (user g).
Proof.
  unfold has_acl, has_v, has_otp, has_c.
  induction os as [|o os IH]; intros g l Ha.
  - simpl. rewrite !orb_false_r. destruct g; reflexivity.
  - simpl in Ha. destruct o; simpl in *; try discriminate;
      rewrite IH by assumption; simpl; rewrite ?orb_true_r, ?orb_false_r;
      reflexivity.
Qed.

(** [main] in OTP mode hands over to [DoOTP]. *)
Lemma main_otp (w : world) (argv0 h : string) (os : list option_word)
    (rest : list string) :
  has_otp os = true -> has_f os = false -> has_t os = false ->
  has_acl os = false ->
  c_env (w_cfg w) "HOME" = Some h -> String.length h <= 240 ->
  strncmp_eq (h +s+ "/.vnc") "/tmp" 4 = false ->
  stops rest = true ->
  main (argv0 :: command_line os ++ rest) w
  = (r <- DoOTP (otp_settings os) ;; exit (otp_value r)) w.
Proof.
  intros Ho Hf Ht Ha Hh Hl Htmp Hst.
  unfold main.
  unfold bind at 1. rewrite (getenv_safe_ok _ _ _ _ Hh Hl).
  unfold bind at 1.
  rewrite (main_options_words argv0 EmptyString rest w Hst)
    by (apply no_t_USER; assumption).
  fold (locals0 h).
  pose proof (run_options_globals EmptyString os globals0 (locals0 h) Ha) as Hg.
  destruct (run_options_no_f_t EmptyString os globals0 (locals0 h) Hf Ht)
    as [Hr Hd].
  destruct (run_options EmptyString os (globals0, locals0 h)) as [g l].
  cbn [fst snd globals0 alsoView otp otpClear displayname addUser userList user
       orb locals0 read_from_stdin passwdDir] in *.
  fold (display_of os) in Hg. rewrite Ho in Hg. fold (otp_settings os) in Hg.
  subst g.
  unfold when at 1. cbn [otp otp_settings].
  unfold bind at 1. unfold when at 1. rewrite Hr.
  unfold ret at 1. unfold bind at 1. unfold when at 1. rewrite Hd, Htmp.
  unfold ret at 1. unfold bind at 1. unfold when at 1.
  cbn [userList otp_settings]. unfold ret at 1.
  unfold bind, exit.
  destruct (DoOTP (otp_settings os) w) as [[r| | |] w']; reflexivity.
Qed.

(** X5: on a command line with [-o] or [-c] and without [-f], [-t], [-a]
    and [-r], with a usable HOME outside /tmp, [main] runs [DoOTP] with the
    view-only flag set exactly when [-v] was given, the clear flag exactly
    when [-c] was given and the display of the last [-display]; it ends the
    program with the value [DoOTP] returns as exit code, in the world
    [DoOTP] left.  Arguments after the options are not looked at. *)
Theorem otp_mode_exit_status (w w' : world) (argv0 h : string)
    (os : list option_word) (rest : list string) (r : DoOTP_ret) :
  has_otp os = true -> has_f os = false -> has_t os = false ->
  has_acl os = false ->
  c_env (w_cfg w) "HOME" = Some h -> String.length h <= 240 ->
  strncmp_eq (h +s+ "/.vnc") "/tmp" 4 = false ->
  stops rest = true ->
  DoOTP (otp_settings os) w = (Ret r, w') ->
  main (argv0 :: command_line os ++ rest) w = (Exit (otp_value r), w').
Proof.
  intros Ho Hf Ht Ha Hh Hl Htmp Hst Hr.
  rewrite (main_otp w argv0 h os rest Ho Hf Ht Ha Hh Hl Htmp Hst).
  unfold bind. rewrite Hr. reflexivity.
Qed.

Lemma otp_mode_exit_status_witness :
  let cfg := mkConfig (sample_env "/home/alice") 1000 1000 18 (fun _ => None)
               (fun _ => "error"%string) (fun _ => false) (fun _ => true)
               (fun _ _ _ => true) false None (fun _ => "#"%char) in
  let w := sample_world cfg EmptyString [] [11%N] in
  main ["vncpasswd"; "-o"; "-display"; ":7"]%string w
  = (Exit 1,
     put_stderr ("unable to open display " +s+ dquote +s+ ":7" +s+ dquote +s+ nl)
       (put_event (EvXOpenDisplay (Some ":7"%string)) w)).
Proof.
  intros cfg w.
  assert (Hlen : String.length "/home/alice" <= 240) by (cbn; lia).
  exact (otp_mode_exit_status w _ "vncpasswd" "/home/alice"
           [O_o; O_display ":7"] []
           (mkDoOTP 1 (map (fun _ => "#"%char) (seq 0 9))
                      (map (fun _ => "#"%char) (seq 0 16)))
           eq_refl eq_refl eq_refl eq_refl eq_refl Hlen eq_refl eq_refl eq_refl).
Defined.

(** X6: [-c] decides over [-o] and [-v]: on such a command line with [-c]
    anywhere among the options, once the display opens and the server knows
    VNC_OTP, the program writes the empty VNC_OTP property, closes the
    display and exits with code 0; no random value is drawn and nothing is
    printed. *)
Theorem otp_clear_decides (w : world) (argv0 h : string)
    (os : list option_word) (rest : list string) :
  has_c os = true -> has_f os = false -> has_t os = false ->
  has_acl os = false ->
  c_env (w_cfg w) "HOME" = Some h -> String.length h <= 240 ->
  strncmp_eq (h +s+ "/.vnc") "/tmp" 4 = false ->
  stops rest = true ->
  c_display_opens (w_cfg w) (display_of os) = true ->
  c_atom_exists (w_cfg w) "VNC_OTP" = true ->
  main (argv0 :: command_line os ++ rest) w
  = (Exit 0,
     put_event EvXCloseDisplay
       (put_event (EvXChangeProperty "VNC_OTP" [])
          (put_event (EvXOpenDisplay (display_of os)) w))).
Proof.
  intros Hc Hf Ht Ha Hh Hl Htmp Hst Hd Hatom.
  assert (Ho : has_otp os = true).
  { unfold has_otp, has_c in *. clear -Hc.
    induction os as [|o os IH]; [discriminate|].
    simpl in *. destruct o; simpl in *; auto. }
  rewrite (main_otp w argv0 h os rest Ho Hf Ht Ha Hh Hl Htmp Hst).
  destruct (DoOTP_clear (otp_settings os) w Hc Hd Hatom) as [b E].
  unfold bind. rewrite E. reflexivity.
Qed.

Lemma otp_clear_decides_witness :
  let w := sample_world alice EmptyString [] [11%N; 22%N] in
  main ["vncpasswd"; "-o"; "-v"; "-display"; ":1"; "-c"; "-display"; ":2";
        "ignored"]%string w
  = (Exit 0,
     put_event EvXCloseDisplay
       (put_event (EvXChangeProperty "VNC_OTP" [])
          (put_event (EvXOpenDisplay (Some ":2"%string)) w))).
Proof.
  intros w.
  assert (Hlen : String.length "/home/alice" <= 240) by (cbn; lia).
  exact (otp_clear_decides w "vncpasswd" "/home/alice"
           [O_o; O_v; O_display ":1"; O_c; O_display ":2"] ["ignored"%string]
           eq_refl eq_refl eq_refl eq_refl eq_refl Hlen eq_refl eq_refl
           eq_refl eq_refl).
Defined.

(** ** The option loop on arguments of any shape *)

Lemma length_append (a b : string) :
  String.length (a +s+ b) = String.length a + String.length b.
Proof. induction a as [|c a IH]; simpl; [reflexivity|]. now rewrite IH. Qed.

Lemma put_lines_one (m : string) (w : world) : put_stderr m w = put_lines [m] w.
Proof. reflexivity. Qed.

Lemma put_lines_more (m : string) (ms : list string) (w : world) :
  put_stderr m (put_lines ms w) = put_lines (ms ++ [m]) w.
Proof. unfold put_stderr, put_lines. cbn. rewrite <- app_assoc. reflexivity. Qed.

Lemma usage_put_lines (A : Type) (argv0 : string) (w : world) :
  @usage A argv0 w = (Exit 1, put_lines (usage_lines argv0) w).
Proof.
  unfold usage. run.
  rewrite (put_lines_one _ w). rewrite !put_lines_more.
  reflexivity.
Qed.

Lemma only_stderr_lines (msgs : list string) (w : world) :
  only_stderr w (put_lines msgs w).
Proof. unfold only_stderr. cbn. tauto. Qed.

(** The loop either ends the program with code 1, having written to stderr
    only, or returns in the world it started in at arguments it stops at,
    the paths still fitting their arrays. *)
Lemma main_options_shape (argv0 : string) (w : world) (n : nat) :
  forall args, length args <= n -> forall g l,
    (exists w', main_options argv0 args g l w = (Exit 1, w') /\ only_stderr w w')
    \/ (exists g' l' rest,
          main_options argv0 args g l w = (Ret (g', l', rest), w)
          /\ stops rest = true
          /\ (paths_fit l -> paths_fit l')).
Proof.
  induction n as [|n IH]; intros args Hn g l.
  { destruct args; [|simpl in Hn; lia].
    right. exists g, l, []. simpl. auto. }
  destruct args as [|a rest].
  { right. exists g, l, []. simpl. auto. }
  simpl in Hn.
  assert (Hrest : length rest <= n) by lia.
  assert (Husage : forall A, exists w',
             @usage A argv0 w = (Exit 1, w') /\ only_stderr w w').
  { intros A. rewrite usage_put_lines. eexists. split; [reflexivity|].
    apply only_stderr_lines. }
  assert (Hgo : forall g0 l0, (paths_fit l -> paths_fit l0) ->
            (exists w', main_options argv0 rest g0 l0 w = (Exit 1, w')
                        /\ only_stderr w w')
            \/ (exists g' l' rest',
                  main_options argv0 rest g0 l0 w = (Ret (g', l', rest'), w)
                  /\ stops rest' = true /\ (paths_fit l -> paths_fit l'))).
  { intros g0 l0 Hl0.
    destruct (IH rest Hrest g0 l0) as [?|(g' & l' & r' & E & Hs & Hf)];
      [left; assumption|].
    right. exists g', l', r'. auto. }
  cbn [main_options].
  destruct (Ascii.eqb (char_at a 0) "-") eqn:Hdash; cbn [negb].
  2:{ right. exists g, l, (a :: rest). unfold ret.
      split; [reflexivity|].
      split; [simpl; rewrite Hdash; reflexivity | auto]. }
  destruct (Ascii.eqb (char_at a 1) "d").
  { destruct (String.eqb "-display" a); cbn [negb]; [|left; apply Husage].
    destruct rest as [|d rest']; [left; apply Husage|].
    simpl in Hrest.
    destruct (IH rest' ltac:(lia)
                (mkGlobals (alsoView g) (otp g) (otpClear g) (Some d)
                           (addUser g) (userList g) (user g)) l)
      as [?|(g' & l' & r' & E & Hs & Hf)]; [left; assumption|].
    right. exists g', l', r'. auto. }
  destruct (Ascii.eqb (char_at a 1) "c"); [apply Hgo; auto|].
  destruct (Ascii.eqb (char_at a 1) "o"); [apply Hgo; auto|].
  destruct (Ascii.eqb (char_at a 1) "a").
  { destruct rest as [|u rest']; [left; apply Husage|].
    simpl in Hrest.
    match goal with |- context [main_options argv0 rest' ?g0 ?l0 w] =>
      destruct (IH rest' ltac:(lia) g0 l0)
        as [?|(g' & l' & r' & E & Hs & Hf)]; [left; assumption|]
    end.
    right. exists g', l', r'. auto. }
  destruct (Ascii.eqb (char_at a 1) "r").
  { destruct rest as [|u rest']; [left; apply Husage|].
    simpl in Hrest.
    match goal with |- context [main_options argv0 rest' ?g0 ?l0 w] =>
      destruct (IH rest' ltac:(lia) g0 l0)
        as [?|(g' & l' & r' & E & Hs & Hf)]; [left; assumption|]
    end.
    right. exists g', l', r'. auto. }
  destruct (Ascii.eqb (char_at a 1) "f").
  { apply Hgo. unfold paths_fit. cbn. intros [H _]. split; [assumption|lia]. }
  destruct (Ascii.eqb (char_at a 1) "t").
  { unfold bind.
    destruct (getenv_safe_cases "USER" 32 w) as [(u & _ & Hu & ->)|(msg & ->)].
    - apply Hgo. intros _. unfold paths_fit. cbn [passwdDir passwdFile].
      rewrite !length_append. simpl String.length. lia.
    - left. eexists. split; [reflexivity|]. apply only_stderr_put. }
  destruct (Ascii.eqb (char_at a 1) "v"); [apply Hgo; auto|].
  left. apply Husage.
Qed.

(** X7: whatever the arguments and the variables it starts with, the
    option loop of [main] does nothing but set variables and write to
    stderr: it either ends the program with exit code 1, with nothing but
    stderr changed, or returns with the world unchanged at arguments it
    stops at (none, or a first one that does not begin with a dash).  It
    reads nothing, makes nothing and contacts no display. *)
Theorem option_loop_only_stderr (argv0 : string) (args : list string)
    (g : globals) (l : locals) (w : world) :
  (exists w', main_options argv0 args g l w = (Exit 1, w') /\ only_stderr w w')
  \/ (exists g' l' rest,
        main_options argv0 args g l w = (Ret (g', l', rest), w)
        /\ stops rest = true).
Proof.
  destruct (main_options_shape argv0 w (length args) args (le_n _) g l)
    as [?|(g' & l' & r' & E & Hs & _)]; [left; assumption|].
  right. exists g', l', r'. auto.
Qed.

(** X8: the strings [main] formats into [passwdDir[256]] and
    [passwdFile[263]] fit with their terminators: once [getenv_safe] has
    accepted HOME with its limit of 240 bytes, every run of the option loop
    that returns, on any arguments, leaves a directory path of fewer than
    256 bytes and a file path of fewer than 263 (the limit of 32 bytes on
    USER covers [-t]). *)
Theorem path_arrays_hold (argv0 h : string) (args rest : list string)
    (g : globals) (l : locals) (w w0 w' : world) :
  getenv_safe "HOME" 240 w = (Ret h, w0) ->
  main_options argv0 args globals0 (locals0 h) w0 = (Ret (g, l, rest), w') ->
  String.length (passwdDir l) < 256 /\ String.length (passwdFile l) < 263.
Proof.
  intros Hh Hr.
  assert (Hl : String.length h <= 240).
  { destruct (getenv_safe_cases "HOME" 240 w) as [(v & _ & Hv & E)|(msg & E)];
      rewrite E in Hh; [|discriminate].
    injection Hh as <- _. assumption. }
  assert (H0 : paths_fit (locals0 h)).
  { unfold paths_fit, locals0. cbn [passwdDir passwdFile].
    rewrite !length_append. simpl String.length. lia. }
  destruct (main_options_shape argv0 w0 (length args) args (le_n _)
              globals0 (locals0 h))
    as [(w1 & E & _)|(g' & l' & r' & E & _ & Hf)]; rewrite E in Hr.
  - discriminate.
  - injection Hr as <- <- <- <-. exact (Hf H0).
Qed.

Lemma path_arrays_hold_witness :
  let dir := "/tmp/alice-vnc"%string in
  String.length dir < 256 /\ String.length (dir +s+ "/passwd") < 263.
Proof.
  intros dir.
  exact (path_arrays_hold "vncpasswd" "/home/alice" ["-v"; "-t"; "spare"]%string
           ["spare"%string]
           (mkGlobals true false false None 0 false None)
           (mkLocals false true true dir (dir +s+ "/passwd"))
           (sample_world alice EmptyString [] [])
           (sample_world alice EmptyString [] [])
           (sample_world alice EmptyString [] [])
           eq_refl eq_refl).
Defined.

(** The loop on well-formed options followed by anything. *)
Lemma main_options_prefix (argv0 u : string) (rest : list string) (w : world) :
  forall os g l,
    (existsb is_t os = true -> USER_ok w = Some u) ->
    main_options argv0 (command_line os ++ rest) g l w
    = (let (g', l') := run_options u os (g, l) in
       main_options argv0 rest g' l' w).
Proof.
  induction os as [|o os IH]; intros g l Hu.
  - reflexivity.
  - assert (Hu' : existsb is_t os = true -> USER_ok w = Some u)
      by (intros H; apply Hu; simpl; rewrite H; apply orb_true_r).
    destruct o; simpl command_line; simpl app;
      cbn [run_options apply_option];
      try (simpl main_options; rewrite IH by assumption; reflexivity).
    simpl main_options. unfold bind.
    rewrite (getenv_safe_USER_ok w u) by (apply Hu; reflexivity).
    rewrite IH by assumption. reflexivity.
Qed.

Lemma main_options_misused (argv0 : string) (args : list string)
    (g : globals) (l : locals) (w : world) :
  misused args = true ->
  main_options argv0 args g l w = (Exit 1, put_lines (usage_lines argv0) w).
Proof.
  destruct args as [|a rest]; [discriminate|].
  unfold misused. cbn [main_options existsb].
  destruct (Ascii.eqb (char_at a 0) "-"); [|discriminate].
  cbn [andb negb].
  destruct (Ascii.eqb (char_at a 1) "d").
  { destruct (String.eqb "-display" a); cbn [negb orb].
    - destruct rest; [|discriminate]. intros _. apply usage_put_lines.
    - intros _. apply usage_put_lines. }
  destruct (Ascii.eqb (char_at a 1) "c") eqn:Ec;
    [apply Ascii.eqb_eq in Ec; rewrite Ec; intros H; discriminate H|].
  destruct (Ascii.eqb (char_at a 1) "o") eqn:Eo;
    [apply Ascii.eqb_eq in Eo; rewrite Eo; intros H; discriminate H|].
  destruct (Ascii.eqb (char_at a 1) "a").
  { cbn [orb]. destruct rest; [|discriminate]. intros _. apply usage_put_lines. }
  destruct (Ascii.eqb (char_at a 1) "r").
  { cbn [orb]. destruct rest; [|discriminate]. intros _. apply usage_put_lines. }
  cbn [orb].
  destruct (Ascii.eqb (char_at a 1) "f"); cbn [orb negb]; [discriminate|].
  destruct (Ascii.eqb (char_at a 1) "t"); cbn [orb negb]; [discriminate|].
  destruct (Ascii.eqb (char_at a 1) "v"); cbn [orb negb]; [discriminate|].
  intros _. apply usage_put_lines.
Qed.

(** X9: a dash argument the loop has no case for (an unknown option letter,
    a word in [-d] other than [-display], or [-display], [-a] or [-r] with
    nothing after it) ends the program with exit code 1 and exactly the
    seven lines of [usage] on stderr, also after any number of well-formed
    options; the options before it have had no effect outside the
    variables. *)
Theorem usage_error (w : world) (argv0 h u : string) (os : list option_word)
    (bad : list string) :
  c_env (w_cfg w) "HOME" = Some h -> String.length h <= 240 ->
  (has_t os = true -> USER_ok w = Some u) ->
  misused bad = true ->
  main (argv0 :: command_line os ++ bad) w
  = (Exit 1, put_lines (usage_lines argv0) w).
Proof.
  intros Hh Hl Hu Hbad. unfold main.
  unfold bind at 1. rewrite (getenv_safe_ok _ _ _ _ Hh Hl).
  unfold bind at 1.
  rewrite (main_options_prefix argv0 u bad w os) by exact Hu.
  destruct (run_options u os _) as [g l].
  rewrite (main_options_misused argv0 bad g l w Hbad). reflexivity.
Qed.

Lemma usage_error_witness :
  let w := sample_world alice "secret1" [Some "secret1"%string] [5%N] in
  main ["vncpasswd"; "-t"; "-o"; "-display"]%string w
  = (Exit 1, put_lines (usage_lines "vncpasswd") w).
Proof.
  intros w.
  assert (Hlen : String.length "/home/alice" <= 240) by (cbn; lia).
  exact (usage_error w "vncpasswd" "/home/alice" "alice" [O_t; O_o]
           ["-display"%string] eq_refl Hlen (fun _ => eq_refl) eq_refl).
Defined.

(** X10: an option is told by its second character alone: two first
    arguments that begin with a dash and agree in the second character,
    other than [d], make [main] behave the same, whatever follows the
    character ([-force] is [-f], [-version] is [-v]). *)
Theorem option_letter_decides (argv0 a b : string) (rest : list string)
    (w : world) :
  char_at a 0 = "-"%char -> char_at b 0 = "-"%char ->
  char_at a 1 = char_at b 1 -> char_at a 1 <> "d"%char ->
  main (argv0 :: a :: rest) w = main (argv0 :: b :: rest) w.
Proof.
  intros Ha Hb Hab Hd. unfold main.
  cbn [main_options]. rewrite Ha, Hb, <- Hab.
  apply Ascii.eqb_neq in Hd. rewrite Hd.
  change (negb ("-" =? "-")%char) with false. cbv iota.
  reflexivity.
Qed.

Lemma option_letter_decides_witness :
  let w := sample_world alice "secret1" [] [] in
  main ["vncpasswd"; "-force"]%string w = main ["vncpasswd"; "-f"]%string w.
Proof.
  intros w.
  refine (option_letter_decides "vncpasswd" "-force" "-f" [] w
            eq_refl eq_refl eq_refl _).
  discriminate.
Defined.

(** *** What the options leave in the variables, continued *)

Lemma run_options_alsoView (u : string) (os : list option_word) : forall g l,
  alsoView (fst (run_options u os (g, l))) = alsoView g || has_v os.
Proof.
  unfold has_v.
  induction os as [|o os IH]; intros g l; simpl; [now rewrite orb_false_r|].
  destruct o; simpl; rewrite IH; simpl; auto using orb_true_r.
Qed.

Lemma run_options_reads (u : string) (os : list option_word) : forall g l,
  read_from_stdin (snd (run_options u os (g, l)))
  = fold_left (fun b o => match o with O_f => true | O_t => false | _ => b end)
              os (read_from_stdin l).
Proof.
  induction os as [|o os IH]; intros g l; simpl; [reflexivity|].
  destruct o; simpl; rewrite IH; reflexivity.
Qed.


(** The run of [main] up to the file argument. *)
Ltac enter_file argv0 u h os file more w Hst Hu Hh Hl Ho Ha :=
  unfold main;
  unfold bind at 1; rewrite (getenv_safe_ok _ _ _ _ Hh Hl);
  unfold bind at 1;
  rewrite (main_options_words argv0 u (file :: more) w Hst) by exact Hu;
  fold (locals0 h);
  let Hotp := fresh "Hotp" in
  let Hacl := fresh "Hacl" in
  let Hview := fresh "Hview" in
  let Hr := fresh "Hr" in
  pose proof (run_options_otp u os globals0 (locals0 h)) as Hotp;
  pose proof (run_options_userList u os globals0 (locals0 h)) as Hacl;
  pose proof (run_options_alsoView u os globals0 (locals0 h)) as Hview;
  pose proof (run_options_reads u os globals0 (locals0 h)) as Hr;
  let g := fresh "g" in
  let l := fresh "l" in
  destruct (run_options u os (globals0, locals0 h)) as [g l];
  cbn [fst snd globals0 otp userList alsoView orb locals0 read_from_stdin] in *;
  fold (reads_stdin os) in Hr;
  unfold has_otp, has_acl in *; rewrite Ho in Hotp; rewrite Ha in Hacl;
  rewrite Hotp, Hacl; run.

(** X11: outside the X server modes, a file argument of more than 262 bytes
    ends the program with exit code 1 and the message that the name is too
    long, and a file argument after options that leave [-f] in force (no
    [-t] after the last [-f]) ends it with the message that a file name
    cannot be given with [-f]; in both cases nothing but stderr has
    changed: nothing was read and no directory made, also when [-t] was
    given. *)
Theorem file_argument_refused (w : world) (argv0 h u file : string)
    (more : list string) (os : list option_word) :
  has_otp os = false -> has_acl os = false ->
  (has_t os = true -> USER_ok w = Some u) ->
  c_env (w_cfg w) "HOME" = Some h -> String.length h <= 240 ->
  stops (file :: more) = true ->
  (262 < String.length file ->
   main (argv0 :: command_line os ++ file :: more) w
   = (Exit 1, put_stderr ("Error: file name too long" +s+ nl) w))
  /\ (String.length file <= 262 -> reads_stdin os = true ->
      main (argv0 :: command_line os ++ file :: more) w
      = (Exit 1, put_stderr ("Error: cannot specify filename with -f" +s+ nl) w)).
Proof.
  intros Ho Ha Hu Hh Hl Hst. split.
  - intros Hlong.
    enter_file argv0 u h os file more w Hst Hu Hh Hl Ho Ha.
    replace (Nat.ltb (263 - 1) (String.length file)) with true
      by (symmetry; apply Nat.ltb_lt; simpl; lia).
    reflexivity.
  - intros Hfile Hreads.
    enter_file argv0 u h os file more w Hst Hu Hh Hl Ho Ha.
    replace (Nat.ltb (263 - 1) (String.length file)) with false
      by (symmetry; apply Nat.ltb_ge; simpl; lia).
    rewrite Hr, Hreads. reflexivity.
Qed.

Lemma file_argument_refused_witness :
  let w := sample_world alice "secret1" [] [] in
  main ["vncpasswd"; "-t"; "-f"; "-v"; "passwd.txt"]%string w
  = (Exit 1, put_stderr ("Error: cannot specify filename with -f" +s+ nl) w).
Proof.
  intros w.
  assert (Hlen : String.length "/home/alice" <= 240) by (cbn; lia).
  assert (Hfile : String.length "passwd.txt" <= 262) by (cbn; lia).
  destruct (file_argument_refused w "vncpasswd" "/home/alice" "alice"
              "passwd.txt" [] [O_t; O_f; O_v]
              eq_refl eq_refl (fun _ => eq_refl) eq_refl Hlen eq_refl)
    as [_ H].
  exact (H Hfile eq_refl).
Defined.

(** ** Batch mode *)



Lemma fgets_take_full (n : nat) : forall l more,
  length l = n -> ~ In newline l -> fgets_take n (l ++ more) = (l, more).
Proof.
  induction n as [|n IH]; intros l more Hl Hn.
  - destruct l; [reflexivity|discriminate].
  - destruct l as [|c l]; [discriminate|].
    simpl. destruct (Ascii.eqb c newline) eqn:E.
    + apply Ascii.eqb_eq in E. exfalso. apply Hn. left. auto.
    + rewrite IH; [reflexivity| simpl in Hl; lia |].
      intros H. apply Hn. right. exact H.
Qed.

Lemma line_of_app (n : nat) : forall l more,
  length l = n -> line_of n (l ++ more) = line_of n l.
Proof.
  induction n as [|n IH]; intros l more Hl.
  - destruct l; [|discriminate]. simpl. destruct more; reflexivity.
  - destruct l as [|c l]; [discriminate|].
    simpl. destruct (_ || _); [reflexivity|].
    rewrite IH by (simpl in Hl; lia). reflexivity.
Qed.

(** Batch mode with a stream that goes on after its first line. *)
Lemma main_batch_two (w : world) (argv0 h : string) (os : list option_word) :
  has_f os = true -> has_t os = false ->
  has_otp os = false -> has_acl os = false ->
  c_env (w_cfg w) "HOME" = Some h -> String.length h <= 240 ->
  w_stdin w <> [] ->
  let second := snd (fgets_take 255 (w_stdin w)) in
  second <> [] ->
  let primary := firstn 8 (line_of 255 (w_stdin w)) in
  let view := firstn 8 (line_of 255 second) in
  exists out w',
    main (argv0 :: command_line os) w = (out, w')
    /\ w_stdin w' = snd (fgets_take 255 second)
    /\ w_events w' = w_events w ++ [EvStore primary (Some view) "-"]
    /\ (c_store_ok (w_cfg w) primary (Some view) "-" = true ->
        exists m, out = Ret m /\ main_value m = 0%Z)
    /\ (c_store_ok (w_cfg w) primary (Some view) "-" = false -> out = Exit 1).
Proof.
  intros Hf Ht Ho Ha Hh Hl Hs second Hsecond primary view.
  enter_batch argv0 os w Hf Ht Ho Ha Hh Hl.
  unfold uninit. run.
  set (junk := map (c_junk (w_cfg w)) (seq 0 9)).
  assert (Hjunk : 9 <= length junk) by (unfold junk; rewrite uninit_length; lia).
  destruct (read_password_reads junk w Hs Hjunk) as (r1 & -> & Hv & Hres & _).
  rewrite Hv. change (Z.eqb 1 0) with false. run.
  match goal with |- context [read_password junk ?x] => set (w1 := x) end.
  assert (Hs1 : w_stdin w1 = second)
    by (unfold w1; cbv zeta; destruct (Nat.ltb 8 _); reflexivity).
  assert (Hc1 : w_cfg w1 = w_cfg w)
    by (unfold w1; cbv zeta; destruct (Nat.ltb 8 _); reflexivity).
  assert (He1 : w_events w1 = w_events w)
    by (unfold w1; cbv zeta; destruct (Nat.ltb 8 _); reflexivity).
  assert (Hs1' : w_stdin w1 <> []) by (rewrite Hs1; assumption).
  destruct (read_password_reads junk w1 Hs1' Hjunk) as (r2 & -> & Hv2 & Hres2 & _).
  match goal with |- context [vncEncryptAndStorePasswd2 _ _ _ ?x] =>
    set (w2 := x) end.
  assert (Hs2 : w_stdin w2 = snd (fgets_take 255 second))
    by (unfold w2; cbv zeta; rewrite Hs1;
        destruct (Nat.ltb 8 (length (line_of 255 second))); reflexivity).
  assert (Hc2 : w_cfg w2 = w_cfg w)
    by (unfold w2; cbv zeta;
        destruct (Nat.ltb 8 (length (line_of 255 (w_stdin w1)))); exact Hc1).
  assert (He2 : w_events w2 = w_events w)
    by (unfold w2; cbv zeta;
        destruct (Nat.ltb 8 (length (line_of 255 (w_stdin w1)))); exact He1).
  rewrite Hv2.
  change (negb (Z.eqb 1 0)) with true. cbv iota.
  unfold vncEncryptAndStorePasswd2. run. cbn [option_map].
  rewrite Hres, Hres2, Hc2, Hs1. fold primary. fold view.
  destruct (c_store_ok (w_cfg w) primary (Some view) "-") eqn:Hok; run;
    eexists; eexists; (split; [reflexivity|]); cbn; rewrite Hs2, He2;
    repeat split; try discriminate; eauto.
Qed.

(** X13: with [-f] in force, when standard input goes on after what the
    first read took, a second read takes place and its line, cut to eight
    bytes, is stored as the view-only password together with the first;
    [main] returns 0 when the storing succeeds and exits with 1 otherwise.
    Two reads are made and no more: what follows them is left unread. *)
Theorem batch_two_passwords (w : world) (argv0 h : string)
    (os : list option_word) :
  has_f os = true -> has_t os = false ->
  has_otp os = false -> has_acl os = false ->
  c_env (w_cfg w) "HOME" = Some h -> String.length h <= 240 ->
  w_stdin w <> [] ->
  let second := snd (fgets_take 255 (w_stdin w)) in
  second <> [] ->
  let primary := firstn 8 (line_of 255 (w_stdin w)) in
  let view := firstn 8 (line_of 255 second) in
  exists out w',
    main (argv0 :: command_line os) w = (out, w')
    /\ w_stdin w' = snd (fgets_take 255 second)
    /\ w_events w' = w_events w ++ [EvStore primary (Some view) "-"]
    /\ (c_store_ok (w_cfg w) primary (Some view) "-" = true ->
        exists m, out = Ret m /\ main_value m = 0%Z)
    /\ (c_store_ok (w_cfg w) primary (Some view) "-" = false -> out = Exit 1).
Proof.
  intros Hf Ht Ho Ha Hh Hl Hs second Hsecond.
  exact (main_batch_two w argv0 h os Hf Ht Ho Ha Hh Hl Hs Hsecond).
Qed.

Lemma batch_two_passwords_witness :
  let stdin := ("secret1" +s+ nl +s+ "viewonly9" +s+ nl +s+ "third")%string in
  exists out w',
    main ["vncpasswd"; "-f"]%string (sample_world alice stdin [] []) = (out, w')
    /\ w_stdin w' = chars "third"
    /\ w_events w' = [EvStore (chars "secret1") (Some (chars "viewonly")) "-"]
    /\ (true = true -> exists m, out = Ret m /\ main_value m = 0%Z)
    /\ (true = false -> out = Exit 1).
Proof.
  intros stdin.
  assert (Hlen : String.length "/home/alice" <= 240) by (cbn; lia).
  assert (H1 : w_stdin (sample_world alice stdin [] []) <> []) by discriminate.
  assert (H2 : snd (fgets_take 255 (w_stdin (sample_world alice stdin [] []))) <> [])
    by discriminate.
  exact (batch_two_passwords (sample_world alice stdin [] []) "vncpasswd"
           "/home/alice" [O_f] eq_refl eq_refl eq_refl eq_refl eq_refl Hlen H1 H2).
Defined.

(** X14: a read takes at most 255 bytes.  With [-f] in force, when standard
    input begins with 255 bytes without a newline and goes on, the first
    password is taken from those 255 bytes and what follows them, up to its
    own line end, is taken as a second line: its first eight bytes are
    stored as the view-only password. *)
Theorem long_line_spills (w : world) (argv0 h : string) (os : list option_word)
    (l more : list ascii) :
  has_f os = true -> has_t os = false ->
  has_otp os = false -> has_acl os = false ->
  c_env (w_cfg w) "HOME" = Some h -> String.length h <= 240 ->
  w_stdin w = l ++ more -> length l = 255 -> ~ In newline l -> more <> [] ->
  exists out w',
    main (argv0 :: command_line os) w = (out, w')
    /\ w_events w' = w_events w ++
         [EvStore (firstn 8 (line_of 255 l))
                  (Some (firstn 8 (line_of 255 more))) "-"].
Proof.
  intros Hf Ht Ho Ha Hh Hl Hs Hlen Hnl Hmore.
  assert (Hs0 : w_stdin w <> []).
  { rewrite Hs. destruct l; [discriminate|]. discriminate. }
  assert (Htake : snd (fgets_take 255 (w_stdin w)) = more)
    by (rewrite Hs, fgets_take_full by assumption; reflexivity).
  assert (Hsecond : snd (fgets_take 255 (w_stdin w)) <> [])
    by (rewrite Htake; assumption).
  destruct (main_batch_two w argv0 h os Hf Ht Ho Ha Hh Hl Hs0 Hsecond)
    as (out & w' & E & _ & Hev & _).
  exists out, w'. split; [exact E|].
  rewrite Hev, Htake, Hs, line_of_app by assumption. reflexivity.
Qed.

Lemma long_line_spills_witness :
  let l := repeat "a"%char 255 in
  let more := chars "tail" ++ [newline] in
  let w := mkWorld alice (fun _ => Lstat_err ENOENT) (l ++ more) [] [] [] [] [] in
  exists out w',
    main ["vncpasswd"; "-f"]%string w = (out, w')
    /\ w_events w' =
         [EvStore (firstn 8 (line_of 255 l))
                  (Some (firstn 8 (line_of 255 more))) "-"].
Proof.
  intros l more w.
  assert (Hlen : String.length "/home/alice" <= 240) by (cbn; lia).
  assert (Hl : length l = 255) by (apply repeat_length).
  assert (Hn : ~ In newline l).
  { intros H. apply repeat_spec in H. discriminate H. }
  assert (Hm : more <> []) by discriminate.
  exact (long_line_spills w "vncpasswd" "/home/alice" [O_f] l more
           eq_refl eq_refl eq_refl eq_refl eq_refl Hlen eq_refl Hl Hn Hm).
Defined.

(** ** What [read_password] leaves in its own array *)

Lemma memset_middle (c : ascii) (a m r : list ascii) :
  memset (a ++ m ++ r) (length a) c (length m) = a ++ repeat c (length m) ++ r.
Proof.
  induction a as [|x a IH]; simpl.
  - induction m as [|y m IHm]; simpl.
    + destruct r; reflexivity.
    + rewrite IHm. reflexivity.
  - rewrite IH. reflexivity.
Qed.

Lemma strlen_nul_free (d r : list ascii) :
  ~ In NUL d -> strlen (d ++ NUL :: r) = length d.
Proof.
  induction d as [|x d IH]; intros H; simpl; [reflexivity|].
  destruct (Ascii.eqb x NUL) eqn:E.
  - apply Ascii.eqb_eq in E. exfalso. apply H. left. exact E.
  - rewrite IH; [reflexivity|]. intros Hd. apply H. right. exact Hd.
Qed.

Lemma repeat_app_cons (c : ascii) (k : nat) (r : list ascii) :
  repeat c (S k) ++ r = c :: repeat c k ++ r.
Proof. reflexivity. Qed.

(** A NUL-free string followed by at least one NUL: what wiping and
    truncating do to the whole array. *)
Lemma wipe_padded (d r : list ascii) (k : nat) :
  ~ In NUL d ->
  let b := d ++ repeat NUL (S k) ++ r in
  memset b 0 NUL (strlen b) = repeat NUL (length d + S k) ++ r.
Proof.
  intros Hd b. unfold b. rewrite repeat_app_cons.
  rewrite strlen_nul_free by assumption.
  rewrite <- repeat_app_cons.
  pose proof (memset_middle NUL [] d (repeat NUL (S k) ++ r)) as H.
  cbn [app length] in H. rewrite H.
  rewrite app_assoc, <- repeat_app. reflexivity.
Qed.

Lemma truncate8_padded (d r : list ascii) (k : nat) :
  ~ In NUL d ->
  truncate8 (d ++ repeat NUL (S k) ++ r)
  = firstn 8 d ++ repeat NUL (S (length d - 8 + k)) ++ r.
Proof.
  intros Hd. unfold truncate8. rewrite repeat_app_cons.
  rewrite strlen_nul_free by assumption.
  rewrite <- repeat_app_cons.
  destruct (Nat.ltb 8 (length d)) eqn:E.
  - apply Nat.ltb_lt in E.
    assert (H8 : length (firstn 8 d) = 8) by (rewrite length_firstn; lia).
    assert (Hs : length (skipn 8 d) = length d - 8) by apply length_skipn.
    pose proof (memset_middle NUL (firstn 8 d) (skipn 8 d)
                  (repeat NUL (S k) ++ r)) as H.
    rewrite app_assoc, firstn_skipn, H8, Hs in H. rewrite H.
    f_equal. rewrite app_assoc, <- repeat_app. f_equal. f_equal. lia.
  - apply Nat.ltb_ge in E.
    rewrite firstn_all2 by assumption.
    replace (length d - 8) with 0 by lia. reflexivity.
Qed.

Lemma firstn_nul_free (n : nat) (d : list ascii) :
  ~ In NUL d -> ~ In NUL (firstn n d).
Proof.
  intros H Hin.
  apply H. rewrite <- (firstn_skipn n d). apply in_or_app. left. exact Hin.
Qed.

Lemma strchr_absent (d r : list ascii) (c : ascii) :
  c <> NUL -> ~ In c d -> strchr (d ++ NUL :: r) c = None.
Proof.
  intros Hc. induction d as [|x d IH]; intros H; cbn [app strchr].
  - destruct (Ascii.eqb NUL c) eqn:E; [|reflexivity].
    apply Ascii.eqb_eq in E. congruence.
  - destruct (Ascii.eqb x c) eqn:E.
    + apply Ascii.eqb_eq in E. exfalso. apply H. left. exact E.
    + destruct (Ascii.eqb x NUL); [reflexivity|].
      rewrite IH; [reflexivity|]. intros Hd. apply H. right. exact Hd.
Qed.

Lemma chomp_last_newline (d r : list ascii) :
  ~ In NUL d -> ~ In newline d ->
  chomp ((d ++ [newline]) ++ NUL :: r) = d ++ NUL :: NUL :: r.
Proof.
  unfold chomp. induction d as [|x d IH]; intros Hz Hn.
  - reflexivity.
  - simpl. destruct (Ascii.eqb x newline) eqn:E.
    + apply Ascii.eqb_eq in E. exfalso. apply Hn. left. exact E.
    + destruct (Ascii.eqb x NUL) eqn:E0.
      * apply Ascii.eqb_eq in E0. exfalso. apply Hz. left. exact E0.
      * assert (Hz' : ~ In NUL d) by (intros H; apply Hz; right; exact H).
        assert (Hn' : ~ In newline d) by (intros H; apply Hn; right; exact H).
        specialize (IH Hz' Hn').
        destruct (strchr ((d ++ [newline]) ++ NUL :: r) newline) as [i|];
          simpl; rewrite IH; reflexivity.
Qed.

(** [fgets] takes a newline only as the last character. *)
Lemma fgets_take_newline (n : nat) : forall s,
  let l := fst (fgets_take n s) in
  ~ In newline l \/ exists d, l = d ++ [newline] /\ ~ In newline d.
Proof.
  induction n as [|n IH]; intros s; simpl; [left; auto|].
  destruct s as [|c s]; simpl; [left; auto|].
  destruct (Ascii.eqb c newline) eqn:E; simpl.
  - right. exists []. apply Ascii.eqb_eq in E. subst c. auto.
  - specialize (IH s). destruct (fgets_take n s) as [l r]. simpl in *.
    assert (Hc : c <> newline) by (intros ->; rewrite Ascii.eqb_refl in E; discriminate).
    destruct IH as [IH|(d & -> & Hd)].
    + left. intros [H|H]; auto.
    + right. exists (c :: d). split; [reflexivity|].
      intros [H|H]; auto.
Qed.

(** X15: when the bytes [read_password] takes from standard input (up to
    255, through the newline) hold no NUL, its own array [passwd[256]] is
    left with a zero in every position those bytes and their terminator
    occupied, the rest of the array being as it was found: no byte of the
    line stays in the array. *)
Theorem read_password_wipes_its_line (result : buf) (w : world) :
  w_stdin w <> [] ->
  let l := fst (fgets_take 255 (w_stdin w)) in
  ~ In NUL l ->
  exists r w',
    read_password result w = (Ret r, w')
    /\ read_passwd r
       = repeat NUL (length l + 1)
         ++ skipn (length l + 1) (map (c_junk (w_cfg w)) (seq 0 256)).
Proof.
  intros Hs l Hz.
  unfold read_password, bind, uninit, gets, fgets.
  destruct (w_stdin w) as [|c s] eqn:Es; [contradiction|].
  change (256 - 1) with 255.
  pose proof (fgets_take_length 255 (c :: s)) as Hlen.
  pose proof (fgets_take_newline 255 (c :: s)) as Hnl.
  unfold l in *. clear l.
  destruct (fgets_take 255 (c :: s)) as [l r] eqn:Ef.
  simpl fst in *.
  set (junk := map (c_junk (w_cfg w)) (seq 0 256)).
  assert (Hj : length junk = 256) by apply uninit_length.
  replace (length l + 1) with (length (l ++ [NUL])) by (rewrite length_app; reflexivity).
  rewrite memcpy_prefix by (rewrite length_app; simpl; lia).
  rewrite <- app_assoc.
  set (tail := skipn _ junk).
  change ([NUL] ++ tail) with (NUL :: tail).
  fold (chomp (l ++ NUL :: tail)).
  assert (Hform : exists d k, ~ In NUL d
            /\ chomp (l ++ NUL :: tail) = d ++ repeat NUL (S k) ++ tail
            /\ length d + S k = length (l ++ [NUL])).
  { destruct Hnl as [Hnl|(d & -> & Hd)].
    - exists l, 0. split; [assumption|]. split.
      + unfold chomp. rewrite strchr_absent by (assumption || discriminate).
        reflexivity.
      + rewrite length_app. reflexivity.
    - exists d, 1.
      assert (Hzd : ~ In NUL d)
        by (intros H; apply Hz; apply in_or_app; left; exact H).
      split; [assumption|]. split.
      + rewrite chomp_last_newline by assumption. reflexivity.
      + rewrite !length_app. simpl. lia. }
  destruct Hform as (d & k & Hzd & -> & Hdk).
  fold (truncate8 (d ++ repeat NUL (S k) ++ tail)).
  assert (Hw : forall q, q = truncate8 (d ++ repeat NUL (S k) ++ tail) ->
            memset q 0 NUL (strlen q) = repeat NUL (length (l ++ [NUL])) ++ tail).
  { intros q ->. rewrite truncate8_padded by assumption.
    rewrite wipe_padded by (apply firstn_nul_free; assumption).
    f_equal. f_equal. rewrite length_firstn. lia. }
  unfold truncate8 in *.
  destruct (Nat.ltb 8 (strlen (d ++ repeat NUL (S k) ++ tail)));
    unfold fprintf_stderr, modify, ret; do 2 eexists;
    (split; [reflexivity|]); cbn [read_passwd]; apply Hw; reflexivity.
Qed.

Lemma read_password_wipes_its_line_witness :
  let w := sample_world alice ("0123456789" +s+ nl +s+ "next") [] [] in
  exists r w',
    read_password (repeat "#"%char 9) w = (Ret r, w')
    /\ read_passwd r = repeat NUL 12 ++ repeat "#"%char 244.
Proof.
  intros w.
  assert (Hs : w_stdin w <> []) by discriminate.
  assert (Hz : ~ In NUL (fst (fgets_take 255 (w_stdin w)))).
  { vm_compute. intros H.
    repeat (destruct H as [H|H]; [discriminate H|]). exact H. }
  exact (read_password_wipes_its_line (repeat "#"%char 9) w Hs Hz).
Defined.

(** ** The rounds of [ask_password] *)

(** One round of the loop with two answers, the first long enough. *)
Lemma ask_round (fuel : nat) (result pc : buf) (w : world) (p v : string)
    (rest : list (option string)) :
  w_tty w = Some p :: Some v :: rest ->
  6 <= length (entered p) ->
  let pc1 := strcpy pc (first_answer p w) in
  let t2 := second_answer p v w in
  let w2 := after_round p v rest w in
  ask_password_loop (S fuel) result pc w
  = if strcmp_eq t2 pc1
    then (Ret (mkAsk 1 (strcpy result t2) (memset pc1 0 NUL (strlen pc1))),
          set_getpass (memset t2 0 NUL (strlen t2)) w2)
    else ask_password_loop fuel result pc1 (put_stderr mismatch_message w2).
Proof.
  intros Htty Hp. cbv zeta.
  unfold after_round, second_answer, first_answer.
  cbn [ask_password_loop].
  unfold bind at 1. rewrite (getpass_some _ _ _ _ Htty).
  run.
  set (b1 := chars p ++ NUL :: _).
  assert (Hb1 : cstr b1 = entered p) by apply entered_buffer.
  assert (Hl1 : strlen b1 = length (entered p)) by (now rewrite <- Hb1, cstr_length).
  replace (Nat.ltb (strlen b1) 6) with false by (symmetry; apply Nat.ltb_ge; lia).
  rewrite <- Hl1.
  destruct (truncate8_cases b1) as [[E1 T1]|[E1 T1]]; rewrite E1, T1; run;
    (erewrite getpass_some by (run; reflexivity)); run;
    match goal with |- context [chars v ++ NUL :: ?t] =>
      set (b2 := chars v ++ NUL :: t) end;
    (destruct (truncate8_cases b2) as [[E2 T2]|[E2 T2]]; rewrite E2, T2; run);
    match goal with |- context [strcmp_eq ?a ?b] =>
      destruct (strcmp_eq a b) end; reflexivity.
Qed.

Lemma cstr_first_answer (p : string) (w : world) :
  cstr (first_answer p w) = firstn 8 (entered p).
Proof. unfold first_answer. now rewrite truncate8_cstr, entered_buffer. Qed.

Lemma cstr_second_answer (p v : string) (w : world) :
  cstr (second_answer p v w) = firstn 8 (entered v).
Proof. unfold second_answer. now rewrite truncate8_cstr, entered_buffer. Qed.

Lemma first_answer_terminated (p : string) (w : world) :
  terminated (first_answer p w) /\ strlen (first_answer p w) <= 8.
Proof.
  unfold first_answer. split.
  - apply truncate8_terminated, terminated_app_nul.
  - apply truncate8_strlen.
Qed.

Lemma second_answer_terminated (p v : string) (w : world) :
  terminated (second_answer p v w) /\ strlen (second_answer p v w) <= 8.
Proof.
  unfold second_answer. split.
  - apply truncate8_terminated, terminated_app_nul.
  - apply truncate8_strlen.
Qed.

Lemma cstr_copy (pc : buf) (p : string) (w : world) :
  9 <= length pc -> cstr (strcpy pc (first_answer p w)) = firstn 8 (entered p).
Proof.
  intros H. destruct (first_answer_terminated p w) as [Ht Hs].
  rewrite cstr_strcpy by (assumption || lia). apply cstr_first_answer.
Qed.

Lemma after_round_stderr (p v : string) (rest : list (option string)) (w : world) :
  w_stderr (after_round p v rest w) = w_stderr w ++ warned p.
Proof.
  unfold after_round, warned. cbn [w_stderr].
  destruct (Nat.ltb 8 _); [reflexivity | now rewrite app_nil_r].
Qed.

(** Rounds that are refused, then one that is accepted. *)
Lemma ask_loop_retries (result : buf) (p v : string) (rest : list (option string)) :
  6 <= length (entered p) ->
  firstn 8 (entered p) = firstn 8 (entered v) ->
  9 <= length result ->
  forall (bad : list (string * string)) (fuel : nat) (pc : buf) (w : world),
    9 <= length pc ->
    Forall refused bad ->
    w_tty w = answers bad ++ Some p :: Some v :: rest ->
    exists r w',
      ask_password_loop (length bad + S fuel) result pc w = (Ret r, w')
      /\ ask_value r = 1%Z
      /\ cstr (ask_result r) = firstn 8 (entered p)
      /\ w_tty w' = rest
      /\ w_stderr w' = w_stderr w ++ refusals bad ++ warned p
      /\ w_events w' = w_events w ++ prompts (S (length bad)).
Proof.
  intros Hp Heq Hres.
  induction bad as [|[a b] bad IH]; intros fuel pc w Hpc Hbad Htty.
  - cbn [answers flat_map app] in Htty. cbn [length Nat.add].
    rewrite (ask_round fuel result pc w p v rest Htty Hp). cbv zeta.
    assert (Hcmp : strcmp_eq (second_answer p v w)
                     (strcpy pc (first_answer p w)) = true)
      by (apply strcmp_eq_spec; rewrite cstr_copy, cstr_second_answer;
          [symmetry; assumption | assumption]).
    rewrite Hcmp.
    destruct (second_answer_terminated p v w) as [Ht Hs].
    eexists; eexists; split; [reflexivity|].
    cbn [ask_value ask_result].
    split; [reflexivity|].
    split; [rewrite cstr_strcpy by (assumption || lia);
            rewrite cstr_second_answer; symmetry; assumption|].
    split; [reflexivity|].
    split; [change (w_stderr (set_getpass _ ?x)) with (w_stderr x);
            rewrite after_round_stderr; reflexivity|].
    cbn. rewrite <- app_assoc. reflexivity.
  - inversion Hbad as [|x xs [Ha Hne] Hbad']; subst. cbn [fst snd] in *.
    cbn [answers flat_map app] in Htty. fold (answers bad) in Htty.
    cbn [length Nat.add].
    rewrite (ask_round (length bad + S fuel) result pc w a b _ Htty Ha).
    cbv zeta.
    assert (Hcmp : strcmp_eq (second_answer a b w)
                     (strcpy pc (first_answer a w)) = false).
    { destruct (strcmp_eq _ _) eqn:Hq; [|reflexivity].
      apply strcmp_eq_spec in Hq.
      rewrite cstr_copy, cstr_second_answer in Hq by assumption.
      congruence. }
    rewrite Hcmp.
    set (w1 := put_stderr mismatch_message _).
    destruct (IH fuel (strcpy pc (first_answer a w)) w1)
      as (r & w' & E & Hv & Hr & Ht & Herr & Hev).
    + rewrite strcpy_length. assumption.
    + assumption.
    + reflexivity.
    + exists r, w'. split; [exact E|].
      split; [exact Hv|]. split; [exact Hr|]. split; [exact Ht|].
      split.
      { rewrite Herr. unfold w1.
        change (w_stderr (put_stderr ?m ?x)) with (w_stderr x ++ [m]).
        rewrite after_round_stderr. cbn [refusals flat_map fst].
        fold (refusals bad). rewrite <- !app_assoc. reflexivity. }
      rewrite Hev. unfold w1. cbn [w_events put_stderr after_round].
      unfold prompts. cbn [repeat concat].
      rewrite <- !app_assoc. reflexivity.
Qed.

(** X16: [ask_password] starts over after every round whose confirmation
    differs from a first answer of six bytes or more in the first eight
    bytes, writing the mismatch message (after the truncation warning when
    the first answer had more than eight bytes); the first round that agrees
    ends it with value 1 and the first eight bytes of that round's answer in
    the caller's array.  It has prompted twice per round and taken exactly
    the answers of these rounds from the terminal. *)
Theorem ask_password_retries (result : buf) (w : world)
    (bad : list (string * string)) (p v : string) (rest : list (option string)) :
  9 <= length result ->
  Forall refused bad ->
  6 <= length (entered p) ->
  firstn 8 (entered p) = firstn 8 (entered v) ->
  w_tty w = answers bad ++ Some p :: Some v :: rest ->
  exists r w',
    ask_password result w = (Ret r, w')
    /\ ask_value r = 1%Z
    /\ cstr (ask_result r) = firstn 8 (entered p)
    /\ w_tty w' = rest
    /\ w_stderr w' = w_stderr w ++ refusals bad ++ warned p
    /\ w_events w' = w_events w ++ prompts (S (length bad)).
Proof.
  intros Hres Hbad Hp Heq Htty.
  unfold ask_password.
  unfold bind at 1, uninit at 1, gets at 1.
  unfold bind at 1, gets at 1.
  set (junk := map _ (seq 0 9)).
  assert (Hj : 9 <= length junk) by (unfold junk; rewrite uninit_length; lia).
  assert (Hfuel : S (length (w_tty w))
                  = length bad + S (length bad + S (S (length rest)))).
  { rewrite Htty, length_app. cbn [length].
    assert (Ha : length (answers bad) = 2 * length bad).
    { clear. induction bad as [|x bad IH]; [reflexivity|].
      cbn [answers flat_map length app]. fold (answers bad). rewrite IH. lia. }
    rewrite Ha. lia. }
  rewrite Hfuel.
  exact (ask_loop_retries result p v rest Hp Heq Hres bad
           (length bad + S (S (length rest))) junk w Hj Hbad Htty).
Qed.

Lemma ask_password_retries_witness :
  exists r w',
    ask_password (repeat "#"%char 9)
      (sample_world alice EmptyString
         [Some "secret1"; Some "secret2"; Some "0123456789"; Some "0123456";
          Some "hunter22"; Some "hunter22"; Some "spare"]%string []) = (Ret r, w')
    /\ ask_value r = 1%Z
    /\ cstr (ask_result r) = chars "hunter22"
    /\ w_tty w' = [Some "spare"%string]
    /\ w_stderr w' = [mismatch_message; truncation_warning; mismatch_message]
    /\ w_events w' = prompts 3.
Proof.
  assert (Hres : 9 <= length (repeat "#"%char 9)) by (cbn; lia).
  assert (Hbad : Forall refused [("secret1", "secret2"); ("0123456789", "0123456")]%string).
  { repeat constructor; cbn; try lia; discriminate. }
  assert (Hp : 6 <= length (entered "hunter22")) by (cbn; lia).
  exact (ask_password_retries (repeat "#"%char 9)
           (sample_world alice EmptyString
              [Some "secret1"; Some "secret2"; Some "0123456789"; Some "0123456";
               Some "hunter22"; Some "hunter22"; Some "spare"]%string [])
           [("secret1", "secret2"); ("0123456789", "0123456")]%string
           "hunter22" "hunter22" [Some "spare"%string]
           Hres Hbad Hp eq_refl eq_refl).
Defined.

(** ** What [ask_password] leaves in memory when it succeeds *)

Lemma strcpy_nul_free (d : list ascii) : forall (dst r : buf),
  ~ In NUL d -> length d < length dst ->
  strcpy dst (d ++ NUL :: r) = d ++ NUL :: skipn (S (length d)) dst.
Proof.
  induction d as [|c d IH]; intros dst r Hd Hl.
  - destruct dst as [|x dst]; [simpl in Hl; lia|]. reflexivity.
  - destruct dst as [|x dst]; [simpl in Hl; lia|].
    cbn [app strcpy].
    destruct (Ascii.eqb c NUL) eqn:E.
    + apply Ascii.eqb_eq in E. exfalso. apply Hd. left. exact E.
    + rewrite IH; [reflexivity | | simpl in Hl; lia].
      intros H. apply Hd. right. exact H.
Qed.

Lemma entered_nul_free (p : string) : ~ In NUL (chars p) -> entered p = chars p.
Proof.
  intros H. unfold entered, literal, cstr.
  rewrite strlen_nul_free by assumption.
  rewrite firstn_app, Nat.sub_diag, firstn_all. cbn [firstn].
  apply app_nil_r.
Qed.

Lemma skipn_repeat (c : ascii) (n m : nat) :
  skipn n (repeat c m) = repeat c (m - n).
Proof.
  revert m. induction n as [|n IH]; intros m.
  - now rewrite Nat.sub_0_r.
  - destruct m as [|m]; [reflexivity|]. simpl. apply IH.
Qed.

Lemma first_answer_padded (p : string) (w : world) :
  ~ In NUL (chars p) ->
  first_answer p w
  = firstn 8 (chars p) ++ repeat NUL (S (String.length p - 8))
    ++ skipn (S (String.length p)) (w_getpass w).
Proof.
  intros H. unfold first_answer, literal.
  rewrite length_app, length_chars, Nat.add_1_r.
  change (chars p ++ NUL :: ?t) with (chars p ++ repeat NUL 1 ++ t).
  rewrite truncate8_padded by assumption.
  rewrite length_chars, Nat.add_0_r. reflexivity.
Qed.

(** The second answer laid over the first in the static buffer. *)
Lemma second_answer_padded (p v : string) (w : world) :
  ~ In NUL (chars p) -> ~ In NUL (chars v) ->
  firstn 8 (chars p) = firstn 8 (chars v) ->
  let m := Nat.max (String.length p) (String.length v) in
  second_answer p v w
  = firstn 8 (chars v) ++ repeat NUL (S (m - Nat.min 8 (String.length v)))
    ++ skipn (S m) (w_getpass w).
Proof.
  intros Hp Hv Heq m. unfold second_answer, literal.
  rewrite length_app, length_chars, Nat.add_1_r.
  change (chars v ++ NUL :: ?t) with (chars v ++ repeat NUL 1 ++ t).
  rewrite truncate8_padded by assumption.
  rewrite length_chars, Nat.add_0_r.
  rewrite first_answer_padded by assumption.
  assert (Hlen : Nat.min 8 (String.length p) = Nat.min 8 (String.length v)).
  { apply (f_equal (@length ascii)) in Heq.
    rewrite !length_firstn, !length_chars in Heq. exact Heq. }
  rewrite !skipn_app, !length_firstn, length_chars, repeat_length.
  rewrite skipn_all2 by (rewrite length_firstn, length_chars; lia).
  rewrite skipn_repeat, skipn_skipn. cbn [app].
  f_equal. rewrite app_assoc, <- repeat_app.
  f_equal; [f_equal; unfold m; lia|].
  f_equal. unfold m. lia.
Qed.

(** X17: when [ask_password] succeeds at once on two answers without NUL,
    nothing of either answer stays outside the caller's array: the static
    buffer of getpass holds zeros over every position the longer of the two
    answers and its terminator occupied and is otherwise as before; the
    local array [passwd_copy] holds zeros over the copied string and its
    terminator; the caller's array holds the first eight bytes of the
    answer and a terminator. *)
Theorem ask_password_success_wipes (result : buf) (w : world) (p v : string)
    (rest : list (option string)) :
  9 <= length result ->
  w_tty w = Some p :: Some v :: rest ->
  ~ In NUL (chars p) -> ~ In NUL (chars v) ->
  6 <= String.length p ->
  firstn 8 (chars p) = firstn 8 (chars v) ->
  let m := Nat.max (String.length p) (String.length v) in
  let k := Nat.min 8 (String.length p) in
  exists r w',
    ask_password result w = (Ret r, w')
    /\ ask_value r = 1%Z
    /\ ask_result r = firstn 8 (chars p) ++ NUL :: skipn (S k) result
    /\ ask_passwd_copy r
       = repeat NUL (S k) ++ skipn (S k) (map (c_junk (w_cfg w)) (seq 0 9))
    /\ w_getpass w' = repeat NUL (S m) ++ skipn (S m) (w_getpass w).
Proof.
  intros Hres Htty Hp Hv Hlen Heq m k.
  assert (Hk : Nat.min 8 (String.length p) = Nat.min 8 (String.length v)).
  { apply (f_equal (@length ascii)) in Heq.
    rewrite !length_firstn, !length_chars in Heq. exact Heq. }
  assert (HF : length (firstn 8 (chars p)) = k)
    by (rewrite length_firstn, length_chars; reflexivity).
  assert (HFz : ~ In NUL (firstn 8 (chars p))) by (apply firstn_nul_free; assumption).
  unfold ask_password.
  unfold bind at 1, uninit at 1, gets at 1.
  unfold bind at 1, gets at 1.
  set (junk := map _ (seq 0 9)).
  assert (Hj : length junk = 9) by apply uninit_length.
  assert (Hp6 : 6 <= length (entered p))
    by (rewrite entered_nul_free, length_chars; assumption).
  rewrite (ask_round _ result junk w p v rest Htty Hp6). cbv zeta.
  assert (Hcmp : strcmp_eq (second_answer p v w)
                   (strcpy junk (first_answer p w)) = true).
  { apply strcmp_eq_spec. rewrite cstr_copy, cstr_second_answer by lia.
    rewrite !entered_nul_free by assumption. symmetry. assumption. }
  rewrite Hcmp.
  eexists; eexists; split; [reflexivity|].
  cbn [ask_value ask_result ask_passwd_copy w_getpass set_getpass].
  split; [reflexivity|].
  rewrite (second_answer_padded p v w Hp Hv Heq).
  rewrite (first_answer_padded p w Hp).
  fold m.
  split; [|split].
  - rewrite <- Heq.
    change (repeat NUL (S ?n) ++ ?t) with (NUL :: repeat NUL n ++ t).
    rewrite strcpy_nul_free by (assumption || lia).
    rewrite HF. reflexivity.
  - change (repeat NUL (S (String.length p - 8)) ++ ?t)
      with (NUL :: repeat NUL (String.length p - 8) ++ t).
    rewrite strcpy_nul_free by (assumption || lia).
    rewrite HF.
    change (firstn 8 (chars p) ++ NUL :: ?t)
      with (firstn 8 (chars p) ++ repeat NUL 1 ++ t).
    rewrite wipe_padded by assumption.
    rewrite HF, Nat.add_1_r. reflexivity.
  - rewrite wipe_padded by (apply firstn_nul_free; assumption).
    f_equal. f_equal. rewrite length_firstn, length_chars. unfold m. lia.
Qed.

Lemma nul_free_chars (s : string) :
  forallb (fun c => negb (Ascii.eqb c NUL)) (chars s) = true -> ~ In NUL (chars s).
Proof.
  intros H Hin. rewrite forallb_forall in H. specialize (H NUL Hin).
  discriminate H.
Qed.

Lemma ask_password_success_wipes_witness :
  let w := mkWorld alice (fun _ => Lstat_err ENOENT) []
             [Some "0123456789abc"; Some "01234567xy"]%string
             (chars "an older answer, long") [] [] [] in
  exists r w',
    ask_password (repeat "#"%char 9) w = (Ret r, w')
    /\ ask_value r = 1%Z
    /\ ask_result r = chars "01234567" ++ [NUL]
    /\ ask_passwd_copy r = repeat NUL 9
    /\ w_getpass w' = repeat NUL 14 ++ chars "r, long".
Proof.
  intros w.
  assert (Hres : 9 <= length (repeat "#"%char 9)) by (cbn; lia).
  assert (Hp : ~ In NUL (chars "0123456789abc")) by (apply nul_free_chars; reflexivity).
  assert (Hv : ~ In NUL (chars "01234567xy")) by (apply nul_free_chars; reflexivity).
  assert (Hl : 6 <= String.length "0123456789abc") by (cbn; lia).
  exact (ask_password_success_wipes (repeat "#"%char 9) w
           "0123456789abc" "01234567xy" [] Hres eq_refl Hp Hv Hl eq_refl).
Defined.

(** ** The terminal going away *)

(** X18: the answer to the Verify prompt is not checked for NULL: when a
    first answer of six bytes or more is followed by a NULL from getpass
    (or by the end of the terminal), [ask_password] dereferences the NULL
    pointer. *)
Theorem ask_password_verify_fault (result : buf) (w : world) (p : string)
    (t : list (option string)) :
  w_tty w = Some p :: t ->
  hd None t = None ->
  6 <= length (entered p) ->
  exists w', ask_password result w = (Fault, w').
Proof.
  intros Ht Hn Hp.
  unfold ask_password.
  unfold bind at 1, uninit at 1, gets at 1.
  unfold bind at 1, gets at 1.
  exact (ask_loop_verify_null _ result _ w p t Ht Hn Hp).
Qed.

Lemma ask_password_verify_fault_witness :
  exists w',
    ask_password (repeat "#"%char 9)
      (sample_world alice EmptyString [Some "secret"%string] []) = (Fault, w').
Proof.
  refine (ask_password_verify_fault (repeat "#"%char 9)
            (sample_world alice EmptyString [Some "secret"%string] [])
            "secret" [] eq_refl eq_refl _).
  cbn. lia.
Defined.

(** ** [ask_password] keeps to the terminal *)

Lemma terminal_only_refl (w : world) : terminal_only w w.
Proof.
  unfold terminal_only.
  split; [reflexivity|]. split; [reflexivity|]. split; [reflexivity|].
  split; [reflexivity|].
  exists []. split; [now rewrite app_nil_r | constructor].
Qed.

Lemma terminal_only_trans (w1 w2 w3 : world) :
  terminal_only w1 w2 -> terminal_only w2 w3 -> terminal_only w1 w3.
Proof.
  intros (Hc & Hf & Hs & He & evs & Hev & Hp) (Hc' & Hf' & Hs' & He' & evs' & Hev' & Hp').
  unfold terminal_only. rewrite Hc', Hf', Hs', He'.
  split; [assumption|]. split; [assumption|]. split; [assumption|].
  split; [assumption|].
  exists (evs ++ evs'). split.
  - rewrite Hev', Hev, app_assoc. reflexivity.
  - apply Forall_app. split; assumption.
Qed.

Lemma terminal_only_prompt (w : world) (tty : list (option string)) (b : buf)
    (e : event) :
  is_prompt e ->
  terminal_only w
    (mkWorld (w_cfg w) (w_fs w) (w_stdin w) tty b (w_entropy w) (w_stderr w)
             (w_events w ++ [e])).
Proof.
  intros Hp. unfold terminal_only. cbn.
  split; [reflexivity|]. split; [reflexivity|]. split; [reflexivity|].
  split; [reflexivity|].
  exists [e]. split; [reflexivity|]. constructor; [exact Hp | constructor].
Qed.

Lemma getpass_terminal (prompt : string) (w : world) :
  is_prompt (EvGetpass prompt) ->
  exists b w',
    getpass prompt w = (Ret b, w') /\ terminal_only w w'
    /\ w_events w' = w_events w ++ [EvGetpass prompt].
Proof.
  intros Hp. unfold getpass.
  destruct (w_tty w) as [|[s|] t] eqn:Ht; eexists; eexists;
    (split; [reflexivity|]); (split; [|reflexivity]).
  - pose proof (terminal_only_prompt w (w_tty w) (w_getpass w) _ Hp) as H.
    destruct w. exact H.
  - exact (terminal_only_prompt w t _ _ Hp).
  - exact (terminal_only_prompt w t _ _ Hp).
Qed.

Lemma terminal_only_stderr (s : string) (w w1 : world) :
  terminal_only w w1 -> terminal_only w (put_stderr s w1).
Proof.
  intros H. apply (terminal_only_trans w w1); [exact H|].
  unfold terminal_only. cbn.
  split; [reflexivity|]. split; [reflexivity|]. split; [reflexivity|].
  split; [reflexivity|].
  exists []. split; [now rewrite app_nil_r | constructor].
Qed.

Lemma terminal_only_getpass (b : buf) (w w1 : world) :
  terminal_only w w1 -> terminal_only w (set_getpass b w1).
Proof.
  intros H. apply (terminal_only_trans w w1); [exact H|].
  unfold terminal_only. cbn.
  split; [reflexivity|]. split; [reflexivity|]. split; [reflexivity|].
  split; [reflexivity|].
  exists []. split; [now rewrite app_nil_r | constructor].
Qed.

Ltac terminal :=
  repeat first [ assumption
               | apply terminal_only_stderr
               | apply terminal_only_getpass ].

(** The loop keeps to the terminal, never ends the process, and faults
    only on the answer to the Verify prompt. *)
Lemma ask_loop_terminal (fuel : nat) : forall result pc w,
  exists o w',
    ask_password_loop fuel result pc w = (o, w')
    /\ terminal_only w w'
    /\ (forall c, o <> Exit c)
    /\ (o = Fault ->
        exists evs, w_events w' = evs ++ [EvGetpass "Verify:   "]).
Proof.
  induction fuel as [|fuel IH]; intros result pc w.
  - exists OutOfFuel, w. split; [reflexivity|].
    split; [apply terminal_only_refl|]. split; discriminate.
  - cbn [ask_password_loop].
    destruct (getpass_terminal "Password: " w (or_introl eq_refl))
      as (b1 & w1 & E1 & T1 & _).
    unfold bind at 1. rewrite E1.
    destruct b1; cbn [negb].
    2:{ run. eexists; eexists. split; [reflexivity|].
        split; [terminal | split; discriminate]. }
    run.
    destruct (Nat.ltb (strlen (w_getpass w1)) 6).
    { eexists; eexists. split; [reflexivity|].
      split; [terminal | split; discriminate]. }
    destruct (Nat.ltb 8 (strlen (w_getpass w1)));
      match goal with |- context [getpass "Verify:   " ?x] =>
        assert (T2 : terminal_only w x) by terminal;
        destruct (getpass_terminal "Verify:   " x (or_intror eq_refl))
          as (b2 & w3 & E3 & T3 & Hev3);
        rewrite E3;
        pose proof (terminal_only_trans _ _ _ T2 T3) as T3'
      end;
      (destruct b2; cbn [negb];
       [|eexists; eexists; split; [reflexivity|];
         split; [terminal|]; split; [discriminate|];
         intros _; eexists; exact Hev3]);
      destruct (Nat.ltb 8 (strlen (w_getpass w3)));
      match goal with |- context [strcmp_eq ?a ?b] =>
        destruct (strcmp_eq a b) end;
      try (eexists; eexists; split; [reflexivity|];
           split; [terminal | split; discriminate]);
      match goal with |- context [ask_password_loop fuel ?r ?p ?x] =>
        destruct (IH r p x) as (o & w' & E & T & Hx & Hfault)
      end;
      rewrite E; exists o, w'; (split; [reflexivity|]);
      (split; [|split; [exact Hx | exact Hfault]]);
      (eapply terminal_only_trans; [|exact T]); terminal.
Qed.

(** [ask_password] as a whole. *)
Lemma ask_password_frame (result : buf) (w : world) :
  exists o w',
    ask_password result w = (o, w')
    /\ terminal_only w w'
    /\ (forall c, o <> Exit c) /\ o <> OutOfFuel
    /\ (o = Fault ->
        exists evs, w_events w' = evs ++ [EvGetpass "Verify:   "]).
Proof.
  pose proof (ask_password_total result w) as Htotal.
  unfold ask_password in *.
  unfold bind at 1, uninit at 1, gets at 1 in Htotal.
  unfold bind at 1, gets at 1 in Htotal.
  unfold bind at 1, uninit at 1, gets at 1.
  unfold bind at 1, gets at 1.
  destruct (ask_loop_terminal (S (length (w_tty w))) result
              (map (c_junk (w_cfg w)) (seq 0 9)) w) as (o & w' & E & T & Hx & Hf).
  rewrite E in *. exists o, w'. auto 6.
Qed.

(** X19: whatever the terminal delivers, [ask_password] comes to an end
    without ending the process, and it keeps to the terminal: the file
    system, standard input and the random source are as before, and the
    only calls it has made outside the program are getpass prompts. *)
Theorem ask_password_terminal_only (result : buf) (w : world) :
  exists o w',
    ask_password result w = (o, w')
    /\ terminal_only w w'
    /\ (forall c, o <> Exit c) /\ o <> OutOfFuel.
Proof.
  destruct (ask_password_frame result w) as (o & w' & E & T & Hx & Hf & _).
  exists o, w'. auto.
Qed.

(** ** The two acquisitions of [main] at the terminal *)






(** ** The endings of [main] *)





Section Endings.

Variable Q : ending -> world -> Prop.
Hypothesis Q_one : forall w, Q (Exited 1) w.

Lemma ends_ret (A : Type) (a : A) : ends_in Q (ret a).
Proof. intros w o w' e H. injection H as <- _. discriminate. Qed.

Lemma ends_gets (A : Type) (f : world -> A) : ends_in Q (gets f).
Proof. intros w o w' e H. injection H as <- _. discriminate. Qed.

Lemma ends_modify (f : world -> world) : ends_in Q (modify f).
Proof. intros w o w' e H. injection H as <- _. discriminate. Qed.

Lemma ends_exit_one (A : Type) : ends_in Q (@exit A 1).
Proof. intros w o w' e H. injection H as <- <-. intros [= <-]. apply Q_one. Qed.

Lemma ends_bind (A B : Type) (m : M A) (k : A -> M B) :
  ends_in Q m -> (forall a, ends_in Q (k a)) -> ends_in Q (bind m k).
Proof.
  intros Hm Hk w o w' e H He. unfold bind in H.
  destruct (m w) as [[a| | |] w1] eqn:E.
  - exact (Hk a w1 o w' e H He).
  - injection H as <- <-. exact (Hm w _ _ e E He).
  - injection H as <- <-. exact (Hm w _ _ e E He).
  - injection H as <- <-. exact (Hm w _ _ e E He).
Qed.

Lemma ends_when (b : bool) (m : M unit) : ends_in Q m -> ends_in Q (when b m).
Proof. intros H. destruct b; [exact H | apply ends_ret]. Qed.

Lemma ends_mkdir (p : string) (mode : Z) : ends_in Q (mkdir p mode).
Proof.
  intros w o w' e H. unfold mkdir in H.
  destruct (c_mkdir_errno (w_cfg w) p); injection H as <- _; discriminate.
Qed.

Lemma ends_fgets (b : buf) (n : nat) : ends_in Q (fgets b n).
Proof.
  intros w o w' e H. unfold fgets in H.
  destruct (w_stdin w); [injection H as <- _; discriminate|].
  destruct (fgets_take _ _). injection H as <- _. discriminate.
Qed.

Lemma ends_store (p1 : buf) (p2 : option buf) (file : string) :
  ends_in Q (vncEncryptAndStorePasswd2 p1 p2 file).
Proof. intros w o w' e H. injection H as <- _. discriminate. Qed.

Lemma ends_getenv_safe (name : string) (n : nat) : ends_in Q (getenv_safe name n).
Proof.
  intros w o w' e H.
  destruct (getenv_safe_cases name n w) as [(v & _ & _ & E)|(msg & E)];
    rewrite E in H; injection H as <- <-; [discriminate|].
  intros [= <-]. apply Q_one.
Qed.

Lemma ends_main_options (argv0 : string) (args : list string)
    (g : globals) (l : locals) :
  ends_in Q (main_options argv0 args g l).
Proof.
  intros w o w' e H.
  destruct (main_options_shape argv0 w (length args) args (le_n _) g l)
    as [(w1 & E & _)|(g' & l' & r & E & _)]; rewrite E in H;
    injection H as <- <-; [|discriminate].
  intros [= <-]. apply Q_one.
Qed.

End Endings.

(** One step of taking a computation apart along its sequencing. *)
Ltac ends_step Q_one :=
  lazymatch goal with
  | |- ends_in _ (bind _ _) => apply ends_bind; [|intros ?]
  | |- ends_in _ (when _ _) => apply ends_when
  | |- ends_in _ (ret _) => apply ends_ret
  | |- ends_in _ (exit 1) => apply (ends_exit_one _ Q_one)
  | |- ends_in _ (fprintf_stderr _) => apply ends_modify
  | |- ends_in _ (gets _) => apply ends_gets
  | |- ends_in _ (uninit _) => apply ends_gets
  | |- ends_in _ (lstat _) => apply ends_gets
  | |- ends_in _ getuid => apply ends_gets
  | |- ends_in _ (mkdir _ _) => apply ends_mkdir
  | |- ends_in _ (fgets _ _) => apply ends_fgets
  | |- ends_in _ (vncEncryptAndStorePasswd2 _ _ _) => apply ends_store
  | |- ends_in _ (getenv_safe _ _) => apply (ends_getenv_safe _ Q_one)
  | |- ends_in _ (main_options _ _ _ _) => apply (ends_main_options _ Q_one)
  | |- ends_in _ (if ?b then _ else _) => destruct b
  | |- ends_in _ (match ?x with _ => _ end) => destruct x
  end.

Lemma ends_mkdir_and_check (Q : ending -> world -> Prop)
    (Q_one : forall w, Q (Exited 1) w) (dirname : string) (be_strict : bool) :
  ends_in Q (mkdir_and_check dirname be_strict).
Proof. unfold mkdir_and_check. repeat ends_step Q_one. Qed.

Lemma ends_read_password (Q : ending -> world -> Prop)
    (Q_one : forall w, Q (Exited 1) w) (result : buf) :
  ends_in Q (read_password result).
Proof. unfold read_password. repeat ends_step Q_one. Qed.

Lemma ends_ask_password (result : buf) : ends_in main_ending (ask_password result).
Proof.
  intros w o w' e H He.
  destruct (ask_password_frame result w) as (o1 & w1 & E & _ & Hx & Hf & Hfault).
  rewrite E in H. injection H as <- <-.
  destruct o1 as [a|c| |]; cbn in He; try discriminate He;
    injection He as <-; cbn.
  - exfalso. exact (Hx c eq_refl).
  - exact (Hfault eq_refl).
  - exact (Hf eq_refl).
Qed.

(** [DoOTP] returns 0 only after it has written the property and closed
    the display; otherwise it returns 1. *)
Lemma DoOTP_value (g : globals) (w : world) :
  exists r w',
    DoOTP g w = (Ret r, w')
    /\ (otp_value r = 1%Z
        \/ (otp_value r = 0%Z
            /\ exists evs data,
                 w_events w' = evs ++ [EvXChangeProperty "VNC_OTP" data;
                                       EvXCloseDisplay])).
Proof.
  unfold DoOTP.
  unfold bind at 1, uninit at 1, gets at 1.
  unfold bind at 1, uninit at 1, gets at 1.
  set (buf0 := map _ (seq 0 (MAXPWLEN + 1))).
  set (bytes0 := map _ (seq 0 (MAXPWLEN * 2))).
  cbv zeta.
  assert (Hfail : forall (w1 : world),
            exists r w', (Ret (mkDoOTP 1 buf0 bytes0), w1) = (Ret r, w')
              /\ (otp_value r = 1%Z
                  \/ (otp_value r = 0%Z
                      /\ exists evs data,
                           w_events w' = evs ++ [EvXChangeProperty "VNC_OTP" data;
                                                 EvXCloseDisplay])))
    by (intros w1; eexists; eexists; split; [reflexivity | left; reflexivity]).
  unfold bind at 1, XOpenDisplay at 1.
  destruct (c_display_opens (w_cfg w) (displayname g)); cbn [negb].
  2:{ unfold XDisplayName. destruct (displayname g); unfold getenv; run;
      apply Hfail. }
  unfold bind at 1, XInternAtom at 1, gets at 1. run.
  destruct (c_atom_exists (w_cfg w) "VNC_OTP"); cbn [negb].
  2:{ unfold XDisplayName. destruct (displayname g); unfold getenv; run;
      apply Hfail. }
  unfold XChangeProperty, XCloseDisplay, read_urandom, random.
  assert (Hdone : forall (r : DoOTP_ret) (w1 : world) (d : list ascii),
            otp_value r = 0%Z ->
            exists r' w',
              (Ret r, put_event EvXCloseDisplay
                        (put_event (EvXChangeProperty "VNC_OTP" d) w1))
              = (Ret r', w')
              /\ (otp_value r' = 1%Z
                  \/ (otp_value r' = 0%Z
                      /\ exists evs data,
                           w_events w' = evs ++ [EvXChangeProperty "VNC_OTP" data;
                                                 EvXCloseDisplay]))).
  { intros r w1 d Hr. eexists; eexists. split; [reflexivity|]. right.
    split; [exact Hr|]. exists (w_events w1), d. cbn [w_events put_event].
    rewrite <- app_assoc. reflexivity. }
  destruct (otpClear g); run; [apply Hdone; reflexivity|].
  destruct (alsoView g);
    destruct (c_UseDevUrandom (w_cfg w)); run;
    try (destruct (c_urandom_errno (w_cfg w)); run; [apply Hfail|]);
    destruct (w_entropy w) as [|a e] eqn:He; run; rewrite ?He; run;
    try apply Hfail; try (apply Hdone; reflexivity);
    destruct e as [|b e']; run; try apply Hfail; apply Hdone; reflexivity.
Qed.

Lemma DoUserList_value (g : globals) (w : world) :
  exists r w',
    DoUserList g w = (Ret r, w')
    /\ (r = 1%Z
        \/ (r = 0%Z
            /\ exists evs data,
                 w_events w' = evs ++ [EvXChangeProperty "VNC_ACL" data;
                                       EvXCloseDisplay])).
Proof.
  unfold DoUserList.
  unfold bind at 1, uninit at 1, gets at 1. cbv zeta.
  destruct (user g) as [u|]; [|run; eexists; eexists; split; [reflexivity|auto]].
  destruct (Nat.eqb (String.length u) 0);
    [run; eexists; eexists; split; [reflexivity|auto]|].
  destruct (Nat.ltb MAXUSERLEN (String.length u));
    [run; eexists; eexists; split; [reflexivity|auto]|].
  unfold bind at 1, XOpenDisplay at 1.
  destruct (c_display_opens (w_cfg w) (displayname g)); cbn [negb].
  2:{ unfold XDisplayName. destruct (displayname g); unfold getenv; run;
      eexists; eexists; (split; [reflexivity|auto]). }
  unfold bind at 1, XInternAtom at 1, gets at 1. run.
  destruct (c_atom_exists (w_cfg w) "VNC_ACL"); cbn [negb].
  2:{ unfold XDisplayName. destruct (displayname g); unfold getenv; run;
      eexists; eexists; (split; [reflexivity|auto]). }
  unfold XChangeProperty, XCloseDisplay. run.
  eexists; eexists; split; [reflexivity|]; right; split; [reflexivity|].
  cbn [w_events put_event].
  exists (w_events w ++ [EvXOpenDisplay (displayname g)]). eexists.
  rewrite <- app_assoc. reflexivity.
Qed.

Lemma main_ending_one (w : world) : main_ending (Exited 1) w.
Proof. left. reflexivity. Qed.

Lemma ends_DoOTP (g : globals) :
  ends_in main_ending (r <- DoOTP g ;; @exit unit (otp_value r)).
Proof.
  intros w o w' e H He. unfold bind in H.
  destruct (DoOTP_value g w) as (r & w1 & E & Hv). rewrite E in H.
  injection H as <- <-. injection He as <-. cbn.
  destruct Hv as [->|(-> & evs & data & Hev)]; [left; reflexivity|].
  right. split; [reflexivity|]. exists evs, "VNC_OTP"%string, data. exact Hev.
Qed.

Lemma ends_DoUserList (g : globals) :
  ends_in main_ending (r <- DoUserList g ;; @exit unit r).
Proof.
  intros w o w' e H He. unfold bind in H.
  destruct (DoUserList_value g w) as (r & w1 & E & Hv). rewrite E in H.
  injection H as <- <-. injection He as <-. cbn.
  destruct Hv as [->|(-> & evs & data & Hev)]; [left; reflexivity|].
  right. split; [reflexivity|]. exists evs, "VNC_ACL"%string, data. exact Hev.
Qed.

(** The endings of [main] when it has its [argv[0]]. *)
Lemma main_endings (argv0 : string) (args : list string) :
  ends_in main_ending (main (argv0 :: args)).
Proof.
  unfold main.
  repeat first
    [ apply ends_DoOTP | apply ends_DoUserList
    | apply (ends_mkdir_and_check _ main_ending_one)
    | apply (ends_read_password _ main_ending_one)
    | apply ends_ask_password
    | ends_step main_ending_one ].
Qed.

(** X23: the exit codes of the program.  Whatever the arguments and the
    surroundings, when [main] ends the process the exit code is 1 or 0, and
    it is 0 only when the last two calls made were an XChangeProperty and
    the XCloseDisplay after it: exit code 0 means that a property (a
    one-time password, its clearing or an access-control entry) was handed
    to the X server. *)
Theorem main_exit_status (argv : list string) (w w' : world) (c : Z) :
  main argv w = (Exit c, w') ->
  c = 1%Z
  \/ (c = 0%Z
      /\ exists evs prop data,
           w_events w' = evs ++ [EvXChangeProperty prop data; EvXCloseDisplay]).
Proof.
  intros H. destruct argv as [|argv0 args]; [discriminate H|].
  exact (main_endings argv0 args w _ w' (Exited c) H eq_refl).
Qed.

Lemma main_exit_status_witness :
  let w := sample_world alice EmptyString [] [] in
  0%Z = 1%Z
  \/ (0%Z = 0%Z
      /\ exists evs prop data,
           w_events (snd (main ["vncpasswd"; "-c"]%string w))
           = evs ++ [EvXChangeProperty prop data; EvXCloseDisplay]).
Proof.
  intros w.
  exact (main_exit_status ["vncpasswd"; "-c"]%string w _ 0 eq_refl).
Defined.


